(** * Student-performance cleaning script: a shallow embedding

    The program is one Python script, [work/answer_sheet.py].  It loads
    [student_performance.csv] with pandas, prints exploratory statistics
    (Tasks 1-3), runs a seven-step cleaning sequence on the table
    (Task 4) and writes [student_performance_cleaned.csv].

    The embedding follows the script statement by statement.

    - A pandas [Series] is a dtype tag and a list of cells; a [DataFrame]
      is an ordered association list from column names to series.
    - A float64 value is modelled by the rational number it denotes,
      written in lowest terms ([Qred]); rounding error of float
      arithmetic and the infinities are not modelled.  The absent value
      (NaN, pd.NA) is the cell [NaN].  An int64 column is a float64
      column of whole numbers; bool columns are left out.
    - Python exceptions are values of [exn]; a statement that may raise
      returns a [result].  Nothing in the script catches an exception.
    - Global names are looked up, when a statement runs, in a
      [namespace]; [import pandas as pd] binds ["pd"] and nothing else,
      so the script run on its own has [script_globals].  The same
      statements run in a session that has numpy bound to [np]
      beforehand have [with_numpy].
    - pandas and numpy are modelled from their behaviour in pandas 2.x
      (text columns have dtype object).  The two pandas
      primitives that convert between text and floats are parameters of
      the development ([to_float], [float_repr]).
    - [str.strip], [str.lower] and [str.title] are modelled on ASCII;
      bytes above 127 are left alone and count as uncased. *)

From Stdlib Require Import List String Ascii Bool Arith ZArith QArith Qround.
From Stdlib Require Import Qreduction Lia Lqa Permutation Sorted DecimalString.
From Stdlib Require Import DecimalNat.
Import ListNotations.

Local Open Scope string_scope.
Local Open Scope Z_scope.
Local Open Scope list_scope.

(** ** Exceptions and results *)

Inductive exn : Type :=
| NameError (name : string)
| KeyError (key : string)
| TypeError
| EmptyDataError
| ParserError.

Inductive result (A : Type) : Type :=
| Ok (a : A)
| Raise (e : exn).

Arguments Ok {A} a.
Arguments Raise {A} e.

Definition bind {A B : Type} (r : result A) (k : A -> result B) : result B :=
  match r with
  | Ok a => k a
  | Raise e => Raise e
  end.

Notation "x <- r ;; k" := (bind r (fun x => k))
  (at level 61, r at next level, right associativity).
Notation "r ;;; k" := (bind r (fun _ => k))
  (at level 61, right associativity).

(** ** Cells, series and data frames *)

Inductive dtype : Type := object | float64 | Int64.

Inductive cell : Type :=
| NaN
| Str (s : string)
| Num (q : Q).

Record Series : Type := mkSeries { dt : dtype; values : list cell }.

Definition DataFrame : Type := list (string * Series).

Definition Q_eqb (x y : Q) : bool :=
  Z.eqb (Qnum x) (Qnum y) && Pos.eqb (Qden x) (Qden y).

Definition cell_eqb (a b : cell) : bool :=
  match a, b with
  | NaN, NaN => true
  | Str s, Str t => String.eqb s t
  | Num x, Num y => Q_eqb x y
  | _, _ => false
  end.

Definition dtype_eqb (a b : dtype) : bool :=
  match a, b with
  | object, object | float64, float64 | Int64, Int64 => true
  | _, _ => false
  end.

Definition isna (c : cell) : bool :=
  match c with NaN => true | _ => false end.

Definition is_str (c : cell) : bool :=
  match c with Str _ => true | _ => false end.

(** [df[col]]: the column, or [KeyError]. *)
Fixpoint getitem (df : DataFrame) (col : string) : result Series :=
  match df with
  | [] => Raise (KeyError col)
  | (c, s) :: rest => if String.eqb c col then Ok s else getitem rest col
  end.

(** [df[col] = s]: replaces the column in place, or appends a new one. *)
Fixpoint setitem (df : DataFrame) (col : string) (s : Series) : DataFrame :=
  match df with
  | [] => [(col, s)]
  | (c, s0) :: rest =>
      if String.eqb c col then (c, s) :: rest
      else (c, s0) :: setitem rest col s
  end.

Definition columns (df : DataFrame) : list string := map fst df.

(** ** Global names *)

Definition namespace : Type := list string.

(** Line 1, [import pandas as pd], is the only import of the script:
    these are the module names bound when the file is run on its own. *)
Definition script_globals : namespace := ["pd"].

(** The names bound when the same statements run where [np] is already
    bound to numpy (an interactive session or a notebook that imported
    it earlier).  The script itself never gets here. *)
Definition with_numpy : namespace := "np" :: script_globals.

Definition lookup_name (ns : namespace) (name : string) : result unit :=
  if existsb (String.eqb name) ns then Ok tt else Raise (NameError name).

(** ** Step 1: [df.drop_duplicates(keep='first').reset_index(drop=True)] *)

Definition row : Type := list cell.

Fixpoint row_eqb (r1 r2 : row) : bool :=
  match r1, r2 with
  | [], [] => true
  | a :: r1', b :: r2' => cell_eqb a b && row_eqb r1' r2'
  | _, _ => false
  end.

Definition nrows (df : DataFrame) : nat :=
  match df with
  | [] => O
  | (_, s) :: _ => List.length (values s)
  end.

(** Rows of a list of columns: row [i] collects the [i]-th cell of each. *)
Fixpoint zip_rows (n : nat) (cs : list (list cell)) : list row :=
  match cs with
  | [] => repeat [] n
  | c :: cs' => map (fun p => fst p :: snd p) (combine c (zip_rows n cs'))
  end.

Definition rows (df : DataFrame) : list row :=
  zip_rows (nrows df) (map (fun p => values (snd p)) df).

(** [duplicated(keep='first')]: a row is marked when an equal row came
    earlier.  pandas groups absent values together, so NaN equals NaN. *)
Fixpoint duplicated_from (seen : list row) (rs : list row) : list bool :=
  match rs with
  | [] => []
  | r :: rs' => existsb (row_eqb r) seen :: duplicated_from (r :: seen) rs'
  end.

Definition duplicated (df : DataFrame) : list bool :=
  duplicated_from [] (rows df).

(** Boolean-mask selection [s[mask]]. *)
Fixpoint select {A : Type} (mask : list bool) (l : list A) : list A :=
  match mask, l with
  | b :: mask', x :: l' => if b then x :: select mask' l' else select mask' l'
  | _, _ => []
  end.

Definition drop_duplicates (df : DataFrame) : DataFrame :=
  let keep := map negb (duplicated df) in
  map (fun p => (fst p, mkSeries (dt (snd p)) (select keep (values (snd p))))) df.

(** ** Step 2: missing markers *)

Definition missing_markers : list string :=
  ["-"; "N/A"; "NA"; "null"; "missing"; "None"; ""].

Definition select_dtypes (d : dtype) (df : DataFrame) : DataFrame :=
  filter (fun p => dtype_eqb (dt (snd p)) d) df.

(** [s.replace(to_replace, value)] with a list of strings to replace. *)
Definition replace_cell (to_replace : list string) (value c : cell) : cell :=
  match c with
  | Str s => if existsb (String.eqb s) to_replace then value else c
  | _ => c
  end.

(** After a replacement in an [object] column pandas 2.x infers the
    dtype of the column anew: left without any text and with at least
    one cell, the column becomes [float64]. *)
Definition convert (d : dtype) (vs : list cell) : dtype :=
  match d, vs with
  | object, _ :: _ => if existsb is_str vs then object else float64
  | _, _ => d
  end.

Definition replace (to_replace : list string) (value : cell) (s : Series)
  : Series :=
  let vs := map (replace_cell to_replace value) (values s) in
  mkSeries (convert (dt s) vs) vs.

(** The loop body evaluates [df[col]], then [missing_markers], then
    [np.nan]; the name [np] is looked up on every iteration. *)
Fixpoint replace_markers_loop (ns : namespace) (cols : list string)
  (df : DataFrame) : result DataFrame :=
  match cols with
  | [] => Ok df
  | col :: cols' =>
      s <- getitem df col ;;
      lookup_name ns "np" ;;;
      replace_markers_loop ns cols' (setitem df col (replace missing_markers NaN s))
  end.

Definition replace_markers (ns : namespace) (df : DataFrame)
  : result DataFrame :=
  replace_markers_loop ns (columns (select_dtypes object df)) df.

(** ** Numbers *)

Definition Qltb (x y : Q) : bool := negb (Qle_bool y x).

Fixpoint insert_sorted {A : Type} (leb : A -> A -> bool) (x : A) (l : list A)
  : list A :=
  match l with
  | [] => [x]
  | y :: l' => if leb x y then x :: l else y :: insert_sorted leb x l'
  end.

Definition sort {A : Type} (leb : A -> A -> bool) (l : list A) : list A :=
  fold_right (insert_sorted leb) [] l.

Definition nums (l : list cell) : list Q :=
  flat_map (fun c => match c with Num q => [q] | _ => [] end) l.

(** Median of an ascending list: the middle element, or the mean of the
    two middle elements; NaN when there is nothing to take it of. *)
Definition median_sorted (l : list Q) : cell :=
  let n := List.length l in
  match n with
  | O => NaN
  | _ =>
      if Nat.even n
      then Num (Qred ((nth (n / 2 - 1) l 0%Q + nth (n / 2) l 0%Q) / (2 # 1)))
      else Num (nth (n / 2) l 0%Q)
  end.

(** [s.median()]: absent cells are skipped; text cannot be averaged. *)
Definition median (s : Series) : result cell :=
  if existsb is_str (values s) then Raise TypeError
  else Ok (median_sorted (sort Qle_bool (nums (values s)))).

(** [s.fillna(value)] *)
Definition fillna_cell (value c : cell) : cell :=
  match c with NaN => value | _ => c end.

Definition fillna (value : cell) (s : Series) : Series :=
  mkSeries (dt s) (map (fillna_cell value) (values s)).

(** ** Mode *)

Definition count (c : cell) (l : list cell) : nat :=
  List.length (filter (cell_eqb c) l).

Definition max_count (l : list cell) : nat :=
  fold_right Nat.max O (map (fun c => count c l) l).

(** Distinct values in order of first appearance. *)
Fixpoint unique_from (seen : list cell) (l : list cell) : list cell :=
  match l with
  | [] => []
  | c :: l' =>
      if existsb (cell_eqb c) seen then unique_from seen l'
      else c :: unique_from (c :: seen) l'
  end.

Definition unique (l : list cell) : list cell := unique_from [] l.

Definition dropna (l : list cell) : list cell :=
  filter (fun c => negb (isna c)) l.

Definition most_frequent (l : list cell) : list cell :=
  let p := dropna l in
  filter (fun c => Nat.eqb (count c p) (max_count p)) (unique p).

Definition cell_leb (a b : cell) : bool :=
  match a, b with
  | Str s, Str t => String.leb s t
  | Num x, Num y => Qle_bool x y
  | NaN, _ => true
  | Str _, _ => false
  | Num _, NaN => false
  | Num _, Str _ => true
  end.

Definition is_num (c : cell) : bool :=
  match c with Num _ => true | _ => false end.

(** [s.mode()]: the most frequent present values, sorted ascending.
    When text and numbers are mixed the sort fails inside pandas, which
    then returns the values unsorted. *)
Definition mode (s : Series) : Series :=
  let ms := most_frequent (values s) in
  mkSeries (dt s)
    (if forallb is_str ms || forallb is_num ms then sort cell_leb ms else ms).

(** [s[0]] on a series with the default index. *)
Definition item0 (s : Series) : result cell :=
  match values s with
  | [] => Raise (KeyError "0")
  | c :: _ => Ok c
  end.

(** ** Python string methods (ASCII)

    Text is a string of bytes.  The methods below are those of Python on
    ASCII text: whitespace is the ASCII whitespace that [str.strip]
    removes, and only the letters A-Z and a-z have a case.  Bytes above
    127 are kept as they are, whereas Python's methods also know the
    whitespace and the letters of the rest of Unicode; statements that
    depend on it are stated for ASCII text. *)

Definition is_space (a : ascii) : bool :=
  let n := nat_of_ascii a in
  ((9 <=? n) && (n <=? 13) || (28 <=? n) && (n <=? 32))%nat.

Definition is_upper (a : ascii) : bool :=
  let n := nat_of_ascii a in ((65 <=? n) && (n <=? 90))%nat.

Definition is_lower (a : ascii) : bool :=
  let n := nat_of_ascii a in ((97 <=? n) && (n <=? 122))%nat.

Definition to_lower (a : ascii) : ascii :=
  if is_upper a then ascii_of_nat (nat_of_ascii a + 32) else a.

Definition to_upper (a : ascii) : ascii :=
  if is_lower a then ascii_of_nat (nat_of_ascii a - 32) else a.

Fixpoint lstrip (s : string) : string :=
  match s with
  | EmptyString => EmptyString
  | String a s' => if is_space a then lstrip s' else s
  end.

Fixpoint rstrip (s : string) : string :=
  match s with
  | EmptyString => EmptyString
  | String a s' =>
      match rstrip s' with
      | EmptyString => if is_space a then EmptyString else String a EmptyString
      | t => String a t
      end
  end.

Definition strip (s : string) : string := rstrip (lstrip s).

Fixpoint lower (s : string) : string :=
  match s with
  | EmptyString => EmptyString
  | String a s' => String (to_lower a) (lower s')
  end.

(** [str.title]: a cased character is upper-cased when the character
    before it is not cased, and lower-cased otherwise. *)
Fixpoint title_from (previous_is_cased : bool) (s : string) : string :=
  match s with
  | EmptyString => EmptyString
  | String a s' =>
      if is_lower a
      then String (if previous_is_cased then a else to_upper a)
                  (title_from true s')
      else if is_upper a
      then String (if previous_is_cased then to_lower a else a)
                  (title_from true s')
      else String a (title_from false s')
  end.

Definition title (s : string) : string := title_from false s.

(** The [.str] accessor: a string method applied to every text cell. *)
Definition str_cell (f : string -> string) (c : cell) : cell :=
  match c with Str x => Str (f x) | _ => NaN end.

Definition str_method (f : string -> string) (s : Series) : Series :=
  mkSeries (dt s) (map (str_cell f) (values s)).

Definition gender_mapping : list (string * string) :=
  [("M", "Male"); ("F", "Female"); ("Male", "Male"); ("Female", "Female")].

Fixpoint lookup (m : list (string * string)) (k : string) : option string :=
  match m with
  | [] => None
  | (k', v) :: m' => if String.eqb k' k then Some v else lookup m' k
  end.

(** [s.replace(mapping)] with a dict: a cell equal to a key becomes the
    key's value, any other cell is kept. *)
Definition replace_dict_cell (m : list (string * string)) (c : cell) : cell :=
  match c with
  | Str x => match lookup m x with Some v => Str v | None => c end
  | _ => c
  end.

Definition replace_dict (m : list (string * string)) (s : Series) : Series :=
  mkSeries (dt s) (map (replace_dict_cell m) (values s)).

(** ** Rounding, the age condition and clipping *)

(** [round()] goes to the nearest whole number, halves to the even one. *)
Definition round_half_even (q : Q) : Q :=
  let f := Qfloor q in
  match Qcompare (q - inject_Z f) (1 # 2) with
  | Lt => inject_Z f
  | Gt => inject_Z (f + 1)
  | Eq => if Z.even f then inject_Z f else inject_Z (f + 1)
  end.

Definition round_cell (c : cell) : cell :=
  match c with Num q => Num (round_half_even q) | _ => c end.

(** [s.round()]: pandas 2.x rounds the cells of a numeric column and
    hands back a column of dtype [object] as it is. *)
Definition round (s : Series) : result Series :=
  if dtype_eqb (dt s) object then Ok s
  else if existsb is_str (values s) then Raise TypeError
  else Ok (mkSeries (dt s) (map round_cell (values s))).

Definition is_whole (c : cell) : bool :=
  match c with
  | Num q => Q_eqb (inject_Z (Qfloor q)) q
  | NaN => true
  | Str _ => false
  end.

(** [s.astype('Int64')]: whole numbers and absent values only.  A text
    cell raises here; that pandas reads a column of nothing but integer
    literals as numbers is not modelled (the script cannot bring text to
    this line: the median of line 140 has raised on it before). *)
Definition astype_Int64 (s : Series) : result Series :=
  if forallb is_whole (values s) then Ok (mkSeries Int64 (values s))
  else Raise TypeError.

(** [(age < 16) | (age > 40)] on a nullable column: absent stays absent. *)
Definition out_of_range (c : cell) : result (option bool) :=
  match c with
  | Num q => Ok (Some (Qltb q (16 # 1) || Qltb (40 # 1) q))
  | NaN => Ok None
  | Str _ => Raise TypeError
  end.

Fixpoint mapM {A B : Type} (f : A -> result B) (l : list A) : result (list B) :=
  match l with
  | [] => Ok []
  | x :: l' => y <- f x ;; ys <- mapM f l' ;; Ok (y :: ys)
  end.

(** [np.where(cond, x, y)] with a scalar [x]; an absent condition has no
    truth value. *)
Definition where_cell (x : cell) (p : option bool * cell) : result cell :=
  match fst p with
  | Some true => Ok x
  | Some false => Ok (snd p)
  | None => Raise TypeError
  end.

Definition np_where (cond : list (option bool)) (x : cell) (y : list cell)
  : result Series :=
  vs <- mapM (where_cell x) (combine cond y) ;;
  Ok (mkSeries float64 vs).

(** [np.clip(s, lo, hi)]: first raised to [lo], then lowered to [hi]. *)
Definition clip_cell (lo hi : Q) (c : cell) : result cell :=
  match c with
  | Num q =>
      let m := if Qle_bool lo q then q else lo in
      Ok (Num (if Qle_bool m hi then m else hi))
  | NaN => Ok NaN
  | Str _ => Raise TypeError
  end.

Definition np_clip (s : Series) (lo hi : Q) : result Series :=
  vs <- mapM (clip_cell lo hi) (values s) ;;
  Ok (mkSeries (dt s) vs).

(** ** The script *)

Inductive stage : Type :=
| Loading | Exploring | Markers | Coercion | Imputation | Standardizing
| AgeBound | Clamping.

(** How a run ends: the cleaned table written by [to_csv], or an
    exception that nothing catches, raised in some part of the script. *)
Inductive outcome : Type :=
| Saved (df : DataFrame)
| Raised (st : stage) (e : exn).

Definition during (st : stage) (r : result DataFrame)
  (k : DataFrame -> outcome) : outcome :=
  match r with
  | Ok df => k df
  | Raise e => Raised st e
  end.

Section Script.

(** The float parser behind [pd.to_numeric] and [pd.read_csv], and the
    text that [astype(str)] gives a float. *)
Variable to_float : string -> option Q.
Variable float_repr : Q -> string.

(** *** Step 3: [pd.to_numeric(s, errors='coerce')] *)

Definition coerce (c : cell) : cell :=
  match c with
  | Str x => match to_float x with Some q => Num q | None => NaN end
  | _ => c
  end.

Definition to_numeric (s : Series) : Series :=
  mkSeries float64 (map coerce (values s)).

Fixpoint convert_scores_loop (ns : namespace) (cols : list string)
  (df : DataFrame) : result DataFrame :=
  match cols with
  | [] => Ok df
  | col :: cols' =>
      lookup_name ns "pd" ;;;
      s <- getitem df col ;;
      convert_scores_loop ns cols' (setitem df col (to_numeric s))
  end.

Definition convert_scores (ns : namespace) (df : DataFrame)
  : result DataFrame :=
  convert_scores_loop ns ["assignment_score"; "exam_score"] df.

(** *** Step 4: imputation *)

(** [df[col] = df[col].fillna(df[col].median())] *)
Definition fill_median (col : string) (df : DataFrame) : result DataFrame :=
  s <- getitem df col ;;
  s' <- getitem df col ;;
  m <- median s' ;;
  Ok (setitem df col (fillna m s)).

(** [df[col] = df[col].fillna(df[col].mode()[0])] *)
Definition fill_mode (col : string) (df : DataFrame) : result DataFrame :=
  s <- getitem df col ;;
  s' <- getitem df col ;;
  m <- item0 (mode s') ;;
  Ok (setitem df col (fillna m s)).

Definition imputation (df : DataFrame) : result DataFrame :=
  df <- fill_median "age" df ;;
  df <- fill_median "attendance" df ;;
  df <- fill_median "assignment_score" df ;;
  df <- fill_median "exam_score" df ;;
  df <- fill_mode "gender" df ;;
  fill_mode "department" df.

(** *** Step 5: categories *)

Definition astype_str_cell (c : cell) : cell :=
  match c with
  | Str x => Str x
  | NaN => Str "nan"
  | Num q => Str (float_repr q)
  end.

Definition astype_str (s : Series) : Series :=
  mkSeries object (map astype_str_cell (values s)).

(** [df[col].astype(str).str.strip().str.lower().str.title()] *)
Definition standardize (s : Series) : Series :=
  str_method title (str_method lower (str_method strip (astype_str s))).

Fixpoint standardize_loop (cols : list string) (df : DataFrame)
  : result DataFrame :=
  match cols with
  | [] => Ok df
  | col :: cols' =>
      s <- getitem df col ;;
      standardize_loop cols' (setitem df col (standardize s))
  end.

Definition standardize_categories (df : DataFrame) : result DataFrame :=
  df <- standardize_loop ["gender"; "department"; "final_grade"] df ;;
  s <- getitem df "gender" ;;
  Ok (setitem df "gender" (replace_dict gender_mapping s)).

(** *** Step 6: age *)

Definition age_integer_bound (ns : namespace) (df : DataFrame)
  : result DataFrame :=
  s <- getitem df "age" ;;
  r <- round s ;;
  i <- astype_Int64 r ;;
  let df := setitem df "age" i in
  s <- getitem df "age" ;;
  median_age <- median s ;;
  lookup_name ns "np" ;;;
  a <- getitem df "age" ;;
  cond <- mapM out_of_range (values a) ;;
  a' <- getitem df "age" ;;
  w <- np_where cond median_age (values a') ;;
  Ok (setitem df "age" w).

(** *** Step 7: bounds *)

(** [df[col] = np.clip(df[col], 0, 100)]: the callee [np.clip] is
    evaluated before its arguments. *)
Definition clip_column (ns : namespace) (col : string) (df : DataFrame)
  : result DataFrame :=
  lookup_name ns "np" ;;;
  s <- getitem df col ;;
  c <- np_clip s (0 # 1) (100 # 1) ;;
  Ok (setitem df col c).

Definition bound_numeric_columns (ns : namespace) (df : DataFrame)
  : result DataFrame :=
  df <- clip_column ns "attendance" df ;;
  df <- clip_column ns "assignment_score" df ;;
  clip_column ns "exam_score" df.

(** *** Task 4 and the save *)

Definition clean (ns : namespace) (df : DataFrame) : outcome :=
  let df := drop_duplicates df in
  during Markers (replace_markers ns df) (fun df =>
  during Coercion (convert_scores ns df) (fun df =>
  during Imputation (imputation df) (fun df =>
  during Standardizing (standardize_categories df) (fun df =>
  during AgeBound (age_integer_bound ns df) (fun df =>
  during Clamping (bound_numeric_columns ns df) (fun df =>
  Saved df)))))).

(** *** Task 2: [pd.read_csv('student_performance.csv')] *)

(** The file after tokenizing: one list of fields per non-blank line. *)
Definition csv : Type := list (list string).

(** Field texts that [read_csv] reads as absent by default. *)
Definition na_values : list string :=
  [""; "#N/A"; "#N/A N/A"; "#NA"; "-1.#IND"; "-1.#QNAN"; "-NaN"; "-nan";
   "1.#IND"; "1.#QNAN"; "<NA>"; "N/A"; "NA"; "NULL"; "NaN"; "None"; "n/a";
   "nan"; "null"].

Definition parse_field (x : string) : cell :=
  if existsb (String.eqb x) na_values then NaN else Str x.

Definition parses (c : cell) : bool :=
  match c with
  | Str x => match to_float x with Some _ => true | None => false end
  | _ => true
  end.

(** A column is numeric when every present field parses as a number; a
    column without rows is an object column. *)
Definition infer_column (fields : list string) : Series :=
  let cells := map parse_field fields in
  match cells with
  | [] => mkSeries object []
  | _ => if forallb parses cells then mkSeries float64 (map coerce cells)
         else mkSeries object cells
  end.

(** Column names.  [read_csv] names the columns after the fields of the
    first line; an empty field is named after its position and a name
    that is already taken gets a numbered suffix (pandas' parser,
    [_get_header], with the default [header=0]). *)

Definition str_of_nat (n : nat) : string :=
  NilEmpty.string_of_uint (Nat.to_uint n).

(** [f"Unnamed: {i}"] *)
Definition unnamed (i : nat) : string := "Unnamed: " ++ str_of_nat i.

(** [f"{old_col}.{cur_count}"] *)
Definition numbered (old_col : string) (cur_count : nat) : string :=
  old_col ++ "." ++ str_of_nat cur_count.

(** The dict [counts]: the newest entry of a name is the one read, a
    name without entry reads as 0 ([counts.get(col, 0)]). *)
Definition counts_get (counts : list (string * nat)) (col : string) : nat :=
  match find (fun p => String.eqb (fst p) col) counts with
  | Some p => snd p
  | None => O
  end.

(** [this_header[i] = col] *)
Fixpoint set_nth {A : Type} (i : nat) (x : A) (l : list A) : list A :=
  match l, i with
  | [], _ => []
  | _ :: l', O => x :: l'
  | y :: l', S i' => y :: set_nth i' x l'
  end.

(** The loop
    [while cur_count > 0:
       counts[old_col] = cur_count + 1
       col = f"{old_col}.{cur_count}"
       if col in this_header: cur_count += 1
       else: cur_count = counts.get(col, 0)].
    It returns [None] when [fuel] rounds were not enough; one round more
    than there are names always is ([get_header_total]). *)
Fixpoint rename_loop (fuel : nat) (this_header : list string) (old_col : string)
  (counts : list (string * nat)) (col : string) (cur_count : nat)
  : option (list (string * nat) * string * nat) :=
  match cur_count with
  | O => Some (counts, col, cur_count)
  | S _ =>
      match fuel with
      | O => None
      | S fuel' =>
          let counts := (old_col, S cur_count) :: counts in
          let col := numbered old_col cur_count in
          if existsb (String.eqb col) this_header
          then rename_loop fuel' this_header old_col counts col (S cur_count)
          else rename_loop fuel' this_header old_col counts col
                 (counts_get counts col)
      end
  end.

(** One round of [for i in col_loop_order]. *)
Definition rename_column (st : option (list string * list (string * nat)))
  (i : nat) : option (list string * list (string * nat)) :=
  match st with
  | None => None
  | Some (this_header, counts) =>
      let col := nth i this_header "" in
      match rename_loop (S (List.length this_header)) this_header col counts
              col (counts_get counts col) with
      | None => None
      | Some (counts, col, cur_count) =>
          Some (set_nth i col this_header, (col, S cur_count) :: counts)
      end
  end.

(** The names given to the fields of the first line: the named fields
    are settled first, in their order, then the unnamed ones. *)
Definition get_header_steps (header : list string)
  : option (list string * list (string * nat)) :=
  let fields := combine (seq 0 (List.length header)) header in
  let this_header :=
    map (fun p => if String.eqb (snd p) "" then unnamed (fst p) else snd p)
        fields in
  let unnamed_col_indices :=
    map fst (filter (fun p => String.eqb (snd p) "") fields) in
  let col_loop_order :=
    map fst (filter (fun p => negb (String.eqb (snd p) "")) fields)
    ++ unnamed_col_indices in
  fold_left rename_column col_loop_order (Some (this_header, [])).

Definition get_header (header : list string) : list string :=
  match get_header_steps header with
  | Some (this_header, _) => this_header
  | None => header
  end.

(** [read_csv] with its defaults: the first line names the columns,
    whatever it holds.  The first data line fixes the width; a longer
    later line is a tokenizing error, a shorter one is padded, and fields
    in excess of the header become the index, which the script never
    uses. *)
Definition read_csv (file : csv) : result DataFrame :=
  match file with
  | [] => Raise EmptyDataError
  | header :: records =>
      let width :=
        match records with
        | [] => List.length header
        | r :: _ => Nat.max (List.length header) (List.length r)
        end in
      if existsb (fun r => Nat.ltb width (List.length r)) records
      then Raise ParserError
      else
        let lead := (width - List.length header)%nat in
        let names := get_header header in
        Ok (map (fun p =>
                   (snd p,
                    infer_column
                      (map (fun r => nth (lead + fst p) r "") records)))
                (combine (seq 0 (List.length names)) names))
  end.

(** *** Task 3: exploration

    Everything here is printed and thrown away; what matters to the run
    is which statement can raise. *)

(** [duplicated(keep=False)]: every row that has an equal row elsewhere. *)
Definition duplicated_all (rs : list row) : list bool :=
  map (fun r => Nat.ltb 1 (List.length (filter (row_eqb r) rs))) rs.

Definition loc_rows (mask : list bool) (df : DataFrame) : DataFrame :=
  map (fun p => (fst p, mkSeries (dt (snd p)) (select mask (values (snd p))))) df.

(** [sort_values(col)]: text and numbers cannot be ordered together. *)
Definition sort_values (col : string) (df : DataFrame) : result DataFrame :=
  s <- getitem df col ;;
  let p := dropna (values s) in
  if existsb is_str p && existsb is_num p then Raise TypeError else Ok df.

(** [s < bound] on a column: a text cell cannot be compared to a number,
    an absent cell compares false. *)
Definition lt_scalar (s : Series) (bound : Q) : result (list bool) :=
  mapM (fun c => match c with
                 | Num q => Ok (Qltb q bound)
                 | NaN => Ok false
                 | Str _ => Raise TypeError
                 end) (values s).

Definition gt_scalar (s : Series) (bound : Q) : result (list bool) :=
  mapM (fun c => match c with
                 | Num q => Ok (Qltb bound q)
                 | NaN => Ok false
                 | Str _ => Raise TypeError
                 end) (values s).

Fixpoint for_each (cols : list string) (body : string -> result unit)
  : result unit :=
  match cols with
  | [] => Ok tt
  | col :: cols' => body col ;;; for_each cols' body
  end.

Definition explore (ns : namespace) (df : DataFrame) : result unit :=
  (* lines 87-90 *)
  (if Nat.ltb 0 (List.length (filter id (duplicated df)))
   then sort_values "student_id" (loc_rows (duplicated_all (rows df)) df) ;;;
        Ok tt
   else Ok tt) ;;;
  (* lines 94-96 *)
  for_each ["gender"; "final_grade"; "department"]
    (fun col => getitem df col ;;; Ok tt) ;;;
  (* lines 100-105 *)
  for_each ["assignment_score"; "exam_score"]
    (fun col => lookup_name ns "pd" ;;; getitem df col ;;; Ok tt) ;;;
  (* line 109 *)
  getitem df "age" ;;;
  (* line 110 *)
  a <- getitem df "age" ;;
  lt_scalar a (16 # 1) ;;;
  a' <- getitem df "age" ;;
  gt_scalar a' (35 # 1) ;;;
  getitem df "student_id" ;;;
  (* line 113 *)
  getitem df "attendance" ;;;
  Ok tt.

(** *** The whole script *)

Definition script (file : csv) : outcome :=
  let ns := script_globals in
  during Loading (lookup_name ns "pd" ;;; read_csv file) (fun df_raw =>
  during Loading (lookup_name ns "pd" ;;; read_csv file) (fun df =>
  match explore ns df with
  | Raise e => Raised Exploring e
  | Ok _ => clean ns df
  end)).

End Script.

(** ** A reference instance of the two float primitives

    Plain decimal literals, enough to run the script on examples. *)

Definition digit_of (a : ascii) : option Z :=
  let n := nat_of_ascii a in
  if ((48 <=? n) && (n <=? 57))%nat then Some (Z.of_nat (n - 48)) else None.

Fixpoint decimal_digits (s : string) (num : Z) (scale : positive)
  (seen_point any : bool) : option Q :=
  match s with
  | EmptyString => if any then Some (Qred (num # scale)) else None
  | String a s' =>
      if Ascii.eqb a "." then
        if seen_point then None else decimal_digits s' num scale true any
      else
        match digit_of a with
        | Some d =>
            decimal_digits s' (10 * num + d)
              (if seen_point then (10 * scale)%positive else scale)
              seen_point true
        | None => None
        end
  end.

Definition decimal_to_float (s : string) : option Q :=
  match s with
  | String a s' =>
      if Ascii.eqb a "-"
      then option_map Qopp (decimal_digits s' 0 1 false false)
      else decimal_digits s 0 1 false false
  | EmptyString => None
  end.

Fixpoint fraction_digits (fuel : nat) (r d : Z) : string :=
  match fuel with
  | O => EmptyString
  | S fuel' =>
      if r =? 0 then EmptyString
      else String (ascii_of_nat (48 + Z.to_nat (10 * r / d)))
                  (fraction_digits fuel' ((10 * r) mod d) d)
  end.

Definition decimal_repr (q : Q) : string :=
  let n := Qnum q in
  let d := Zpos (Qden q) in
  let r := Z.abs n mod d in
  ((if (n <? 0)%Z then "-" else "")
   ++ NilZero.string_of_uint (N.to_uint (Z.to_N (Z.abs n / d))) ++ "."
   ++ (if (r =? 0)%Z then "0" else fraction_digits 17 r d))%string.

(** ** Sample tables *)

Definition text (l : list string) : Series := mkSeries object (map Str l).
Definition floats (l : list Q) : Series := mkSeries float64 (map Num l).

Definition has_text_column (df : DataFrame) : bool :=
  existsb (fun p => dtype_eqb (dt (snd p)) object) df.

(** Five records as [read_csv] would hand them over; the last repeats
    the first. *)
Definition students : DataFrame :=
  [("student_id", text ["S1"; "S2"; "S3"; "S4"; "S1"]);
   ("age", floats [10 # 1; 45 # 1; 20 # 1; 22 # 1; 10 # 1]);
   ("gender", text ["M"; " female "; "MALE"; "Other"; "M"]);
   ("attendance", floats [105 # 1; -5 # 1; 50 # 1; 171 # 2; 105 # 1]);
   ("assignment_score", text ["70"; "abc"; "90"; "60.5"; "70"]);
   ("exam_score", floats [70 # 1; 80 # 1; 101 # 1; 60 # 1; 70 # 1]);
   ("final_grade", text ["a"; "b"; "A"; "c"; "a"]);
   ("department", text ["cs"; " CS"; "it"; "IT "; "cs"])].

(** A table whose eight columns are all numeric codes, so that step 2
    has no text column to visit. *)
Definition coded_students : DataFrame :=
  [("student_id", floats [1 # 1; 2 # 1; 3 # 1; 4 # 1]);
   ("age", floats [10 # 1; 45 # 1; 20 # 1; 22 # 1]);
   ("gender", floats [1 # 1; 0 # 1; 1 # 1; 0 # 1]);
   ("attendance", floats [105 # 1; -5 # 1; 50 # 1; 60 # 1]);
   ("assignment_score", floats [70 # 1; 80 # 1; 90 # 1; 60 # 1]);
   ("exam_score", floats [70 # 1; 80 # 1; 101 # 1; 60 # 1]);
   ("final_grade", floats [4 # 1; 3 # 1; 4 # 1; 2 # 1]);
   ("department", floats [1 # 1; 2 # 1; 1 # 1; 2 # 1])].

(** Two fully identical records around a distinct one. *)
Definition twins : DataFrame :=
  [("student_id", text ["S7"; "S8"; "S7"]);
   ("age", floats [19 # 1; 23 # 1; 19 # 1]);
   ("gender", text ["F"; "M"; "F"]);
   ("attendance", floats [88 # 1; 92 # 1; 88 # 1]);
   ("assignment_score", floats [75 # 1; 64 # 1; 75 # 1]);
   ("exam_score", floats [81 # 1; 58 # 1; 81 # 1]);
   ("final_grade", text ["B"; "C"; "B"]);
   ("department", text ["It"; "Cs"; "It"])].

(** What steps 5 does to one cell of a category column, and to a cell of
    [gender]. *)
Definition standardize_cell (float_repr : Q -> string) (c : cell) : cell :=
  str_cell title (str_cell lower (str_cell strip (astype_str_cell float_repr c))).

Definition gender_cell (float_repr : Q -> string) (c : cell) : cell :=
  replace_dict_cell gender_mapping (standardize_cell float_repr c).

(** Attendance recorded as text, with entries that are not numbers. *)
Definition text_attendance : DataFrame :=
  [("student_id", text ["S1"; "S2"; "S3"]);
   ("age", floats [19 # 1; 23 # 1; 21 # 1]);
   ("gender", text ["F"; "M"; "F"]);
   ("attendance", text ["95"; "abc"; "88%"]);
   ("assignment_score", text ["75"; "n.a."; "64"]);
   ("exam_score", floats [81 # 1; 58 # 1; 77 # 1]);
   ("final_grade", text ["B"; "C"; "B"]);
   ("department", text ["It"; "Cs"; "It"])].

(** A column that exists and holds absent cells only. *)
Definition all_absent (col : string) (df : DataFrame) : bool :=
  match getitem df col with
  | Ok s => forallb isna (values s)
  | Raise _ => false
  end.

Definition absent (n : nat) : Series := mkSeries float64 (repeat NaN n).

(** No attendance was recorded for anyone. *)
Definition absent_attendance : DataFrame :=
  setitem coded_students "attendance" (absent 4).

(** No gender was recorded for anyone. *)
Definition absent_gender : DataFrame :=
  setitem coded_students "gender" (absent 4).

(** "Male" and "Female" occur once each; "Male" comes first. *)
Definition tied_genders : DataFrame :=
  [("student_id", text ["S1"; "S2"; "S3"]);
   ("age", floats [19 # 1; 23 # 1; 21 # 1]);
   ("gender", mkSeries object [Str "Male"; Str "Female"; NaN]);
   ("attendance", floats [95 # 1; 80 # 1; 88 # 1]);
   ("assignment_score", floats [75 # 1; 70 # 1; 64 # 1]);
   ("exam_score", floats [81 # 1; 58 # 1; 77 # 1]);
   ("final_grade", text ["B"; "C"; "B"]);
   ("department", text ["It"; "Cs"; "It"])].

(** What line 161 is written to do to one rounded age, given the median. *)
Definition correct_age (median_age c : cell) : cell :=
  match c with
  | Num q => if Qltb q (16 # 1) || Qltb (40 # 1) q then median_age else c
  | _ => c
  end.

(** The attendance values 105, -5 and 50 in an otherwise valid table of
    numeric codes. *)
Definition three_attendances : DataFrame :=
  [("student_id", floats [1 # 1; 2 # 1; 3 # 1]);
   ("age", floats [19 # 1; 23 # 1; 21 # 1]);
   ("gender", floats [1 # 1; 0 # 1; 1 # 1]);
   ("attendance", floats [105 # 1; -5 # 1; 50 # 1]);
   ("assignment_score", floats [75 # 1; 70 # 1; 64 # 1]);
   ("exam_score", floats [81 # 1; 58 # 1; 77 # 1]);
   ("final_grade", floats [3 # 1; 2 # 1; 3 # 1]);
   ("department", floats [1 # 1; 2 # 1; 1 # 1])].

(** Clamping into 0..100, case by case. *)
Definition clamp (q : Q) : Q :=
  if Qltb q (0 # 1) then 0 # 1
  else if Qltb (100 # 1) q then 100 # 1
  else q.

Definition clamp_cell (c : cell) : cell :=
  match c with Num q => Num (clamp q) | _ => c end.

(** Lines 19-28: the eight columns the script expects, with the type it
    announces for each. *)
Definition expected_types : list (string * string) :=
  [("student_id", "string / object");
   ("age", "integer (whole years)");
   ("gender", "categorical (Male/Female or similar)");
   ("attendance", "float or integer (likely % 0-100)");
   ("assignment_score", "numeric (float or int, likely 0-100)");
   ("exam_score", "numeric (float or int, likely 0-100)");
   ("final_grade", "categorical (A/B/C/... or letter grade)");
   ("department", "categorical (CS, IT, etc.)")].

(** A file with a ninth column, [notes]. *)
Definition nine_columns : csv :=
  [["student_id"; "age"; "gender"; "attendance"; "assignment_score";
    "exam_score"; "final_grade"; "department"; "notes"];
   ["S1"; "20"; "M"; "90"; "70"; "80"; "A"; "cs"; "late entry"];
   ["S2"; "21"; "F"; "95"; "71"; "81"; "B"; "it"; ""]].

(** A file without the [department] column. *)
Definition seven_columns : csv :=
  [["student_id"; "age"; "gender"; "attendance"; "assignment_score";
    "exam_score"; "final_grade"];
   ["S1"; "20"; "M"; "90"; "70"; "80"; "A"];
   ["S2"; "21"; "F"; "95"; "71"; "81"; "B"]].

(** A file that starts with its first record: there is no header line. *)
Definition headerless : csv :=
  [["S1"; "20"; "M"; "90"; "70"; "80"; "A"; "cs"];
   ["S2"; "21"; "F"; "95"; "71"; "81"; "B"; "it"]].

(** A string that [strip] has nothing to take from: it neither starts
    nor ends with whitespace. *)
Definition starts_clean (s : string) : bool :=
  match s with
  | EmptyString => true
  | String a _ => negb (is_space a)
  end.

Fixpoint ends_clean (s : string) : bool :=
  match s with
  | EmptyString => true
  | String a EmptyString => negb (is_space a)
  | String _ s' => ends_clean s'
  end.

(** A text cell that is one of the missing markers of step 2. *)
Definition is_marker (c : cell) : bool :=
  match c with
  | Str x => existsb (String.eqb x) missing_markers
  | _ => false
  end.

(** No row repeats an earlier one. *)
Definition no_duplicates (df : DataFrame) : bool :=
  negb (existsb id (duplicated df)).

(** ASCII text: every byte is below 128.  A cell that [astype(str)]
    turns into ASCII text is such a text, or absent. *)
Definition is_ascii (a : ascii) : bool := (nat_of_ascii a <? 128)%nat.

Fixpoint ascii_text (s : string) : bool :=
  match s with
  | EmptyString => true
  | String a s' => is_ascii a && ascii_text s'
  end.

Definition ascii_cell (c : cell) : bool :=
  match c with
  | Str x => ascii_text x
  | NaN => true
  | Num _ => false
  end.

(** Every column has [n] cells. *)
Definition same_length (n : nat) (df : DataFrame) : Prop :=
  Forall (fun p => List.length (values (snd p)) = n) df.

(** Two records that differ only by a blank before the department. *)
Definition nearly_twins : DataFrame :=
  [("student_id", text ["S1"; "S1"]);
   ("age", floats [19 # 1; 19 # 1]);
   ("gender", text ["F"; "F"]);
   ("attendance", floats [88 # 1; 88 # 1]);
   ("assignment_score", floats [75 # 1; 75 # 1]);
   ("exam_score", floats [81 # 1; 81 # 1]);
   ("final_grade", text ["B"; "B"]);
   ("department", text ["it"; " it"])].

(** A grade typed as " none ": not a marker as it stands. *)
Definition padded_none : DataFrame :=
  [("student_id", text ["S1"; "S2"]);
   ("age", floats [19 # 1; 23 # 1]);
   ("gender", text ["F"; "M"]);
   ("attendance", floats [88 # 1; 92 # 1]);
   ("assignment_score", floats [75 # 1; 64 # 1]);
   ("exam_score", floats [81 # 1; 58 # 1]);
   ("final_grade", text ["B"; " none "]);
   ("department", text ["it"; "cs"])].

(** Ages 10, 45, 20, 21: the median of the whole column is 20.5. *)
Definition half_median : DataFrame :=
  [("student_id", text ["S1"; "S2"; "S3"; "S4"]);
   ("age", floats [10 # 1; 45 # 1; 20 # 1; 21 # 1]);
   ("gender", text ["F"; "M"; "F"; "M"]);
   ("attendance", floats [88 # 1; 92 # 1; 70 # 1; 60 # 1]);
   ("assignment_score", floats [75 # 1; 64 # 1; 80 # 1; 90 # 1]);
   ("exam_score", floats [81 # 1; 58 # 1; 66 # 1; 77 # 1]);
   ("final_grade", text ["B"; "C"; "A"; "B"]);
   ("department", text ["it"; "cs"; "it"; "cs"])].

(** Ages 10, 10, 20, 20: the median of the whole column is 15. *)
Definition low_median : DataFrame :=
  [("student_id", text ["S1"; "S2"; "S3"; "S4"]);
   ("age", floats [10 # 1; 10 # 1; 20 # 1; 20 # 1]);
   ("gender", text ["F"; "M"; "F"; "M"]);
   ("attendance", floats [88 # 1; 92 # 1; 70 # 1; 60 # 1]);
   ("assignment_score", floats [75 # 1; 64 # 1; 80 # 1; 90 # 1]);
   ("exam_score", floats [81 # 1; 58 # 1; 66 # 1; 77 # 1]);
   ("final_grade", text ["B"; "C"; "A"; "B"]);
   ("department", text ["it"; "cs"; "it"; "cs"])].


(** ** Notions used to describe the exploration and the loading *)

(** Text and numbers side by side among the present cells: what
    [sort_values] cannot order. *)
Definition mixed (l : list cell) : bool :=
  existsb is_str (dropna l) && existsb is_num (dropna l).

(** A file in which one age was entered as a dash. *)
Definition dash_age : csv :=
  [["student_id"; "age"; "gender"; "attendance"; "assignment_score";
    "exam_score"; "final_grade"; "department"];
   ["S1"; "20"; "M"; "90"; "70"; "80"; "A"; "cs"];
   ["S2"; "-"; "F"; "95"; "71"; "81"; "B"; "it"]].

(** ** The report on the score columns (lines 100-102) *)

Definition notna (c : cell) : bool := negb (isna c).

(** [invalid = numeric.isna() & df[col].notna()] with
    [numeric = pd.to_numeric(df[col], errors='coerce')]. *)
Definition invalid (to_float : string -> option Q) (s : Series) : list bool :=
  let numeric := to_numeric to_float s in
  map (fun p => isna (fst p) && notna (snd p))
      (combine (values numeric) (values s)).

(** [mask.sum()] and [s.isna().sum()] *)
Definition mask_sum (mask : list bool) : nat := List.length (filter id mask).

Definition isna_sum (s : Series) : nat := mask_sum (map isna (values s)).

(** A name that the renaming of [get_header] has made up holds a dot or
    a colon; none of the eight expected names does. *)
Fixpoint made_up (s : string) : bool :=
  match s with
  | EmptyString => false
  | String a s' => Ascii.eqb a "." || Ascii.eqb a ":" || made_up s'
  end.

(** * Properties *)

(** ** Results, cells and columns *)

Lemma bind_Ok {A B : Type} (r : result A) (k : A -> result B) (b : B) :
  bind r k = Ok b -> exists a, r = Ok a /\ k a = Ok b.
Proof.
  destruct r as [a | e]; simpl; intros H; [eauto | discriminate].
Qed.

Lemma Q_eqb_eq (x y : Q) : Q_eqb x y = true <-> x = y.
Proof.
  unfold Q_eqb. destruct x as [a p], y as [b q]; simpl.
  rewrite andb_true_iff, Z.eqb_eq, Pos.eqb_eq.
  split; [intros [-> ->]; reflexivity | intros H; inversion H; auto].
Qed.

Lemma cell_eqb_eq (a b : cell) : cell_eqb a b = true <-> a = b.
Proof.
  destruct a, b; simpl; try (split; [discriminate | congruence]).
  - tauto.
  - rewrite String.eqb_eq. split; congruence.
  - rewrite Q_eqb_eq. split; congruence.
Qed.

Lemma cell_eqb_refl (a : cell) : cell_eqb a a = true.
Proof. apply cell_eqb_eq; reflexivity. Qed.

Lemma row_eqb_eq (r1 r2 : row) : row_eqb r1 r2 = true <-> r1 = r2.
Proof.
  revert r2; induction r1 as [| a r1 IH]; intros [| b r2]; simpl;
    try (split; [discriminate | congruence]); [tauto |].
  rewrite andb_true_iff, cell_eqb_eq, IH. split; [intros [-> ->] | intros H; inversion H]; auto.
Qed.

Lemma getitem_setitem_same (df : DataFrame) (col : string) (s : Series) :
  getitem (setitem df col s) col = Ok s.
Proof.
  induction df as [| [c s0] df IH]; simpl.
  - rewrite String.eqb_refl; reflexivity.
  - destruct (String.eqb c col) eqn:E; simpl; rewrite E; auto.
Qed.

Lemma getitem_setitem_other (df : DataFrame) (col col' : string) (s : Series) :
  col <> col' -> getitem (setitem df col s) col' = getitem df col'.
Proof.
  intros Hne. induction df as [| [c s0] df IH]; simpl.
  - apply String.eqb_neq in Hne. rewrite Hne; reflexivity.
  - destruct (String.eqb c col) eqn:E; simpl.
    + apply String.eqb_eq in E; subst c.
      apply String.eqb_neq in Hne. rewrite Hne; reflexivity.
    + rewrite IH; reflexivity.
Qed.

Lemma setitem_setitem (df : DataFrame) (col : string) (s s' : Series) :
  setitem (setitem df col s) col s' = setitem df col s'.
Proof.
  induction df as [| [c s0] df IH]; simpl.
  - rewrite String.eqb_refl; reflexivity.
  - destruct (String.eqb c col) eqn:E; simpl; rewrite E; [reflexivity |].
    rewrite IH; reflexivity.
Qed.

Lemma getitem_In (df : DataFrame) (col : string) (s : Series) :
  In (col, s) df -> exists s', getitem df col = Ok s'.
Proof.
  induction df as [| [c s0] df IH]; simpl; [tauto |].
  intros [H | H].
  - inversion H; subst. rewrite String.eqb_refl. eauto.
  - destruct (String.eqb c col); eauto.
Qed.

Lemma lookup_np_script : lookup_name script_globals "np" = Raise (NameError "np").
Proof. reflexivity. Qed.

Lemma lookup_pd_script : lookup_name script_globals "pd" = Ok tt.
Proof. reflexivity. Qed.

(** ** The missing import *)

Lemma drop_duplicates_text_column (df : DataFrame) :
  has_text_column (drop_duplicates df) = has_text_column df.
Proof.
  unfold has_text_column, drop_duplicates.
  generalize (map negb (duplicated df)) as keep; intros keep.
  induction df as [| [c s] df IH]; simpl; [reflexivity |].
  rewrite IH; reflexivity.
Qed.

Lemma select_dtypes_text_column (df : DataFrame) :
  has_text_column df = true ->
  exists c s rest, select_dtypes object df = (c, s) :: rest /\ In (c, s) df.
Proof.
  unfold has_text_column, select_dtypes.
  induction df as [| [c s] df IH]; simpl; [discriminate |].
  destruct (dtype_eqb (dt s) object) eqn:E; simpl.
  - intros _. exists c, s. eauto.
  - intros H. destruct (IH H) as (c' & s' & rest & Heq & Hin).
    exists c', s', rest. auto.
Qed.

Lemma replace_markers_without_np (df : DataFrame) :
  has_text_column df = true ->
  replace_markers script_globals df = Raise (NameError "np").
Proof.
  intros H. destruct (select_dtypes_text_column df H) as (c & s & rest & Heq & Hin).
  unfold replace_markers. rewrite Heq. simpl.
  destruct (getitem_In df c s Hin) as [s' Hs']. rewrite Hs'. reflexivity.
Qed.

Lemma age_integer_bound_without_np (df df' : DataFrame) :
  age_integer_bound script_globals df <> Ok df'.
Proof.
  unfold age_integer_bound. intros H.
  repeat (apply bind_Ok in H; destruct H as (? & ? & H)).
  discriminate.
Qed.

Lemma bound_numeric_columns_without_np (df : DataFrame) :
  bound_numeric_columns script_globals df = Raise (NameError "np").
Proof. reflexivity. Qed.

Section MissingImport.

Variable to_float : string -> option Q.
Variable float_repr : Q -> string.

Lemma clean_without_np_never_saves (df out : DataFrame) :
  clean to_float float_repr script_globals df <> Saved out.
Proof.
  unfold clean, during.
  destruct (replace_markers _ _); [| discriminate].
  destruct (convert_scores _ _ _); [| discriminate].
  destruct (imputation _); [| discriminate].
  destruct (standardize_categories _ _); [| discriminate].
  destruct (age_integer_bound _ _) eqn:E; [| discriminate].
  exfalso. eapply age_integer_bound_without_np; eauto.
Qed.

(** The script as a whole writes its output file for no input file. *)
Lemma script_never_saves (file : csv) (out : DataFrame) :
  script to_float float_repr file <> Saved out.
Proof.
  unfold script, during.
  destruct (lookup_name _ _ ;;; read_csv _ _); [| discriminate].
  destruct (explore _ _); [| discriminate].
  apply clean_without_np_never_saves.
Qed.

(** C1.  The only import binds [pd], so in the script's namespace the
    name [np] is unbound.  For every table with at least one text-typed
    (object) column, the cleaning sequence raises [NameError] for [np]
    while replacing the missing markers, before any later step, and no
    output is written.  The whole script ends the same way on every file
    that loads as such a table and gets through the exploratory
    prints. *)
Theorem missing_import_stops_text_tables (df : DataFrame) :
  has_text_column df = true ->
  clean to_float float_repr script_globals df = Raised Markers (NameError "np")
  /\ (forall out, clean to_float float_repr script_globals df <> Saved out)
  /\ (forall file,
        read_csv to_float file = Ok df ->
        explore script_globals df = Ok tt ->
        script to_float float_repr file = Raised Markers (NameError "np")).
Proof.
  intros H.
  assert (Hclean : clean to_float float_repr script_globals df
                   = Raised Markers (NameError "np")).
  { unfold clean, during.
    rewrite replace_markers_without_np; [reflexivity |].
    rewrite drop_duplicates_text_column; exact H. }
  split; [exact Hclean |].
  split; [intros out; apply clean_without_np_never_saves |].
  intros file Hload Hexplore. unfold script, during.
  rewrite lookup_pd_script. cbn [bind]. rewrite Hload, Hexplore. exact Hclean.
Qed.

End MissingImport.

Lemma missing_import_stops_text_tables_witness :
  has_text_column students = true
  /\ clean decimal_to_float decimal_repr script_globals students
     = Raised Markers (NameError "np").
Proof.
  split; [reflexivity |].
  apply (missing_import_stops_text_tables decimal_to_float decimal_repr students).
  reflexivity.
Defined.

(** ** Duplicate elimination *)

Lemma select_zip {A B C : Type} (f : A * B -> C) (m : list bool)
  (l : list A) (r : list B) :
  select m (map f (combine l r)) = map f (combine (select m l) (select m r)).
Proof.
  revert l r; induction m as [| b m IH]; intros [| x l] [| y r]; simpl;
    try reflexivity.
  - destruct b; simpl; [| destruct (select m l)]; reflexivity.
  - destruct b; simpl; rewrite IH; reflexivity.
Qed.

Lemma select_repeat {A : Type} (x : A) (m : list bool) (n : nat) :
  select m (repeat x n) = repeat x (List.length (select m (repeat x n))).
Proof.
  revert n; induction m as [| b m IH]; intros [| n]; simpl; try reflexivity.
  destruct b; simpl; [f_equal |]; apply IH.
Qed.

Lemma length_select {A B : Type} (m : list bool) (l : list A) (r : list B) :
  List.length l = List.length r ->
  List.length (select m l) = List.length (select m r).
Proof.
  revert l r; induction m as [| b m IH]; intros [| x l] [| y r]; simpl;
    try reflexivity; try discriminate.
  intros H; injection H as H. destruct b; simpl; auto.
Qed.

Lemma zip_rows_select (keep : list bool) (n : nat) (cs : list (list cell)) :
  zip_rows (List.length (select keep (repeat (@nil cell) n)))
           (map (select keep) cs)
  = select keep (zip_rows n cs).
Proof.
  induction cs as [| c cs IH]; simpl.
  - symmetry; apply select_repeat.
  - rewrite IH, select_zip; reflexivity.
Qed.

(** Selecting rows column by column is selecting rows. *)
Lemma rows_loc_rows (keep : list bool) (df : DataFrame) :
  rows (loc_rows keep df) = select keep (rows df).
Proof.
  unfold rows, loc_rows. rewrite map_map; simpl.
  rewrite <- (map_map (fun p => values (snd p)) (select keep)).
  rewrite <- zip_rows_select. f_equal.
  destruct df as [| [c s] df]; simpl.
  - destruct keep; reflexivity.
  - apply length_select. rewrite repeat_length; reflexivity.
Qed.

Lemma drop_duplicates_loc_rows (df : DataFrame) :
  drop_duplicates df = loc_rows (map negb (duplicated df)) df.
Proof. reflexivity. Qed.

Lemma existsb_row_eqb (r : row) (seen : list row) :
  existsb (row_eqb r) seen = true <-> In r seen.
Proof.
  rewrite existsb_exists. split.
  - intros (x & Hin & Heq). apply row_eqb_eq in Heq; subst; assumption.
  - intros Hin. exists r. split; [assumption | apply row_eqb_eq; reflexivity].
Qed.

Lemma length_duplicated_from (seen rs : list row) :
  List.length (duplicated_from seen rs) = List.length rs.
Proof.
  revert seen; induction rs as [| r rs IH]; intros seen; simpl; auto.
Qed.

(** A row is marked exactly when an equal row came earlier. *)
Lemma duplicated_from_nth (rs : list row) :
  forall (seen : list row) (i : nat),
    (i < List.length rs)%nat ->
    nth i (duplicated_from seen rs) false = true <->
    In (nth i rs []) seen
    \/ exists j, (j < i)%nat /\ nth j rs [] = nth i rs [].
Proof.
  induction rs as [| r rs IH]; intros seen i Hi; simpl in Hi; [lia |].
  destruct i as [| i]; simpl.
  - rewrite existsb_row_eqb. split; [auto |].
    intros [H | (j & Hj & _)]; [assumption | lia].
  - rewrite IH by lia. simpl. split.
    + intros [[H | H] | (j & Hj & Heq)].
      * right. exists O. split; [lia | assumption].
      * left; assumption.
      * right. exists (S j). split; [lia | assumption].
    + intros [H | (j & Hj & Heq)].
      * left; right; assumption.
      * destruct j as [| j]; [left; left; assumption |].
        right. exists j. split; [lia | assumption].
Qed.

Lemma In_first_occurrences (rs : list row) :
  forall (seen : list row) (r : row),
    In r (select (map negb (duplicated_from seen rs)) rs) <->
    In r rs /\ ~ In r seen.
Proof.
  induction rs as [| x rs IH]; intros seen r; simpl; [tauto |].
  destruct (existsb (row_eqb x) seen) eqn:E; simpl.
  - apply existsb_row_eqb in E. rewrite IH. simpl. split.
    + intros [H Hn]. split; [auto | intros Hs; apply Hn; auto].
    + intros [[H | H] Hn]; [subst; contradiction |].
      split; [assumption |]. intros [Hx | Hs]; [subst; contradiction | contradiction].
  - assert (Hx : ~ In x seen).
    { intros Hin. apply existsb_row_eqb in Hin. congruence. }
    rewrite IH. simpl. split.
    + intros [H | [H Hn]]; [subst; auto |]. split; [auto | intros Hs; apply Hn; auto].
    + intros [[H | H] Hn]; [auto |].
      destruct (row_eqb x r) eqn:Exr; [apply row_eqb_eq in Exr; auto |].
      right. split; [assumption |].
      intros [Hx' | Hs]; [| contradiction].
      subst. rewrite (proj2 (row_eqb_eq r r) eq_refl) in Exr. discriminate.
Qed.

Lemma NoDup_first_occurrences (rs : list row) :
  forall seen : list row,
    NoDup (select (map negb (duplicated_from seen rs)) rs).
Proof.
  induction rs as [| x rs IH]; intros seen; simpl; [constructor |].
  destruct (existsb (row_eqb x) seen); simpl; [apply IH |].
  constructor; [| apply IH].
  rewrite In_first_occurrences. simpl. tauto.
Qed.

(** C7.  [drop_duplicates(keep='first')] keeps the rows at the unmarked
    positions, in their original order; a position is marked exactly
    when an equal row (all cells equal) stands at an earlier position.
    So the first copy of every row survives, no row occurs twice in the
    result, and every row of the input is still represented.  On two
    identical records and one distinct record, only the later copy is
    marked and the result has one row fewer. *)
Theorem drop_duplicates_keeps_first (df : DataFrame) :
  rows (drop_duplicates df) = select (map negb (duplicated df)) (rows df)
  /\ List.length (duplicated df) = List.length (rows df)
  /\ (forall i, (i < List.length (rows df))%nat ->
        nth i (duplicated df) false = true <->
        exists j, (j < i)%nat /\ nth j (rows df) [] = nth i (rows df) [])
  /\ NoDup (rows (drop_duplicates df))
  /\ (forall r, In r (rows df) <-> In r (rows (drop_duplicates df)))
  /\ duplicated twins = [false; false; true]
  /\ S (List.length (rows (drop_duplicates twins))) = List.length (rows twins).
Proof.
  assert (Hrows : rows (drop_duplicates df)
                  = select (map negb (duplicated df)) (rows df)).
  { rewrite drop_duplicates_loc_rows. apply rows_loc_rows. }
  split; [exact Hrows |].
  split; [apply length_duplicated_from |].
  split.
  { intros i Hi. unfold duplicated.
    rewrite (duplicated_from_nth (rows df) [] i Hi). simpl. tauto. }
  rewrite Hrows. unfold duplicated.
  split; [apply NoDup_first_occurrences |].
  split; [| split; reflexivity].
  intros r. rewrite In_first_occurrences. simpl. tauto.
Qed.

(** ** Categories *)

Section Categories.

Variable float_repr : Q -> string.

Lemma standardize_cells (s : Series) :
  standardize float_repr s
  = mkSeries object (map (standardize_cell float_repr) (values s)).
Proof.
  unfold standardize, str_method, astype_str; simpl.
  rewrite !map_map. reflexivity.
Qed.

Lemma standardize_cell_text (x : string) :
  standardize_cell float_repr (Str x) = Str (title (lower (strip x))).
Proof. reflexivity. Qed.

(** C8.  With the three category columns present, step 5 raises nothing
    and turns every [gender] cell into the alias-mapped form of its
    standardized text.  "M", " female ", "MALE", "Other" become "Male",
    "Female", "Male", "Other"; a value whose standardized form is not a
    key of the alias map is left as that standardized form. *)
Theorem gender_alias_after_standardizing (df : DataFrame) (g d f : Series) :
  getitem df "gender" = Ok g ->
  getitem df "department" = Ok d ->
  getitem df "final_grade" = Ok f ->
  (exists df',
      standardize_categories float_repr df = Ok df'
      /\ getitem df' "gender"
         = Ok (mkSeries object (map (gender_cell float_repr) (values g))))
  /\ map (gender_cell float_repr)
         [Str "M"; Str " female "; Str "MALE"; Str "Other"]
     = [Str "Male"; Str "Female"; Str "Male"; Str "Other"]
  /\ (forall x,
        lookup gender_mapping (title (lower (strip x))) = None ->
        gender_cell float_repr (Str x) = Str (title (lower (strip x)))).
Proof.
  intros Hg Hd Hf. split; [| split; [reflexivity |]].
  - unfold standardize_categories, standardize_loop.
    rewrite Hg; simpl.
    rewrite getitem_setitem_other, Hd by discriminate; simpl.
    rewrite !getitem_setitem_other, Hf by discriminate; simpl.
    rewrite !getitem_setitem_other, getitem_setitem_same by discriminate; simpl.
    eexists; split; [reflexivity |].
    rewrite getitem_setitem_same. rewrite standardize_cells.
    unfold replace_dict; simpl. rewrite map_map. reflexivity.
  - intros x Hx. unfold gender_cell. rewrite standardize_cell_text.
    unfold replace_dict_cell. rewrite Hx. reflexivity.
Qed.

End Categories.

Lemma gender_alias_after_standardizing_witness :
  exists df',
    standardize_categories decimal_repr students = Ok df'
    /\ getitem df' "gender"
       = Ok (text ["Male"; "Female"; "Male"; "Other"; "Male"]).
Proof.
  destruct (gender_alias_after_standardizing decimal_repr students
              (text ["M"; " female "; "MALE"; "Other"; "M"])
              (text ["cs"; " CS"; "it"; "IT "; "cs"])
              (text ["a"; "b"; "A"; "c"; "a"])
              eq_refl eq_refl eq_refl) as [(df' & Hrun & Hcol) _].
  exists df'. split; [exact Hrun | exact Hcol].
Defined.

(** ** Numeric coercion *)

(** Step 3 leaves [attendance] as it finds it: a text cell that does not
    parse stays text instead of becoming absent, and one that parses is
    not replaced by its number. *)
Lemma attendance_not_coerced :
  exists out,
    convert_scores decimal_to_float script_globals text_attendance = Ok out
    /\ getitem out "attendance" = Ok (text ["95"; "abc"; "88%"])
    /\ coerce decimal_to_float (Str "abc") = NaN
    /\ coerce decimal_to_float (Str "95") = Num (95 # 1).
Proof.
  eexists. split; [reflexivity |]. repeat split; reflexivity.
Qed.

Section Coercion.

Variable to_float : string -> option Q.

(** C2, amended.  Step 3 visits [assignment_score] and [exam_score]
    only.  When both columns exist it raises nothing, whatever their
    cells hold: a text cell becomes its parsed number when it parses and
    the absent value when it does not, numbers and absent cells stay.
    Every other column, [attendance] included, is left untouched. *)
Theorem convert_scores_coerces_two_columns
  (ns : namespace) (df : DataFrame) (a e : Series) :
  lookup_name ns "pd" = Ok tt ->
  getitem df "assignment_score" = Ok a ->
  getitem df "exam_score" = Ok e ->
  (exists out,
      convert_scores to_float ns df = Ok out
      /\ getitem out "assignment_score"
         = Ok (mkSeries float64 (map (coerce to_float) (values a)))
      /\ getitem out "exam_score"
         = Ok (mkSeries float64 (map (coerce to_float) (values e)))
      /\ (forall col,
            col <> "assignment_score" -> col <> "exam_score" ->
            getitem out col = getitem df col))
  /\ (forall x q, to_float x = Some q -> coerce to_float (Str x) = Num q)
  /\ (forall x, to_float x = None -> coerce to_float (Str x) = NaN)
  /\ (forall q, coerce to_float (Num q) = Num q)
  /\ coerce to_float NaN = NaN.
Proof.
  intros Hpd Ha He. split.
  - unfold convert_scores, convert_scores_loop.
    rewrite Hpd; simpl. rewrite Ha; simpl.
    rewrite getitem_setitem_other, He by discriminate; simpl.
    eexists; split; [reflexivity |].
    split; [| split].
    + rewrite getitem_setitem_other, getitem_setitem_same by discriminate.
      reflexivity.
    + rewrite getitem_setitem_same. reflexivity.
    + intros col H1 H2.
      rewrite !getitem_setitem_other by congruence. reflexivity.
  - repeat split; intros; simpl; try rewrite H; reflexivity.
Qed.

End Coercion.

Lemma convert_scores_coerces_two_columns_witness :
  exists out,
    convert_scores decimal_to_float script_globals text_attendance = Ok out
    /\ getitem out "assignment_score"
       = Ok (mkSeries float64 [Num (75 # 1); NaN; Num (64 # 1)])
    /\ getitem out "attendance" = getitem text_attendance "attendance".
Proof.
  destruct (convert_scores_coerces_two_columns decimal_to_float script_globals
              text_attendance
              (text ["75"; "n.a."; "64"])
              (floats [81 # 1; 58 # 1; 77 # 1])
              eq_refl eq_refl eq_refl)
    as [(out & Hrun & Ha & _ & Hother) _].
  exists out. split; [exact Hrun |]. split; [exact Ha |].
  apply Hother; discriminate.
Defined.

(** ** Orders and sorting *)

Lemma ascii_compare_refl (a : ascii) : Ascii.compare a a = Eq.
Proof. unfold Ascii.compare. apply N.compare_refl. Qed.

Lemma string_leb_refl (a : string) : String.leb a a = true.
Proof.
  destruct (String.leb_total a a); assumption.
Qed.

Lemma string_compare_trans_le (a : string) :
  forall b c : string,
    String.compare a b <> Gt -> String.compare b c <> Gt ->
    String.compare a c <> Gt.
Proof.
  induction a as [| x a IH]; intros [| y b] [| z c]; simpl; try congruence.
  unfold Ascii.compare.
  destruct (N.compare_spec (N_of_ascii x) (N_of_ascii y)) as [Exy | Exy | Exy];
    destruct (N.compare_spec (N_of_ascii y) (N_of_ascii z)) as [Eyz | Eyz | Eyz];
    destruct (N.compare_spec (N_of_ascii x) (N_of_ascii z)) as [Exz | Exz | Exz];
    try congruence; try lia.
  apply IH.
Qed.

Lemma string_leb_trans (a b c : string) :
  String.leb a b = true -> String.leb b c = true -> String.leb a c = true.
Proof.
  unfold String.leb. intros Hab Hbc.
  pose proof (string_compare_trans_le a b c) as H.
  destruct (String.compare a b); destruct (String.compare b c);
    destruct (String.compare a c); try reflexivity; try discriminate;
    exfalso; apply H; congruence.
Qed.

Lemma Qle_bool_total (x y : Q) : Qle_bool x y = true \/ Qle_bool y x = true.
Proof.
  rewrite !Qle_bool_iff. destruct (Qlt_le_dec x y) as [H | H]; [left | right].
  - apply Qlt_le_weak; assumption.
  - assumption.
Qed.

Lemma Qle_bool_trans (x y z : Q) :
  Qle_bool x y = true -> Qle_bool y z = true -> Qle_bool x z = true.
Proof. rewrite !Qle_bool_iff. apply Qle_trans. Qed.

Lemma cell_leb_total (a b : cell) : cell_leb a b = true \/ cell_leb b a = true.
Proof.
  destruct a, b; simpl; auto using String.leb_total, Qle_bool_total.
Qed.

Lemma cell_leb_trans (a b c : cell) :
  cell_leb a b = true -> cell_leb b c = true -> cell_leb a c = true.
Proof.
  destruct a, b, c; simpl; try congruence;
    eauto using string_leb_trans, Qle_bool_trans.
Qed.

Section Sorting.

Context {A : Type} (leb : A -> A -> bool).
Hypothesis leb_total : forall x y, leb x y = true \/ leb y x = true.
Hypothesis leb_trans :
  forall x y z, leb x y = true -> leb y z = true -> leb x z = true.

Lemma In_insert_sorted (x y : A) (l : list A) :
  In y (insert_sorted leb x l) <-> y = x \/ In y l.
Proof.
  induction l as [| z l IH]; simpl; [intuition auto |].
  destruct (leb x z); simpl; [intuition auto |].
  rewrite IH. intuition auto.
Qed.

Lemma In_sort (y : A) (l : list A) : In y (sort leb l) <-> In y l.
Proof.
  induction l as [| x l IH]; simpl; [tauto |].
  rewrite In_insert_sorted, IH. intuition auto.
Qed.

Lemma length_insert_sorted (x : A) (l : list A) :
  List.length (insert_sorted leb x l) = S (List.length l).
Proof.
  induction l as [| z l IH]; simpl; [reflexivity |].
  destruct (leb x z); simpl; auto.
Qed.

Lemma length_sort (l : list A) : List.length (sort leb l) = List.length l.
Proof.
  induction l as [| x l IH]; simpl; [reflexivity |].
  rewrite length_insert_sorted, IH; reflexivity.
Qed.

(** The first element of a sorted list is a least element. *)
Lemma sort_head_least (l : list A) :
  match sort leb l with
  | [] => l = []
  | m :: _ => In m l /\ forall x, In x l -> leb m x = true
  end.
Proof.
  induction l as [| a l IH]; simpl; [reflexivity |].
  destruct (sort leb l) as [| m rest] eqn:E; simpl.
  - subst l. split; [auto |]. intros x [<- | []].
    destruct (leb_total a a); assumption.
  - destruct IH as [Hin Hle].
    destruct (leb a m) eqn:Eam.
    + split; [auto |]. intros x [<- | Hx].
      * destruct (leb_total a a); assumption.
      * eapply leb_trans; [exact Eam | auto].
    + split; [auto |]. intros x [<- | Hx]; [| auto].
      destruct (leb_total a m) as [H | H]; [congruence | assumption].
Qed.

End Sorting.

(** ** Counting and the mode *)

Lemma fold_max_upper {A : Type} (f : A -> nat) (l : list A) (c : A) :
  In c l -> (f c <= fold_right Nat.max O (map f l))%nat.
Proof.
  induction l as [| x l IH]; simpl; [tauto |].
  intros [<- | H]; [lia |]. specialize (IH H). lia.
Qed.

Lemma fold_max_attained {A : Type} (f : A -> nat) (l : list A) :
  l <> [] -> exists c, In c l /\ f c = fold_right Nat.max O (map f l).
Proof.
  induction l as [| x l IH]; [congruence |]. intros _. simpl.
  destruct l as [| y l].
  - exists x. simpl. split; [auto | lia].
  - destruct IH as (c & Hin & Hc); [discriminate |].
    destruct (Nat.le_ge_cases (f x) (fold_right Nat.max O (map f (y :: l)))) as [H | H].
    + exists c. split; [right; assumption | lia].
    + exists x. split; [left; reflexivity | lia].
Qed.

Lemma count_not_In (c : cell) (l : list cell) : ~ In c l -> count c l = O.
Proof.
  unfold count. induction l as [| x l IH]; simpl; [reflexivity |].
  intros H. destruct (cell_eqb c x) eqn:E.
  - apply cell_eqb_eq in E. subst. exfalso; auto.
  - apply IH. auto.
Qed.

Lemma count_In_pos (c : cell) (l : list cell) : In c l -> (0 < count c l)%nat.
Proof.
  unfold count. induction l as [| x l IH]; simpl; [tauto |].
  intros [<- | H].
  - rewrite cell_eqb_refl. simpl. lia.
  - destruct (cell_eqb c x); simpl; [lia | auto].
Qed.

Lemma existsb_cell_eqb (c : cell) (seen : list cell) :
  existsb (cell_eqb c) seen = true <-> In c seen.
Proof.
  rewrite existsb_exists. split.
  - intros (x & Hin & Heq). apply cell_eqb_eq in Heq; subst; assumption.
  - intros Hin. exists c. split; [assumption | apply cell_eqb_refl].
Qed.

Lemma In_unique_from (l : list cell) :
  forall (seen : list cell) (c : cell),
    In c (unique_from seen l) <-> In c l /\ ~ In c seen.
Proof.
  induction l as [| x l IH]; intros seen c; simpl; [tauto |].
  destruct (existsb (cell_eqb x) seen) eqn:E.
  - apply existsb_cell_eqb in E. rewrite IH. split.
    + intros [H Hn]; auto.
    + intros [[H | H] Hn]; [subst; contradiction | auto].
  - assert (Hx : ~ In x seen).
    { intros Hin. apply existsb_cell_eqb in Hin. congruence. }
    simpl. rewrite IH. simpl. split.
    + intros [H | [H Hn]]; [subst; auto | auto].
    + intros [[H | H] Hn]; [auto |].
      destruct (cell_eqb x c) eqn:Exc; [apply cell_eqb_eq in Exc; auto |].
      right. split; [assumption |].
      intros [Hx' | Hs]; [| contradiction].
      subst. rewrite cell_eqb_refl in Exc. discriminate.
Qed.

Lemma In_unique (l : list cell) (c : cell) : In c (unique l) <-> In c l.
Proof. unfold unique. rewrite In_unique_from. simpl. tauto. Qed.

Lemma In_dropna (l : list cell) (c : cell) :
  In c (dropna l) <-> In c l /\ isna c = false.
Proof.
  unfold dropna. rewrite filter_In. rewrite negb_true_iff. tauto.
Qed.

Lemma In_most_frequent (l : list cell) (c : cell) :
  In c (most_frequent l) <->
  In c (dropna l) /\ count c (dropna l) = max_count (dropna l).
Proof.
  unfold most_frequent. rewrite filter_In, In_unique, Nat.eqb_eq. tauto.
Qed.

Lemma most_frequent_nonempty (l : list cell) :
  dropna l <> [] -> most_frequent l <> [].
Proof.
  intros H.
  destruct (fold_max_attained (fun c => count c (dropna l)) (dropna l) H)
    as (c & Hin & Hc).
  intros Hnil. assert (Hc' : In c (most_frequent l)).
  { apply In_most_frequent. split; assumption. }
  rewrite Hnil in Hc'. contradiction.
Qed.

Lemma dropna_all_absent (l : list cell) :
  forallb isna l = true -> dropna l = [].
Proof.
  unfold dropna. induction l as [| c l IH]; simpl; [reflexivity |].
  rewrite andb_true_iff. intros [Hc Hl]. rewrite Hc. simpl. auto.
Qed.

(** The mode of a text column with at least one present value: one of
    the most frequent present values, and the least of them in string
    order. *)
Lemma mode_of_text (s : Series) :
  forallb (fun c => is_str c || isna c) (values s) = true ->
  existsb is_str (values s) = true ->
  exists m,
    item0 (mode s) = Ok (Str m)
    /\ In (Str m) (values s)
    /\ (forall c, isna c = false ->
          (count c (dropna (values s)) <= count (Str m) (dropna (values s)))%nat)
    /\ (forall x,
          count (Str x) (dropna (values s)) = count (Str m) (dropna (values s)) ->
          String.leb m x = true).
Proof.
  intros Htext Hsome.
  set (p := dropna (values s)).
  assert (Hp : p <> []).
  { apply existsb_exists in Hsome. destruct Hsome as (c & Hin & Hc).
    intros Hnil. assert (H : In c p).
    { apply In_dropna. split; [assumption |]. destruct c; simpl in *; congruence. }
    rewrite Hnil in H. contradiction. }
  assert (Hstr : forall c, In c (most_frequent (values s)) -> is_str c = true).
  { intros c Hc. apply In_most_frequent in Hc. destruct Hc as [Hc _].
    apply In_dropna in Hc. destruct Hc as [Hc Hna].
    rewrite forallb_forall in Htext. specialize (Htext c Hc).
    rewrite Hna, orb_false_r in Htext. exact Htext. }
  assert (Hall : forallb is_str (most_frequent (values s)) = true).
  { apply forallb_forall. exact Hstr. }
  unfold item0, mode. simpl. rewrite Hall. simpl.
  pose proof (sort_head_least cell_leb cell_leb_total cell_leb_trans
                (most_frequent (values s))) as Hsort.
  destruct (sort cell_leb (most_frequent (values s))) as [| m rest].
  { exfalso. apply (most_frequent_nonempty (values s)); assumption. }
  destruct Hsort as [Hin Hleast].
  pose proof (Hstr m Hin) as Hm. destruct m as [| m |]; try discriminate.
  exists m. split; [reflexivity |].
  apply In_most_frequent in Hin. destruct Hin as [Hinp Hmax]. fold p in Hinp, Hmax.
  split; [apply In_dropna in Hinp; tauto |].
  split.
  - intros c Hc. rewrite Hmax.
    destruct (existsb (cell_eqb c) p) eqn:E;
      [apply existsb_cell_eqb in E; rename E into Hcin
      | assert (Hcout : ~ In c p)
          by (intros H; apply existsb_cell_eqb in H; congruence)].
    + unfold max_count. apply (fold_max_upper (fun c => count c p)). assumption.
    + rewrite count_not_In by assumption. lia.
  - intros x Hx.
    assert (Hxin : In (Str x) p).
    { destruct (existsb (cell_eqb (Str x)) p) eqn:E.
      - apply existsb_cell_eqb in E. assumption.
      - exfalso. assert (Hn : ~ In (Str x) p).
        { intros H. apply existsb_cell_eqb in H. congruence. }
        pose proof (count_In_pos _ _ Hinp). rewrite count_not_In in Hx by assumption.
        lia. }
    apply (Hleast (Str x)). apply In_most_frequent. fold p.
    split; [assumption | congruence].
Qed.

(** ** Imputation *)

Lemma setitem_getitem_id (df : DataFrame) (col : string) (s : Series) :
  getitem df col = Ok s -> setitem df col s = df.
Proof.
  induction df as [| [c s0] df IH]; simpl; [discriminate |].
  destruct (String.eqb c col) eqn:E.
  - intros H; inversion H; reflexivity.
  - intros H. rewrite IH by assumption. reflexivity.
Qed.

Lemma fillna_NaN (s : Series) : fillna NaN s = s.
Proof.
  destruct s as [d vs]. unfold fillna; simpl. f_equal.
  induction vs as [| c vs IH]; simpl; [reflexivity |].
  rewrite IH. destruct c; reflexivity.
Qed.

Lemma nums_all_absent (l : list cell) : forallb isna l = true -> nums l = [].
Proof.
  induction l as [| c l IH]; simpl; [reflexivity |].
  rewrite andb_true_iff. intros [Hc Hl]. destruct c; try discriminate.
  simpl. auto.
Qed.

Lemma no_text_all_absent (l : list cell) :
  forallb isna l = true -> existsb is_str l = false.
Proof.
  induction l as [| c l IH]; simpl; [reflexivity |].
  rewrite andb_true_iff. intros [Hc Hl]. destruct c; try discriminate.
  simpl. auto.
Qed.

Lemma all_absent_getitem (col : string) (df : DataFrame) :
  all_absent col df = true ->
  exists s, getitem df col = Ok s /\ forallb isna (values s) = true.
Proof.
  unfold all_absent. destruct (getitem df col) as [s | e]; [eauto | discriminate].
Qed.

(** The median of an entirely absent column is NaN, and filling with NaN
    changes nothing. *)
Lemma fill_median_all_absent (col : string) (df : DataFrame) :
  all_absent col df = true -> fill_median col df = Ok df.
Proof.
  intros H. destruct (all_absent_getitem col df H) as (s & Hs & Hna).
  unfold fill_median, median. rewrite Hs; simpl.
  rewrite no_text_all_absent, nums_all_absent by assumption. simpl.
  rewrite fillna_NaN, setitem_getitem_id by assumption. reflexivity.
Qed.

(** The mode of an entirely absent column is empty, and has no item 0. *)
Lemma fill_mode_all_absent (col : string) (df : DataFrame) :
  all_absent col df = true -> fill_mode col df = Raise (KeyError "0").
Proof.
  intros H. destruct (all_absent_getitem col df H) as (s & Hs & Hna).
  unfold fill_mode, item0, mode, most_frequent. rewrite Hs; simpl.
  rewrite dropna_all_absent by assumption. reflexivity.
Qed.

Lemma fill_median_other (col col' : string) (df out : DataFrame) :
  fill_median col df = Ok out -> col <> col' ->
  getitem out col' = getitem df col'.
Proof.
  unfold fill_median. intros H Hne.
  repeat (apply bind_Ok in H; destruct H as (? & ? & H)).
  inversion H; subst. apply getitem_setitem_other; assumption.
Qed.

Lemma fill_mode_other (col col' : string) (df out : DataFrame) :
  fill_mode col df = Ok out -> col <> col' ->
  getitem out col' = getitem df col'.
Proof.
  unfold fill_mode. intros H Hne.
  repeat (apply bind_Ok in H; destruct H as (? & ? & H)).
  inversion H; subst. apply getitem_setitem_other; assumption.
Qed.

Lemma fill_median_keeps_absent (c col : string) (df out : DataFrame) :
  fill_median c df = Ok out -> all_absent col df = true ->
  getitem out col = getitem df col.
Proof.
  intros H Habs. destruct (string_dec c col) as [-> | Hne].
  - rewrite fill_median_all_absent in H by assumption.
    inversion H; reflexivity.
  - eapply fill_median_other; eassumption.
Qed.

Lemma fill_mode_keeps_absent (c col : string) (df out : DataFrame) :
  fill_mode c df = Ok out -> all_absent col df = true ->
  getitem out col = getitem df col.
Proof.
  intros H Habs. destruct (string_dec c col) as [-> | Hne].
  - rewrite fill_mode_all_absent in H by assumption. discriminate.
  - eapply fill_mode_other; eassumption.
Qed.

Lemma all_absent_ext (col : string) (df df' : DataFrame) :
  getitem df' col = getitem df col -> all_absent col df' = all_absent col df.
Proof. unfold all_absent. intros ->. reflexivity. Qed.

Lemma imputation_keeps_absent (col : string) (df out : DataFrame) :
  imputation df = Ok out -> all_absent col df = true ->
  getitem out col = getitem df col.
Proof.
  unfold imputation. intros H Habs.
  apply bind_Ok in H; destruct H as (d1 & H1 & H).
  apply bind_Ok in H; destruct H as (d2 & H2 & H).
  apply bind_Ok in H; destruct H as (d3 & H3 & H).
  apply bind_Ok in H; destruct H as (d4 & H4 & H).
  apply bind_Ok in H; destruct H as (d5 & H5 & H6).
  pose proof (fill_median_keeps_absent _ col _ _ H1 Habs) as E1.
  assert (A1 : all_absent col d1 = true) by (rewrite (all_absent_ext _ _ _ E1); assumption).
  pose proof (fill_median_keeps_absent _ col _ _ H2 A1) as E2.
  assert (A2 : all_absent col d2 = true) by (rewrite (all_absent_ext _ _ _ E2); assumption).
  pose proof (fill_median_keeps_absent _ col _ _ H3 A2) as E3.
  assert (A3 : all_absent col d3 = true) by (rewrite (all_absent_ext _ _ _ E3); assumption).
  pose proof (fill_median_keeps_absent _ col _ _ H4 A3) as E4.
  assert (A4 : all_absent col d4 = true) by (rewrite (all_absent_ext _ _ _ E4); assumption).
  pose proof (fill_mode_keeps_absent _ col _ _ H5 A4) as E5.
  assert (A5 : all_absent col d5 = true) by (rewrite (all_absent_ext _ _ _ E5); assumption).
  pose proof (fill_mode_keeps_absent _ col _ _ H6 A5) as E6.
  congruence.
Qed.

(** An entirely absent [gender] or [department] makes step 4 raise. *)
Lemma imputation_raises_on_absent_category (col : string) (df : DataFrame) :
  col = "gender" \/ col = "department" ->
  all_absent col df = true ->
  exists e, imputation df = Raise e.
Proof.
  intros Hcol Habs.
  destruct (imputation df) as [out | e] eqn:E; [| eauto]. exfalso.
  unfold imputation in E.
  apply bind_Ok in E; destruct E as (d1 & H1 & E).
  apply bind_Ok in E; destruct E as (d2 & H2 & E).
  apply bind_Ok in E; destruct E as (d3 & H3 & E).
  apply bind_Ok in E; destruct E as (d4 & H4 & E).
  apply bind_Ok in E; destruct E as (d5 & H5 & H6).
  pose proof (fill_median_keeps_absent _ col _ _ H1 Habs) as E1.
  assert (A1 : all_absent col d1 = true) by (rewrite (all_absent_ext _ _ _ E1); assumption).
  pose proof (fill_median_keeps_absent _ col _ _ H2 A1) as E2.
  assert (A2 : all_absent col d2 = true) by (rewrite (all_absent_ext _ _ _ E2); assumption).
  pose proof (fill_median_keeps_absent _ col _ _ H3 A2) as E3.
  assert (A3 : all_absent col d3 = true) by (rewrite (all_absent_ext _ _ _ E3); assumption).
  pose proof (fill_median_keeps_absent _ col _ _ H4 A3) as E4.
  assert (A4 : all_absent col d4 = true) by (rewrite (all_absent_ext _ _ _ E4); assumption).
  destruct Hcol as [-> | ->].
  - rewrite fill_mode_all_absent in H5 by assumption. discriminate.
  - pose proof (fill_mode_keeps_absent _ _ _ _ H5 A4) as E5.
    assert (A5 : all_absent "department" d5 = true)
      by (rewrite (all_absent_ext _ _ _ E5); assumption).
    rewrite fill_mode_all_absent in H6 by assumption. discriminate.
Qed.

(** With no attendance recorded at all, step 4 raises nothing and leaves
    the column absent.  As written the run then stops at the unbound
    [np]; where [np] is bound it goes on to save the table, the column
    still absent. *)
Lemma absent_attendance_left_in_place :
  all_absent "attendance" absent_attendance = true
  /\ (exists out,
        imputation absent_attendance = Ok out
        /\ getitem out "attendance" = Ok (absent 4))
  /\ clean decimal_to_float decimal_repr script_globals absent_attendance
     = Raised AgeBound (NameError "np")
  /\ (exists saved,
        clean decimal_to_float decimal_repr with_numpy absent_attendance
        = Saved saved
        /\ getitem saved "attendance" = Ok (absent 4)).
Proof.
  split; [reflexivity |].
  split; [eexists; split; reflexivity |].
  split; [reflexivity |].
  eexists; split; reflexivity.
Qed.

Section Degenerate.

Variable to_float : string -> option Q.
Variable float_repr : Q -> string.

(** C3, amended.  Take a column that is entirely absent when step 4
    starts.  If it is [gender] or [department], its mode is empty, item 0
    of it does not exist, and the run ends in step 4 with an exception
    and without saving.  If it is [age], [attendance],
    [assignment_score] or [exam_score], its median is NaN, the fill
    raises nothing and changes nothing, and step 4 hands the column on
    exactly as absent as it was. *)
Theorem all_absent_column_at_imputation
  (ns : namespace) (df d2 d3 : DataFrame) (col : string) :
  replace_markers ns (drop_duplicates df) = Ok d2 ->
  convert_scores to_float ns d2 = Ok d3 ->
  all_absent col d3 = true ->
  (col = "gender" \/ col = "department" ->
   fill_mode col d3 = Raise (KeyError "0")
   /\ exists e, clean to_float float_repr ns df = Raised Imputation e)
  /\ (In col ["age"; "attendance"; "assignment_score"; "exam_score"] ->
      fill_median col d3 = Ok d3
      /\ forall out, imputation d3 = Ok out -> getitem out col = getitem d3 col).
Proof.
  intros H2 H3 Habs. split.
  - intros Hcol. split; [apply fill_mode_all_absent; assumption |].
    destruct (imputation_raises_on_absent_category col d3 Hcol Habs) as [e He].
    exists e. unfold clean, during. rewrite H2, H3, He. reflexivity.
  - intros _. split; [apply fill_median_all_absent; assumption |].
    intros out Hout. eapply imputation_keeps_absent; eassumption.
Qed.

End Degenerate.

Lemma all_absent_column_at_imputation_witness :
  (exists e,
      clean decimal_to_float decimal_repr script_globals absent_gender
      = Raised Imputation e)
  /\ fill_median "attendance" (drop_duplicates absent_attendance)
     = Ok (drop_duplicates absent_attendance).
Proof.
  split.
  - apply (all_absent_column_at_imputation decimal_to_float decimal_repr
             script_globals absent_gender
             (drop_duplicates absent_gender) (drop_duplicates absent_gender)
             "gender" eq_refl eq_refl eq_refl).
    left; reflexivity.
  - apply (all_absent_column_at_imputation decimal_to_float decimal_repr
             script_globals absent_attendance
             (drop_duplicates absent_attendance)
             (drop_duplicates absent_attendance)
             "attendance" eq_refl eq_refl eq_refl).
    simpl; tauto.
Defined.

(** "Male" is met first and is as frequent as "Female", yet the absent
    cell is filled with "Female". *)
Lemma first_encountered_not_chosen :
  most_frequent [Str "Male"; Str "Female"; NaN] = [Str "Male"; Str "Female"]
  /\ exists out,
       imputation tied_genders = Ok out
       /\ getitem out "gender" = Ok (text ["Male"; "Female"; "Female"]).
Proof.
  split; [reflexivity |]. eexists; split; reflexivity.
Qed.

Lemma fill_mode_of_item0 (col : string) (df : DataFrame) (s : Series) (m : cell) :
  getitem df col = Ok s -> item0 (mode s) = Ok m ->
  fill_mode col df = Ok (setitem df col (fillna m s)).
Proof.
  intros Hs Hm. unfold fill_mode. rewrite Hs; simpl. rewrite Hm; reflexivity.
Qed.

(** C4, amended.  For a text column with at least one present value (as
    [gender] and [department] are), the fill of lines 145-146 replaces
    each absent cell with one value [m] and keeps the present cells.
    [m] is a present value of the column, no present value is more
    frequent, and among the values as frequent as [m] it is the least in
    string order, wherever it stands in the table. *)
Theorem fill_mode_takes_least_most_frequent
  (df : DataFrame) (col : string) (s : Series) :
  getitem df col = Ok s ->
  forallb (fun c => is_str c || isna c) (values s) = true ->
  existsb is_str (values s) = true ->
  exists m,
    fill_mode col df = Ok (setitem df col (fillna (Str m) s))
    /\ values (fillna (Str m) s)
       = map (fun c => if isna c then Str m else c) (values s)
    /\ In (Str m) (values s)
    /\ (forall c, isna c = false ->
          (count c (dropna (values s)) <= count (Str m) (dropna (values s)))%nat)
    /\ (forall x,
          count (Str x) (dropna (values s)) = count (Str m) (dropna (values s)) ->
          String.leb m x = true)
    /\ (forall out,
          col = "gender" \/ col = "department" ->
          imputation df = Ok out ->
          getitem out col = Ok (fillna (Str m) s)).
Proof.
  intros Hs Htext Hsome.
  destruct (mode_of_text s Htext Hsome) as (m & Hm & Hin & Hfreq & Hleast).
  exists m.
  split; [apply fill_mode_of_item0; assumption |].
  split.
  { unfold fillna; simpl. apply map_ext. intros [| x | q]; reflexivity. }
  split; [assumption |]. split; [assumption |]. split; [assumption |].
  intros out Hcol E. unfold imputation in E.
  apply bind_Ok in E; destruct E as (d1 & H1 & E).
  apply bind_Ok in E; destruct E as (d2 & H2 & E).
  apply bind_Ok in E; destruct E as (d3 & H3 & E).
  apply bind_Ok in E; destruct E as (d4 & H4 & E).
  apply bind_Ok in E; destruct E as (d5 & H5 & H6).
  assert (E4 : getitem d4 col = Ok s).
  { rewrite (fill_median_other _ col _ _ H4), (fill_median_other _ col _ _ H3),
      (fill_median_other _ col _ _ H2), (fill_median_other _ col _ _ H1);
      [assumption | | | |]; destruct Hcol as [-> | ->]; discriminate. }
  destruct Hcol as [-> | ->].
  - rewrite (fill_mode_of_item0 _ _ _ _ E4 Hm) in H5. inversion H5; subst d5.
    rewrite (fill_mode_other _ "gender" _ _ H6) by discriminate.
    apply getitem_setitem_same.
  - assert (E5 : getitem d5 "department" = Ok s).
    { rewrite (fill_mode_other _ "department" _ _ H5) by discriminate. assumption. }
    rewrite (fill_mode_of_item0 _ _ _ _ E5 Hm) in H6. inversion H6; subst out.
    apply getitem_setitem_same.
Qed.

Lemma fill_mode_takes_least_most_frequent_witness :
  exists m,
    fill_mode "gender" tied_genders
    = Ok (setitem tied_genders "gender"
            (fillna (Str m) (mkSeries object [Str "Male"; Str "Female"; NaN])))
    /\ In (Str m) [Str "Male"; Str "Female"; NaN].
Proof.
  destruct (fill_mode_takes_least_most_frequent tied_genders "gender"
              (mkSeries object [Str "Male"; Str "Female"; NaN])
              eq_refl eq_refl eq_refl)
    as (m & Hrun & _ & Hin & _).
  exists m. split; [exact Hrun | exact Hin].
Defined.

(** ** Age correction and clamping *)

Lemma mapM_pointwise {A B : Type} (f : A -> result B) (g : A -> B) (l : list A) :
  (forall x, In x l -> f x = Ok (g x)) -> mapM f l = Ok (map g l).
Proof.
  induction l as [| x l IH]; simpl; intros H; [reflexivity |].
  rewrite H by auto. simpl. rewrite IH by auto. reflexivity.
Qed.

Lemma Qfloor_inject_Z (z : Z) : Qfloor (inject_Z z) = z.
Proof. apply Qfloor_Z. Qed.

Lemma round_half_even_whole (q : Q) :
  exists z, round_half_even q = inject_Z z.
Proof.
  unfold round_half_even.
  destruct (q - inject_Z (Qfloor q) ?= 1 # 2)%Q; [destruct (Z.even (Qfloor q)) | |]; eauto.
Qed.

Lemma is_whole_round_cell (c : cell) : is_str c = false -> is_whole (round_cell c) = true.
Proof.
  destruct c as [| x | q]; simpl; [reflexivity | discriminate |]. intros _.
  destruct (round_half_even_whole q) as [z ->].
  rewrite Qfloor_inject_Z. apply Q_eqb_eq. reflexivity.
Qed.

Lemma existsb_false_forall {A : Type} (f : A -> bool) (l : list A) :
  existsb f l = false <-> forall x, In x l -> f x = false.
Proof.
  induction l as [| a l IH]; simpl; [intuition auto |].
  rewrite orb_false_iff, IH. intuition (subst; auto).
Qed.

Lemma no_text_of_numbers (l : list cell) :
  forallb is_num l = true -> existsb is_str l = false.
Proof.
  rewrite forallb_forall, existsb_false_forall.
  intros H x Hx. specialize (H x Hx). destruct x; simpl in *; congruence.
Qed.

Lemma is_num_round_cell (c : cell) : is_num (round_cell c) = is_num c.
Proof. destruct c; reflexivity. Qed.

Lemma is_str_round_cell (c : cell) : is_str (round_cell c) = is_str c.
Proof. destruct c; reflexivity. Qed.

(** Where [np] is bound and every age is a number, step 6 rounds the
    ages, takes the median of the rounded column and writes it over the
    ages outside 16..40; the ages inside stay. *)
Lemma age_integer_bound_with_np (ns : namespace) (df : DataFrame) (a : Series) :
  lookup_name ns "np" = Ok tt ->
  getitem df "age" = Ok a ->
  dtype_eqb (dt a) object = false ->
  forallb is_num (values a) = true ->
  exists median_age,
    median (mkSeries Int64 (map round_cell (values a))) = Ok median_age
    /\ age_integer_bound ns df
       = Ok (setitem df "age"
               (mkSeries float64
                  (map (correct_age median_age) (map round_cell (values a))))).
Proof.
  intros Hnp Ha Hdt Hnum.
  assert (Hnum' : forallb is_num (map round_cell (values a)) = true).
  { rewrite forallb_forall in *. intros c Hc. apply in_map_iff in Hc.
    destruct Hc as (c0 & <- & Hc0). rewrite is_num_round_cell. auto. }
  pose proof (no_text_of_numbers _ Hnum) as Hns.
  pose proof (no_text_of_numbers _ Hnum') as Hns'.
  assert (Hwhole : forallb is_whole (map round_cell (values a)) = true).
  { apply forallb_forall. intros c Hc. apply in_map_iff in Hc.
    destruct Hc as (c0 & <- & Hc0). apply is_whole_round_cell.
    rewrite existsb_false_forall in Hns. auto. }
  set (r := map round_cell (values a)) in *.
  set (m := median_sorted (sort Qle_bool (nums r))).
  assert (Hmed : median (mkSeries Int64 r) = Ok m).
  { unfold median; simpl. rewrite Hns'. reflexivity. }
  exists m. split; [exact Hmed |].
  unfold age_integer_bound.
  rewrite Ha. cbn [bind]. unfold round. rewrite Hdt, Hns. cbn [orb bind].
  unfold astype_Int64. cbn [values]. fold r. rewrite Hwhole. cbn [bind].
  rewrite !getitem_setitem_same. cbn [bind]. rewrite Hmed. cbn [bind].
  rewrite Hnp. cbn [bind values].
  rewrite (mapM_pointwise out_of_range
             (fun c => match c with
                       | Num q => Some (Qltb q (16 # 1) || Qltb (40 # 1) q)
                       | _ => None
                       end)).
  2:{ intros c Hc. rewrite forallb_forall in Hnum'. specialize (Hnum' c Hc).
      destruct c; try discriminate. reflexivity. }
  simpl. unfold np_where.
  rewrite (mapM_pointwise (where_cell m) (fun p => correct_age m (snd p))).
  2:{ intros [b c] Hp. apply in_combine_l in Hp as Hb. apply in_combine_r in Hp as Hc.
      assert (Hbc : In (b, c) (map (fun c => (match c with
                       | Num q => Some (Qltb q (16 # 1) || Qltb (40 # 1) q)
                       | _ => None
                       end, c)) r)).
      { clear -Hp. induction r as [| x r IH]; simpl in *; [assumption |].
        destruct Hp as [Hp | Hp]; [left; assumption | right; auto]. }
      apply in_map_iff in Hbc. destruct Hbc as (c0 & Heq & Hc0).
      inversion Heq; subst. rewrite forallb_forall in Hnum'. specialize (Hnum' c Hc0).
      destruct c as [| x | q]; try discriminate. unfold where_cell, correct_age; simpl.
      destruct (Qltb q (16 # 1) || Qltb (40 # 1) q); reflexivity. }
  cbn [bind]. rewrite setitem_setitem. do 3 f_equal.
  clearbody m. clearbody r. clear.
  induction r as [| x r IH]; simpl; [reflexivity |]. rewrite IH. reflexivity.
Qed.

(** C5 (the code as written).  On a table that reaches step 6, the ages
    10, 45, 20, 22 are rounded and their median is taken, and then line
    161 raises [NameError] for [np]: no age is replaced and the run ends
    there.  Where [np] is bound, the same statements replace 10 and 45
    by the median 21 of the whole rounded column and keep 20 and 22. *)
Theorem age_correction_stops_at_np :
  age_integer_bound script_globals coded_students = Raise (NameError "np")
  /\ clean decimal_to_float decimal_repr script_globals coded_students
     = Raised AgeBound (NameError "np")
  /\ (forall df out, age_integer_bound script_globals df <> Ok out)
  /\ exists out,
       age_integer_bound with_numpy coded_students = Ok out
       /\ getitem out "age"
          = Ok (floats [21 # 1; 21 # 1; 20 # 1; 22 # 1]).
Proof.
  split; [reflexivity |]. split; [reflexivity |].
  split; [apply age_integer_bound_without_np |].
  eexists; split; reflexivity.
Qed.

Lemma clip_cell_clamp (q : Q) :
  clip_cell (0 # 1) (100 # 1) (Num q) = Ok (Num (clamp q)).
Proof.
  unfold clip_cell, clamp, Qltb.
  destruct (Qle_bool (0 # 1) q) eqn:E0; simpl; [| reflexivity].
  destruct (Qle_bool q (100 # 1)); reflexivity.
Qed.

(** The three cases of the clamp. *)
Lemma clamp_cases (q : Q) :
  (q < 0 # 1 -> clamp q = 0 # 1)%Q
  /\ (100 # 1 < q -> clamp q = 100 # 1)%Q
  /\ (0 # 1 <= q -> q <= 100 # 1 -> clamp q = q)%Q.
Proof.
  unfold clamp, Qltb. repeat split.
  - intros H. destruct (Qle_bool (0 # 1) q) eqn:E; [| reflexivity].
    apply Qle_bool_iff in E. exfalso. apply (Qlt_not_le _ _ H E).
  - intros H. destruct (Qle_bool (0 # 1) q) eqn:E0; simpl.
    + destruct (Qle_bool q (100 # 1)) eqn:E; [| reflexivity].
      apply Qle_bool_iff in E. exfalso. apply (Qlt_not_le _ _ H E).
    + exfalso. assert (H0 : (0 # 1 <= q)%Q).
      { apply Qlt_le_weak. eapply Qlt_trans; [| exact H]. reflexivity. }
      apply Qle_bool_iff in H0. congruence.
  - intros H0 H1. apply Qle_bool_iff in H0, H1. rewrite H0, H1. reflexivity.
Qed.

Lemma clip_column_with_np (ns : namespace) (col : string) (df : DataFrame)
  (s : Series) :
  lookup_name ns "np" = Ok tt ->
  getitem df col = Ok s ->
  existsb is_str (values s) = false ->
  clip_column ns col df
  = Ok (setitem df col (mkSeries (dt s) (map clamp_cell (values s)))).
Proof.
  intros Hnp Hs Hns. unfold clip_column, np_clip.
  rewrite Hnp. cbn [bind]. rewrite Hs. cbn [bind].
  rewrite (mapM_pointwise (clip_cell (0 # 1) (100 # 1)) clamp_cell);
    [reflexivity |].
  intros c Hc. rewrite existsb_false_forall in Hns. specialize (Hns c Hc).
  destruct c as [| x | q]; [reflexivity | discriminate | apply clip_cell_clamp].
Qed.

(** C6 (the code as written).  Lines 164-166 call [np.clip], and [np] is
    unbound: for every table step 7 raises [NameError] and clamps
    nothing; the attendance values 105, -5, 50 are not turned into 100,
    0, 50.  Where [np] is bound, the same statements do turn them into
    100, 0, 50. *)
Theorem clamping_stops_at_np :
  bound_numeric_columns script_globals three_attendances
  = Raise (NameError "np")
  /\ (forall df, bound_numeric_columns script_globals df = Raise (NameError "np"))
  /\ (forall out,
        clean decimal_to_float decimal_repr script_globals three_attendances
        <> Saved out)
  /\ exists out,
       bound_numeric_columns with_numpy three_attendances = Ok out
       /\ getitem out "attendance" = Ok (floats [100 # 1; 0 # 1; 50 # 1]).
Proof.
  split; [reflexivity |]. split; [reflexivity |].
  split; [intros out; apply clean_without_np_never_saves |].
  eexists; split; reflexivity.
Qed.

(** ** Loading *)

(** A ninth column is loaded and carried into the cleaning steps; a
    missing column or a missing header line is loaded too, and the first
    access to the missing name raises in the exploration. *)
Lemma header_is_not_checked :
  (exists df,
      read_csv decimal_to_float nine_columns = Ok df
      /\ columns df = ["student_id"; "age"; "gender"; "attendance";
                       "assignment_score"; "exam_score"; "final_grade";
                       "department"; "notes"])
  /\ script decimal_to_float decimal_repr nine_columns
     = Raised Markers (NameError "np")
  /\ (exists df,
        read_csv decimal_to_float seven_columns = Ok df
        /\ List.length (columns df) = 7%nat)
  /\ script decimal_to_float decimal_repr seven_columns
     = Raised Exploring (KeyError "department")
  /\ (exists df,
        read_csv decimal_to_float headerless = Ok df
        /\ columns df = ["S1"; "20"; "M"; "90"; "70"; "80"; "A"; "cs"])
  /\ script decimal_to_float decimal_repr headerless
     = Raised Exploring (KeyError "gender").
Proof.
  split; [eexists; split; reflexivity |].
  split; [reflexivity |].
  split; [eexists; split; reflexivity |].
  split; [reflexivity |].
  split; [eexists; split; reflexivity |].
  reflexivity.
Qed.

Lemma getitem_not_In (df : DataFrame) (col : string) :
  ~ In col (columns df) -> getitem df col = Raise (KeyError col).
Proof.
  induction df as [| [c s] df IH]; simpl; [reflexivity |].
  intros H. destruct (String.eqb c col) eqn:E.
  - apply String.eqb_eq in E. exfalso. auto.
  - apply IH. auto.
Qed.

Lemma for_each_Ok (cols : list string) (body : string -> result unit) :
  for_each cols body = Ok tt -> forall col, In col cols -> body col = Ok tt.
Proof.
  induction cols as [| c cols IH]; simpl; [tauto |].
  intros H. apply bind_Ok in H. destruct H as ([] & Hc & Hrest).
  intros col [<- | Hin]; auto.
Qed.

(** The exploration reads each of the eight expected columns. *)
Lemma explore_reads_expected_columns (ns : namespace) (df : DataFrame) :
  explore ns df = Ok tt ->
  forall col, In col (map fst expected_types) ->
              exists s, getitem df col = Ok s.
Proof.
  unfold explore. intros H.
  apply bind_Ok in H; destruct H as (u0 & _ & H).
  apply bind_Ok in H; destruct H as ([] & Hcat & H).
  apply bind_Ok in H; destruct H as ([] & Hscore & H).
  apply bind_Ok in H; destruct H as (a & Hage & H).
  apply bind_Ok in H; destruct H as (a1 & _ & H).
  apply bind_Ok in H; destruct H as (b1 & _ & H).
  apply bind_Ok in H; destruct H as (a2 & _ & H).
  apply bind_Ok in H; destruct H as (b2 & _ & H).
  apply bind_Ok in H; destruct H as (sid & Hsid & H).
  apply bind_Ok in H; destruct H as (att & Hatt & _).
  pose proof (for_each_Ok _ _ Hcat) as Hcat'.
  pose proof (for_each_Ok _ _ Hscore) as Hscore'.
  assert (Hget : forall col,
             (getitem df col ;;; Ok tt) = Ok tt -> exists s, getitem df col = Ok s).
  { intros col Hc. apply bind_Ok in Hc. destruct Hc as (s & Hs & _). eauto. }
  assert (Hget' : forall col,
             (lookup_name ns "pd" ;;; getitem df col ;;; Ok tt) = Ok tt ->
             exists s, getitem df col = Ok s).
  { intros col Hc. apply bind_Ok in Hc. destruct Hc as (_ & _ & Hc). auto. }
  intros col Hcol. simpl in Hcol.
  destruct Hcol as [<- | [<- | [<- | [<- | [<- | [<- | [<- | [<- | []]]]]]]]];
    eauto; try (apply Hget, Hcat'; simpl; tauto);
    try (apply Hget', Hscore'; simpl; tauto).
Qed.

Lemma columns_of_header (f : nat * string -> Series) (header : list string) :
  forall start,
    columns (map (fun p => (snd p, f p))
               (combine (seq start (List.length header)) header))
    = header.
Proof.
  unfold columns. induction header as [| h header IH]; intros start; simpl;
    [reflexivity |].
  rewrite IH. reflexivity.
Qed.

(** ** Column names *)

Lemma str_of_nat_inj (n m : nat) : str_of_nat n = str_of_nat m -> n = m.
Proof.
  unfold str_of_nat. intros H.
  apply (f_equal NilEmpty.uint_of_string) in H.
  rewrite !NilEmpty.usu in H. injection H as H.
  apply Unsigned.to_uint_inj. exact H.
Qed.

Lemma append_inv_head (s x y : string) : (s ++ x = s ++ y)%string -> x = y.
Proof.
  induction s as [| a s IH]; simpl; intros H; [assumption |].
  injection H as H. auto.
Qed.

Lemma numbered_inj (old_col : string) (k k' : nat) :
  numbered old_col k = numbered old_col k' -> k = k'.
Proof.
  unfold numbered. intros H. apply append_inv_head in H.
  apply (append_inv_head ".") in H. apply str_of_nat_inj. exact H.
Qed.

Lemma made_up_numbered (old_col : string) (k : nat) :
  made_up (numbered old_col k) = true.
Proof.
  unfold numbered. induction old_col as [| a s IH].
  - reflexivity.
  - change (made_up (String a (s ++ "." ++ str_of_nat k)) = true).
    cbn [made_up]. rewrite IH. apply orb_true_r.
Qed.

Lemma made_up_unnamed (i : nat) : made_up (unnamed i) = true.
Proof. reflexivity. Qed.

Lemma existsb_eqb_In (x : string) (l : list string) :
  existsb (String.eqb x) l = true <-> In x l.
Proof.
  rewrite existsb_exists. split.
  - intros (y & Hy & E). apply String.eqb_eq in E. subst. assumption.
  - intros H. exists x. split; [assumption | apply String.eqb_refl].
Qed.

Lemma counts_get_cons (counts : list (string * nat)) (k name : string) (n : nat) :
  counts_get ((k, n) :: counts) name
  = if String.eqb k name then n else counts_get counts name.
Proof. unfold counts_get. simpl. destruct (String.eqb k name); reflexivity. Qed.

(** The loop ends, with [cur_count = 0], within one round more than
    there are names: the numbered names it passes over are distinct
    names of the header. *)
Lemma rename_loop_total (this_header : list string) (old_col : string) :
  In old_col this_header ->
  forall fuel counts col cur_count acc,
    (forall name, name <> old_col -> (0 < counts_get counts name)%nat ->
                  In name this_header) ->
    NoDup acc -> incl acc this_header ->
    (forall x, In x acc -> exists k, (k < cur_count)%nat /\ x = numbered old_col k) ->
    (List.length this_header < List.length acc + fuel)%nat ->
    exists counts' col',
      rename_loop fuel this_header old_col counts col cur_count
      = Some (counts', col', O)
      /\ (forall name, name <> old_col ->
                       counts_get counts' name = counts_get counts name)
      /\ (cur_count = O -> counts' = counts /\ col' = col)
      /\ ((0 < cur_count)%nat ->
          ~ In col' this_header /\ made_up col' = true).
Proof.
  intros Hold. induction fuel as [| fuel IH];
    intros counts col cur_count acc Hknown Hnd Hincl Hacc Hfuel.
  - destruct cur_count as [| c].
    + exists counts, col. simpl. repeat split; auto; lia.
    + exfalso. pose proof (NoDup_incl_length Hnd Hincl). lia.
  - destruct cur_count as [| c].
    + exists counts, col. simpl. repeat split; auto; lia.
    + cbn [rename_loop].
      assert (Hknown' : forall name, name <> old_col ->
                (0 < counts_get ((old_col, S (S c)) :: counts) name)%nat ->
                In name this_header).
      { intros name Hne. rewrite counts_get_cons.
        destruct (String.eqb old_col name) eqn:E;
          [apply String.eqb_eq in E; congruence | auto]. }
      assert (Hsame : forall counts' name, name <> old_col ->
                counts_get counts' name
                = counts_get ((old_col, S (S c)) :: counts) name ->
                counts_get counts' name = counts_get counts name).
      { intros counts' name Hne ->. rewrite counts_get_cons.
        destruct (String.eqb old_col name) eqn:E;
          [apply String.eqb_eq in E; congruence | reflexivity]. }
      destruct (existsb (String.eqb (numbered old_col (S c))) this_header) eqn:E.
      * apply existsb_eqb_In in E.
        destruct (IH ((old_col, S (S c)) :: counts) (numbered old_col (S c))
                    (S (S c)) (numbered old_col (S c) :: acc))
          as (counts' & col' & Hrun & Hc & _ & Hpos); try assumption.
        -- constructor; [| assumption]. intros Hin.
           destruct (Hacc _ Hin) as (k & Hk & Heq).
           apply numbered_inj in Heq. lia.
        -- intros x [<- | Hx]; [assumption | auto].
        -- intros x [<- | Hx]; [exists (S c); split; [lia | reflexivity] |].
           destruct (Hacc x Hx) as (k & Hk & ->). exists k. split; [lia | reflexivity].
        -- simpl. lia.
        -- exists counts', col'. split; [exact Hrun |]. split.
           ++ intros name Hne. apply Hsame; auto.
           ++ split; [discriminate |]. intros _. apply Hpos. lia.
      * assert (Hnot : ~ In (numbered old_col (S c)) this_header).
        { intros Hin. apply existsb_eqb_In in Hin. congruence. }
        assert (Hzero : counts_get ((old_col, S (S c)) :: counts)
                          (numbered old_col (S c)) = O).
        { destruct (counts_get ((old_col, S (S c)) :: counts)
                      (numbered old_col (S c))) eqn:G; [reflexivity |].
          exfalso. apply Hnot. apply Hknown'; [| lia].
          intros Heq. rewrite Heq in Hnot. auto. }
        rewrite Hzero.
        exists ((old_col, S (S c)) :: counts), (numbered old_col (S c)).
        split; [destruct fuel; reflexivity |]. split.
        -- intros name Hne. apply Hsame; auto.
        -- split; [discriminate |]. intros _.
           split; [assumption | apply made_up_numbered].
Qed.

Lemma length_set_nth {A : Type} (i : nat) (x : A) (l : list A) :
  List.length (set_nth i x l) = List.length l.
Proof.
  revert i; induction l as [| y l IH]; intros [| i]; simpl; auto.
Qed.

Lemma nth_error_set_nth_same {A : Type} (i : nat) (x : A) (l : list A) :
  (i < List.length l)%nat -> nth_error (set_nth i x l) i = Some x.
Proof.
  revert i; induction l as [| y l IH]; intros [| i]; simpl; intros H;
    try lia; [reflexivity | apply IH; lia].
Qed.

Lemma nth_error_set_nth_other {A : Type} (i j : nat) (x : A) (l : list A) :
  i <> j -> nth_error (set_nth i x l) j = nth_error l j.
Proof.
  revert i j; induction l as [| y l IH]; intros [| i] [| j]; simpl; intros H;
    try reflexivity; try congruence. apply IH. congruence.
Qed.

Lemma In_set_nth {A : Type} (i : nat) (x y : A) (l : list A) :
  In y (set_nth i x l) -> y = x \/ In y l.
Proof.
  revert i; induction l as [| z l IH]; intros [| i]; simpl; try tauto.
  - intros [<- | H]; auto.
  - intros [<- | H]; auto. destruct (IH _ H); auto.
Qed.

(** The rounds of the renaming never run out of fuel, keep the number
    of names, and make up only names with a dot or a colon. *)
Lemma rename_columns_total (header : list string) (n : nat) :
  forall todo done this_header counts,
    List.length this_header = n ->
    NoDup todo ->
    (forall i, In i todo -> ~ In i done /\ (i < n)%nat) ->
    (forall name, (0 < counts_get counts name)%nat ->
       exists j, In j done /\ nth_error this_header j = Some name) ->
    (forall c, In c this_header -> In c header \/ made_up c = true) ->
    exists this_header' counts',
      fold_left rename_column todo (Some (this_header, counts))
      = Some (this_header', counts')
      /\ List.length this_header' = n
      /\ forall c, In c this_header' -> In c header \/ made_up c = true.
Proof.
  induction todo as [| i todo IH];
    intros done this_header counts Hlen Hnd Htodo Hcounts Hnames.
  - exists this_header, counts. simpl. auto.
  - cbn [fold_left]. unfold rename_column at 2.
    destruct (Htodo i (or_introl eq_refl)) as [Hi Hin].
    set (old_col := nth i this_header "").
    assert (Hold : In old_col this_header)
      by (apply nth_In; lia).
    destruct (rename_loop_total this_header old_col Hold
                (S (List.length this_header)) counts old_col
                (counts_get counts old_col) [])
      as (counts' & col' & Hrun & Hsame & Hzero & Hpos).
    + intros name _ Hname. destruct (Hcounts name Hname) as (j & _ & Hj).
      eapply nth_error_In; eassumption.
    + constructor.
    + intros x [].
    + intros x [].
    + simpl. lia.
    + rewrite Hrun.
      apply (IH (done ++ [i])).
      * rewrite length_set_nth. assumption.
      * inversion Hnd; assumption.
      * intros i' Hi'. destruct (Htodo i' (or_intror Hi')) as [Hd Hlt].
        split; [| assumption]. intros Hin'. apply in_app_or in Hin'.
        destruct Hin' as [Hin' | [<- | []]]; [auto |].
        inversion Hnd; auto.
      * intros name Hname. rewrite counts_get_cons in Hname.
        destruct (String.eqb col' name) eqn:E.
        -- apply String.eqb_eq in E. subst name. exists i. split.
           ++ apply in_or_app. right. left. reflexivity.
           ++ apply nth_error_set_nth_same. lia.
        -- assert (Hbefore : (0 < counts_get counts name)%nat).
           { destruct (String.eqb name old_col) eqn:En.
             - apply String.eqb_eq in En. subst name.
               destruct (counts_get counts old_col) eqn:G; [| lia].
               destruct (Hzero eq_refl) as [-> _]. lia.
             - apply String.eqb_neq in En. rewrite <- (Hsame name En). assumption. }
           destruct (Hcounts name Hbefore) as (j & Hj & Hnth).
           exists j. split; [apply in_or_app; left; assumption |].
           rewrite nth_error_set_nth_other; [assumption |].
           intros <-. auto.
      * intros c Hc. apply In_set_nth in Hc. destruct Hc as [-> | Hc]; [| auto].
        destruct (counts_get counts old_col) eqn:G.
        -- destruct (Hzero eq_refl) as [_ ->]. auto.
        -- right. apply Hpos. lia.
Qed.

Lemma map_fst_combine_seq {A : Type} (l : list A) (start : nat) :
  map fst (combine (seq start (List.length l)) l) = seq start (List.length l).
Proof.
  revert start; induction l as [| x l IH]; intros start; simpl; [reflexivity |].
  rewrite IH. reflexivity.
Qed.

Lemma NoDup_split_by {A B : Type} (f g : A * B -> bool) (l : list (A * B)) :
  (forall p, g p = negb (f p)) ->
  NoDup (map fst l) ->
  NoDup (map fst (filter f l) ++ map fst (filter g l)).
Proof.
  intros Hfg. induction l as [| p l IH]; simpl; intros Hnd; [constructor |].
  inversion Hnd as [| x xs Hx Hxs]; subst.
  assert (Hsub : forall h, incl (map fst (filter h l)) (map fst l)).
  { intros h y Hy. apply in_map_iff in Hy. destruct Hy as (q & <- & Hq).
    apply filter_In in Hq. apply in_map. tauto. }
  rewrite Hfg. destruct (f p); simpl.
  - constructor; [| auto]. intros Hin. apply in_app_or in Hin.
    destruct Hin as [Hin | Hin]; apply Hsub in Hin; auto.
  - eapply Permutation_NoDup; [apply Permutation_middle |].
    constructor; [| auto]. intros Hin. apply in_app_or in Hin.
    destruct Hin as [Hin | Hin]; apply Hsub in Hin; auto.
Qed.

(** The renaming always ends: it keeps the number of names, and a name
    of the result is a field of the first line or holds a dot or a
    colon. *)
Lemma get_header_total (header : list string) :
  exists this_header counts,
    get_header_steps header = Some (this_header, counts)
    /\ List.length this_header = List.length header
    /\ forall c, In c this_header -> In c header \/ made_up c = true.
Proof.
  unfold get_header_steps.
  set (fields := combine (seq 0 (List.length header)) header).
  assert (Hfst : map fst fields = seq 0 (List.length header))
    by apply map_fst_combine_seq.
  apply (rename_columns_total header (List.length header) _ []).
  - rewrite length_map. unfold fields. rewrite length_combine, length_seq. lia.
  - apply NoDup_split_by.
    + intros p. rewrite negb_involutive. reflexivity.
    + rewrite Hfst. apply seq_NoDup.
  - intros i Hi. split; [auto |].
    assert (Hin : In i (map fst fields)).
    { apply in_app_or in Hi. destruct Hi as [Hi | Hi];
        apply in_map_iff in Hi; destruct Hi as (q & <- & Hq);
        apply filter_In in Hq; apply in_map; tauto. }
    rewrite Hfst in Hin. apply in_seq in Hin. lia.
  - intros name H. unfold counts_get in H. simpl in H. lia.
  - intros c Hc. apply in_map_iff in Hc. destruct Hc as ([i x] & <- & Hp).
    cbn [fst snd]. destruct (String.eqb x ""); [right; apply made_up_unnamed |].
    left. unfold fields in Hp. apply in_combine_r in Hp. assumption.
Qed.

Lemma set_nth_same {A : Type} (i : nat) (d : A) (l : list A) :
  set_nth i (nth i l d) l = l.
Proof.
  revert i; induction l as [| y l IH]; intros [| i]; simpl; try reflexivity.
  rewrite IH. reflexivity.
Qed.

Lemma rename_columns_distinct (this_header : list string) :
  NoDup this_header ->
  forall todo counts,
    NoDup todo ->
    (forall i, In i todo ->
       (i < List.length this_header)%nat
       /\ counts_get counts (nth i this_header "") = O) ->
    exists counts',
      fold_left rename_column todo (Some (this_header, counts))
      = Some (this_header, counts').
Proof.
  intros Hnd. induction todo as [| i todo IH]; intros counts Htodo Hfree.
  - exists counts. reflexivity.
  - cbn [fold_left]. unfold rename_column at 2.
    destruct (Hfree i (or_introl eq_refl)) as [Hi Hzero].
    rewrite Hzero. cbn [rename_loop]. rewrite set_nth_same.
    inversion Htodo as [| x xs Hx Hxs]; subst.
    apply IH; [assumption |].
    intros i' Hi'. destruct (Hfree i' (or_intror Hi')) as [Hlt Hz].
    split; [assumption |]. rewrite counts_get_cons.
    destruct (String.eqb (nth i this_header "") (nth i' this_header "")) eqn:E;
      [| assumption].
    apply String.eqb_eq in E. exfalso.
    apply (proj1 (NoDup_nth this_header "") Hnd i i' Hi Hlt) in E.
    subst i'. auto.
Qed.

Lemma named_fields (header : list string) (start : nat) :
  ~ In "" header ->
  let fields := combine (seq start (List.length header)) header in
  map (fun p => if String.eqb (snd p) "" then unnamed (fst p) else snd p) fields
  = header
  /\ filter (fun p => negb (String.eqb (snd p) "")) fields = fields
  /\ filter (fun p => String.eqb (snd p) "") fields = [].
Proof.
  revert start. induction header as [| x header IH]; intros start Hno; simpl.
  - auto.
  - assert (Hx : String.eqb x "" = false).
    { apply String.eqb_neq. intros ->. apply Hno. left; reflexivity. }
    rewrite Hx. simpl.
    destruct (IH (S start)) as (H1 & H2 & H3); [intros H; apply Hno; right; exact H |].
    rewrite H1, H2, H3. auto.
Qed.

(** A first line of distinct, non-empty fields is taken as it is. *)
Lemma get_header_distinct (header : list string) :
  NoDup header -> ~ In "" header -> get_header header = header.
Proof.
  intros Hnd Hno. unfold get_header, get_header_steps.
  destruct (named_fields header 0 Hno) as (H1 & H2 & H3).
  cbv zeta in H1, H2, H3. rewrite H1, H2, H3, app_nil_r, map_fst_combine_seq.
  destruct (rename_columns_distinct header Hnd (seq 0 (List.length header)) [])
    as [counts' ->]; [apply seq_NoDup | | reflexivity].
  intros i Hi. apply in_seq in Hi. split; [lia | reflexivity].
Qed.

Lemma get_header_names (header : list string) :
  List.length (get_header header) = List.length header
  /\ forall c, In c (get_header header) -> In c header \/ made_up c = true.
Proof.
  unfold get_header.
  destruct (get_header_total header) as (th & counts & -> & Hlen & Hnames).
  auto.
Qed.

Lemma getitem_loc_rows (mask : list bool) (df : DataFrame) (col : string) :
  getitem (loc_rows mask df) col
  = match getitem df col with
    | Ok s => Ok (mkSeries (dt s) (select mask (values s)))
    | Raise e => Raise e
    end.
Proof.
  unfold loc_rows. induction df as [| [c s] df IH]; simpl; [reflexivity |].
  destruct (String.eqb c col); [reflexivity | apply IH].
Qed.

Lemma bind_Raise {A B : Type} (r : result A) (k : A -> result B) (e : exn) :
  bind r k = Raise e -> r = Raise e \/ exists a, r = Ok a /\ k a = Raise e.
Proof.
  destruct r as [a | e0]; simpl; intros H; [eauto |].
  injection H as ->. left; reflexivity.
Qed.

Lemma getitem_Raise (df : DataFrame) (col : string) (e : exn) :
  getitem df col = Raise e -> e = KeyError col /\ ~ In col (columns df).
Proof.
  induction df as [| [c s] df IH]; simpl.
  - intros H; injection H as <-. auto.
  - destruct (String.eqb c col) eqn:E; [discriminate |].
    intros H. destruct (IH H) as [-> Hin]. split; [reflexivity |].
    intros [Hc | Hc]; [| auto]. apply String.eqb_neq in E. auto.
Qed.

Lemma for_each_Raise (cols : list string) (body : string -> result unit)
  (e : exn) :
  for_each cols body = Raise e -> exists col, In col cols /\ body col = Raise e.
Proof.
  induction cols as [| c cols IH]; simpl; [discriminate |].
  intros H. apply bind_Raise in H. destruct H as [H | (u & _ & H)].
  - exists c. auto.
  - destruct (IH H) as (col & Hin & Hcol). exists col. auto.
Qed.

Lemma mapM_Raise {A B : Type} (f : A -> result B) (l : list A) (e : exn) :
  mapM f l = Raise e -> exists x, In x l /\ f x = Raise e.
Proof.
  induction l as [| x l IH]; simpl; [discriminate |].
  intros H. apply bind_Raise in H. destruct H as [H | (y & _ & H)].
  - exists x. auto.
  - apply bind_Raise in H. destruct H as [H | (ys & _ & H)]; [| discriminate].
    destruct (IH H) as (x' & Hin & Hx). exists x'. auto.
Qed.

(** The exploration can end with two kinds of exception only: the
    [KeyError] of one of the eight names that is not a column, and a
    [TypeError]. *)
Lemma explore_raises (ns : namespace) (df : DataFrame) (e : exn) :
  lookup_name ns "pd" = Ok tt ->
  explore ns df = Raise e ->
  e = TypeError
  \/ exists col, In col (map fst expected_types)
                 /\ ~ In col (columns df) /\ e = KeyError col.
Proof.
  intros Hpd H.
  assert (Hkey : forall col e0 (r : result Series),
             r = getitem df col -> In col (map fst expected_types) ->
             r = Raise e0 ->
             exists c, In c (map fst expected_types)
                       /\ ~ In c (columns df) /\ e0 = KeyError c).
  { intros col e0 r -> Hin Hr. apply getitem_Raise in Hr.
    destruct Hr as [-> Hr]. eauto. }
  assert (Hcmp : forall (f : cell -> result bool) l e0,
             (forall c e1, f c = Raise e1 -> e1 = TypeError) ->
             mapM f l = Raise e0 -> e0 = TypeError).
  { intros f l e0 Hf Hm. apply mapM_Raise in Hm.
    destruct Hm as (x & _ & Hx). eauto. }
  unfold explore in H.
  apply bind_Raise in H. destruct H as [H | (u0 & _ & H)].
  { destruct (Nat.ltb 0 (List.length (filter id (duplicated df))));
      [| discriminate].
    apply bind_Raise in H. destruct H as [H | (d & _ & H)]; [| discriminate].
    unfold sort_values in H. rewrite getitem_loc_rows in H.
    destruct (getitem df "student_id") as [s |] eqn:Es.
    - cbn [bind values] in H.
      destruct (existsb is_str _ && existsb is_num _); [| discriminate].
      injection H as <-. auto.
    - cbn [bind] in H. injection H as <-. right.
      apply (Hkey "student_id" _ _ eq_refl); [simpl; tauto | exact Es]. }
  apply bind_Raise in H. destruct H as [H | (u1 & _ & H)].
  { apply for_each_Raise in H. destruct H as (col & Hin & H).
    apply bind_Raise in H. destruct H as [H | (s & _ & H)]; [| discriminate].
    right. apply (Hkey col _ _ eq_refl); [| exact H].
    simpl in Hin. simpl. intuition auto. }
  apply bind_Raise in H. destruct H as [H | (u2 & _ & H)].
  { apply for_each_Raise in H. destruct H as (col & Hin & H).
    rewrite Hpd in H. cbn [bind] in H.
    apply bind_Raise in H. destruct H as [H | (s & _ & H)]; [| discriminate].
    right. apply (Hkey col _ _ eq_refl); [| exact H].
    simpl in Hin. simpl. intuition auto. }
  apply bind_Raise in H. destruct H as [H | (a0 & _ & H)].
  { right. apply (Hkey "age" _ _ eq_refl); [simpl; tauto | exact H]. }
  apply bind_Raise in H. destruct H as [H | (a & _ & H)].
  { right. apply (Hkey "age" _ _ eq_refl); [simpl; tauto | exact H]. }
  apply bind_Raise in H. destruct H as [H | (b1 & _ & H)].
  { left. unfold lt_scalar in H. apply (Hcmp _ _ _) in H; [assumption |].
    intros [| x | q] e1 Hc; try discriminate. injection Hc as <-. reflexivity. }
  apply bind_Raise in H. destruct H as [H | (a' & _ & H)].
  { right. apply (Hkey "age" _ _ eq_refl); [simpl; tauto | exact H]. }
  apply bind_Raise in H. destruct H as [H | (b2 & _ & H)].
  { left. unfold gt_scalar in H. apply (Hcmp _ _ _) in H; [assumption |].
    intros [| x | q] e1 Hc; try discriminate. injection Hc as <-. reflexivity. }
  apply bind_Raise in H. destruct H as [H | (sid & _ & H)].
  { right. apply (Hkey "student_id" _ _ eq_refl); [simpl; tauto | exact H]. }
  apply bind_Raise in H. destruct H as [H | (att & _ & H)]; [| discriminate].
  right. apply (Hkey "attendance" _ _ eq_refl); [simpl; tauto | exact H].
Qed.

Lemma expected_not_made_up (col : string) :
  In col (map fst expected_types) -> made_up col = false.
Proof.
  simpl. intros [<- | [<- | [<- | [<- | [<- | [<- | [<- | [<- | []]]]]]]]];
    reflexivity.
Qed.

Section Loading.

Variable to_float : string -> option Q.
Variable float_repr : Q -> string.

(** C10, amended.  Loading does not look at what the header says.
    [read_csv] fails on an empty file and, with a tokenizing error, when
    a record has more fields than both the first line and the first
    record; in every other case it succeeds and names the columns after
    the fields of the first line, whatever they hold (only an empty or a
    repeated field is renamed; distinct, non-empty fields are taken as
    they are).  If one of the eight expected names is
    not among these fields, the script raises in the exploration, before
    any cleaning step: the [KeyError] of one of the eight names that is
    not a column, or a [TypeError] of an earlier exploratory
    statement.  Names beyond the eight are accepted. *)
Theorem read_csv_takes_any_header (header : list string) (records : csv) :
  read_csv to_float [] = Raise EmptyDataError
  /\ let width :=
       match records with
       | [] => List.length header
       | r :: _ => Nat.max (List.length header) (List.length r)
       end in
     if existsb (fun r => Nat.ltb width (List.length r)) records
     then read_csv to_float (header :: records) = Raise ParserError
          /\ script to_float float_repr (header :: records)
             = Raised Loading ParserError
     else exists df,
         read_csv to_float (header :: records) = Ok df
         /\ columns df = get_header header
         /\ List.length (columns df) = List.length header
         /\ (NoDup header -> ~ In "" header -> columns df = header)
         /\ (forall col,
               In col (map fst expected_types) -> ~ In col header ->
               exists e,
                 script to_float float_repr (header :: records)
                 = Raised Exploring e
                 /\ (e = TypeError
                     \/ exists c, In c (map fst expected_types)
                                  /\ ~ In c (columns df)
                                  /\ e = KeyError c)).
Proof.
  split; [reflexivity |]. cbv zeta.
  destruct (existsb _ records) eqn:Hlong.
  - assert (Hload : read_csv to_float (header :: records) = Raise ParserError).
    { unfold read_csv. rewrite Hlong. reflexivity. }
    split; [exact Hload |].
    unfold script, during. rewrite lookup_pd_script. cbn [bind].
    rewrite Hload. reflexivity.
  - assert (Hload : exists df, read_csv to_float (header :: records) = Ok df
                               /\ columns df = get_header header).
    { unfold read_csv. rewrite Hlong. eexists. split; [reflexivity |].
      apply columns_of_header. }
    destruct Hload as (df & Hdf & Hcols).
    destruct (get_header_names header) as [Hlen Hnames].
    exists df. split; [assumption |]. split; [assumption |].
    split; [rewrite Hcols; assumption |].
    split; [intros Hnd Hno; rewrite Hcols; apply get_header_distinct; assumption |].
    intros col Hexp Hmiss.
    assert (Hnot : ~ In col (columns df)).
    { rewrite Hcols. intros Hin. destruct (Hnames col Hin) as [Hh | Hm]; [auto |].
      rewrite (expected_not_made_up col Hexp) in Hm. discriminate. }
    unfold script, during.
    rewrite lookup_pd_script. cbn [bind]. rewrite Hdf.
    destruct (explore script_globals df) as [[] | e] eqn:E.
    + exfalso.
      destruct (explore_reads_expected_columns _ _ E col Hexp) as [s Hs].
      rewrite getitem_not_In in Hs by assumption. discriminate.
    + exists e. split; [reflexivity |].
      apply (explore_raises script_globals df e); [reflexivity | assumption].
Qed.

End Loading.

Lemma read_csv_takes_any_header_witness :
  exists df e,
    read_csv decimal_to_float seven_columns = Ok df
    /\ List.length (columns df) = 7%nat
    /\ script decimal_to_float decimal_repr seven_columns = Raised Exploring e
    /\ (e = TypeError
        \/ exists c, In c (map fst expected_types)
                     /\ ~ In c (columns df) /\ e = KeyError c).
Proof.
  pose proof (read_csv_takes_any_header decimal_to_float decimal_repr
                ["student_id"; "age"; "gender"; "attendance";
                 "assignment_score"; "exam_score"; "final_grade"]
                [["S1"; "20"; "M"; "90"; "70"; "80"; "A"];
                 ["S2"; "21"; "F"; "95"; "71"; "81"; "B"]]) as [_ H].
  cbv zeta in H.
  match type of H with
  | if ?b then _ else _ => change b with false in H
  end.
  cbv iota in H. destruct H as (df & Hload & _ & Hlen & _ & Hmiss).
  destruct (Hmiss "department") as (e & Hrun & He).
  - simpl. tauto.
  - simpl. intuition discriminate.
  - exists df, e. repeat split; assumption.
Defined.

(** ** Standardizing twice *)

Lemma ascii_cases (P : ascii -> Prop) :
  (forall b0 b1 b2 b3 b4 b5 b6 b7, P (Ascii b0 b1 b2 b3 b4 b5 b6 b7)) ->
  forall a, P a.
Proof. intros H [b0 b1 b2 b3 b4 b5 b6 b7]. apply H. Qed.

Ltac by_ascii_cases a :=
  revert a; apply ascii_cases;
  intros [] [] [] [] [] [] [] []; vm_compute; reflexivity.

Lemma is_space_to_lower (a : ascii) : is_space (to_lower a) = is_space a.
Proof. by_ascii_cases a. Qed.

Lemma is_space_to_upper (a : ascii) : is_space (to_upper a) = is_space a.
Proof. by_ascii_cases a. Qed.

Lemma to_lower_to_lower (a : ascii) : to_lower (to_lower a) = to_lower a.
Proof. by_ascii_cases a. Qed.

Lemma to_lower_to_upper (a : ascii) : to_lower (to_upper a) = to_lower a.
Proof. by_ascii_cases a. Qed.

Lemma is_upper_to_lower (a : ascii) : is_upper (to_lower a) = false.
Proof. by_ascii_cases a. Qed.

Lemma to_lower_not_upper (a : ascii) : is_upper a = false -> to_lower a = a.
Proof. unfold to_lower. intros ->. reflexivity. Qed.

Lemma lower_lower (s : string) : lower (lower s) = lower s.
Proof.
  induction s as [| a s IH]; simpl; [reflexivity |].
  rewrite to_lower_to_lower, IH. reflexivity.
Qed.

Lemma lower_title_from (s : string) :
  forall b, lower (title_from b s) = lower s.
Proof.
  induction s as [| a s IH]; intros b; simpl; [reflexivity |].
  destruct (is_lower a); [| destruct (is_upper a)]; simpl; rewrite IH;
    destruct b; rewrite ?to_lower_to_upper, ?to_lower_to_lower; reflexivity.
Qed.

Lemma lstrip_starts_clean (s : string) : starts_clean s = true -> lstrip s = s.
Proof.
  destruct s as [| a s]; simpl; [reflexivity |].
  rewrite negb_true_iff. intros ->. reflexivity.
Qed.

Lemma starts_clean_lstrip (s : string) : starts_clean (lstrip s) = true.
Proof.
  induction s as [| a s IH]; simpl; [reflexivity |].
  destruct (is_space a) eqn:E; [assumption |]. simpl. rewrite E. reflexivity.
Qed.

Lemma rstrip_ends_clean (s : string) : ends_clean s = true -> rstrip s = s.
Proof.
  induction s as [| a s IH]; simpl; [reflexivity |].
  destruct s as [| a' s'].
  - simpl. rewrite negb_true_iff. intros ->. reflexivity.
  - intros H. rewrite IH by assumption. reflexivity.
Qed.

Lemma ends_clean_rstrip (s : string) : ends_clean (rstrip s) = true.
Proof.
  induction s as [| a s IH]; simpl; [reflexivity |].
  destruct (rstrip s) as [| a' t] eqn:E.
  - destruct (is_space a) eqn:Ea; simpl; [reflexivity |]. rewrite Ea. reflexivity.
  - simpl. simpl in IH. exact IH.
Qed.

Lemma starts_clean_rstrip (s : string) :
  starts_clean s = true -> starts_clean (rstrip s) = true.
Proof.
  destruct s as [| a s]; simpl; [reflexivity |].
  rewrite negb_true_iff. intros H.
  destruct (rstrip s); rewrite ?H; simpl; rewrite H; reflexivity.
Qed.

Lemma strip_clean (s : string) :
  starts_clean s = true -> ends_clean s = true -> strip s = s.
Proof.
  intros H1 H2. unfold strip.
  rewrite lstrip_starts_clean by assumption. apply rstrip_ends_clean; assumption.
Qed.

Lemma starts_clean_lower (s : string) : starts_clean (lower s) = starts_clean s.
Proof. destruct s; simpl; [reflexivity |]. rewrite is_space_to_lower; reflexivity. Qed.

Lemma ends_clean_lower (s : string) : ends_clean (lower s) = ends_clean s.
Proof.
  induction s as [| a s IH]; simpl; [reflexivity |].
  destruct s as [| a' s']; simpl in *; [rewrite is_space_to_lower; reflexivity |].
  exact IH.
Qed.

Lemma starts_clean_title_from (s : string) (b : bool) :
  starts_clean (title_from b s) = starts_clean s.
Proof.
  destruct s as [| a s]; simpl; [reflexivity |].
  destruct (is_lower a); [| destruct (is_upper a)]; simpl; destruct b;
    rewrite ?is_space_to_upper, ?is_space_to_lower; reflexivity.
Qed.

Lemma ends_clean_title_from (s : string) :
  forall b, ends_clean (title_from b s) = ends_clean s.
Proof.
  induction s as [| a s IH]; intros b; simpl; [reflexivity |].
  destruct s as [| a' s'].
  - destruct (is_lower a); [| destruct (is_upper a)]; simpl; destruct b;
      rewrite ?is_space_to_upper, ?is_space_to_lower; reflexivity.
  - destruct (is_lower a); [| destruct (is_upper a)];
      match goal with
      | |- ends_clean (String ?c (title_from ?b' ?t)) = _ =>
          specialize (IH b'); 
          destruct (title_from b' t) eqn:E;
          [simpl in E; destruct (is_lower a'); [| destruct (is_upper a')]; discriminate
          | exact IH]
      end.
Qed.

(** The text left by [strip], [lower], [title] is not changed by doing
    the three again. *)
Lemma standardize_twice (x : string) :
  title (lower (strip (title (lower (strip x))))) = title (lower (strip x)).
Proof.
  set (y := lower (strip x)).
  assert (Hs : starts_clean (title y) = true).
  { unfold title, y. rewrite starts_clean_title_from, starts_clean_lower.
    unfold strip. apply starts_clean_rstrip, starts_clean_lstrip. }
  assert (He : ends_clean (title y) = true).
  { unfold title, y. rewrite ends_clean_title_from, ends_clean_lower.
    unfold strip. apply ends_clean_rstrip. }
  rewrite strip_clean by assumption.
  unfold title at 2. rewrite lower_title_from.
  unfold y. rewrite lower_lower. reflexivity.
Qed.

Section Twice.

Variable float_repr : Q -> string.

Lemma standardize_cell_twice (c : cell) :
  standardize_cell float_repr (standardize_cell float_repr c)
  = standardize_cell float_repr c.
Proof.
  destruct c as [| x | q]; cbv [standardize_cell astype_str_cell str_cell];
    rewrite standardize_twice; reflexivity.
Qed.

Lemma standardize_cell_is_text (c : cell) :
  exists x, standardize_cell float_repr c = Str (title (lower (strip x))).
Proof.
  destruct c as [| x | q]; cbv [standardize_cell astype_str_cell str_cell]; eauto.
Qed.

Lemma lookup_gender_mapping (x v : string) :
  lookup gender_mapping x = Some v ->
  (v = "Male" \/ v = "Female").
Proof.
  unfold gender_mapping; cbn [lookup].
  repeat (match goal with
          | |- context [String.eqb ?k x] => destruct (String.eqb k x)
          end; [intros H; inversion H; auto |]).
  discriminate.
Qed.

Lemma gender_cell_twice (c : cell) :
  gender_cell float_repr (gender_cell float_repr c) = gender_cell float_repr c.
Proof.
  unfold gender_cell.
  destruct (standardize_cell_is_text c) as [x Hx]. rewrite Hx.
  set (y := title (lower (strip x))).
  assert (Hy : replace_dict_cell gender_mapping (Str y)
               = match lookup gender_mapping y with
                 | Some v => Str v
                 | None => Str y
                 end) by reflexivity.
  rewrite Hy.
  destruct (lookup gender_mapping y) as [v |] eqn:E.
  - destruct (lookup_gender_mapping _ _ E) as [-> | ->]; reflexivity.
  - rewrite standardize_cell_text. unfold y. rewrite standardize_twice.
    fold y. rewrite Hy. reflexivity.
Qed.

End Twice.

(** ** Column lengths *)

Lemma getitem_Ok_In (df : DataFrame) (col : string) (s : Series) :
  getitem df col = Ok s -> In (col, s) df.
Proof.
  induction df as [| [c s0] df IH]; simpl; [discriminate |].
  destruct (String.eqb c col) eqn:E.
  - apply String.eqb_eq in E. intros H; inversion H; subst; auto.
  - auto.
Qed.

Lemma getitem_same_length (n : nat) (df : DataFrame) (col : string) (s : Series) :
  same_length n df -> getitem df col = Ok s -> List.length (values s) = n.
Proof.
  intros Hwf Hs. apply getitem_Ok_In in Hs.
  unfold same_length in Hwf. rewrite Forall_forall in Hwf.
  apply (Hwf (col, s) Hs).
Qed.

Lemma same_length_setitem (n : nat) (df : DataFrame) (col : string) (s : Series) :
  same_length n df -> List.length (values s) = n ->
  same_length n (setitem df col s).
Proof.
  intros Hwf Hs. induction df as [| [c s0] df IH]; simpl.
  - constructor; [assumption | constructor].
  - inversion Hwf as [| p l Hp Hl]; subst.
    destruct (String.eqb c col); constructor; simpl; auto.
    apply IH; assumption.
Qed.

Lemma length_select_full {A : Type} (m : list bool) (l : list A) :
  (List.length m <= List.length l)%nat ->
  List.length (select m l) = List.length (filter id m).
Proof.
  revert l; induction m as [| b m IH]; intros [| x l]; simpl; try reflexivity;
    try lia.
  intros H. destruct b; simpl; rewrite IH by lia; reflexivity.
Qed.

Lemma length_zip_rows_le (n : nat) (cs : list (list cell)) (c : list cell) :
  In c cs -> (List.length (zip_rows n cs) <= List.length c)%nat.
Proof.
  induction cs as [| c0 cs IH]; simpl; [tauto |].
  rewrite length_map, length_combine. intros [<- | H]; [lia |].
  specialize (IH H). lia.
Qed.

Lemma length_zip_rows (n : nat) (cs : list (list cell)) :
  Forall (fun c => List.length c = n) cs -> List.length (zip_rows n cs) = n.
Proof.
  induction cs as [| c cs IH]; simpl; intros H.
  - apply repeat_length.
  - inversion H; subst. rewrite length_map, length_combine, IH by assumption. lia.
Qed.

Lemma drop_duplicates_same_length (df : DataFrame) :
  exists n, same_length n (drop_duplicates df).
Proof.
  exists (List.length (filter id (map negb (duplicated df)))).
  unfold same_length, drop_duplicates. rewrite Forall_forall.
  intros p Hp. apply in_map_iff in Hp. destruct Hp as ([c s] & <- & Hin). simpl.
  apply length_select_full. rewrite length_map.
  unfold duplicated. rewrite length_duplicated_from. unfold rows.
  apply length_zip_rows_le. apply in_map_iff. exists (c, s). auto.
Qed.

(** ** What a completed step tells *)

Lemma lookup_name_unit (ns : namespace) (name : string) (u : unit) :
  lookup_name ns name = Ok u -> lookup_name ns name = Ok tt.
Proof. destruct u. auto. Qed.

Lemma fill_median_inv (col : string) (df out : DataFrame) :
  fill_median col df = Ok out ->
  exists s m,
    getitem df col = Ok s /\ median s = Ok m
    /\ out = setitem df col (fillna m s).
Proof.
  unfold fill_median. intros H.
  apply bind_Ok in H; destruct H as (s & Hs & H).
  apply bind_Ok in H; destruct H as (s' & Hs' & H).
  apply bind_Ok in H; destruct H as (m & Hm & H).
  rewrite Hs in Hs'. inversion Hs'; subst s'. inversion H; subst.
  exists s, m. auto.
Qed.

Lemma fill_mode_inv (col : string) (df out : DataFrame) :
  fill_mode col df = Ok out ->
  exists s m,
    getitem df col = Ok s /\ item0 (mode s) = Ok m
    /\ out = setitem df col (fillna m s).
Proof.
  unfold fill_mode. intros H.
  apply bind_Ok in H; destruct H as (s & Hs & H).
  apply bind_Ok in H; destruct H as (s' & Hs' & H).
  apply bind_Ok in H; destruct H as (m & Hm & H).
  rewrite Hs in Hs'. inversion Hs'; subst s'. inversion H; subst.
  exists s, m. auto.
Qed.

Section Inversions.

Variable to_float : string -> option Q.
Variable float_repr : Q -> string.

Lemma standardize_categories_inv (df out : DataFrame) :
  standardize_categories float_repr df = Ok out ->
  exists g d f,
    getitem df "gender" = Ok g
    /\ getitem df "department" = Ok d
    /\ getitem df "final_grade" = Ok f
    /\ out = setitem
               (setitem
                  (setitem (setitem df "gender" (standardize float_repr g))
                     "department" (standardize float_repr d))
                  "final_grade" (standardize float_repr f))
               "gender"
               (replace_dict gender_mapping (standardize float_repr g)).
Proof.
  unfold standardize_categories, standardize_loop. intros H.
  apply bind_Ok in H; destruct H as (d3 & Hloop & H).
  apply bind_Ok in Hloop; destruct Hloop as (g & Hg & Hloop).
  apply bind_Ok in Hloop; destruct Hloop as (d & Hd & Hloop).
  apply bind_Ok in Hloop; destruct Hloop as (f & Hf & Hloop).
  inversion Hloop; subst d3.
  apply bind_Ok in H; destruct H as (g' & Hg' & H).
  rewrite getitem_setitem_other in Hd by discriminate.
  rewrite !getitem_setitem_other in Hf by discriminate.
  rewrite !getitem_setitem_other, getitem_setitem_same in Hg' by discriminate.
  inversion Hg'; subst g'. inversion H; subst.
  exists g, d, f. auto.
Qed.

End Inversions.

(** ** Columns after each step *)

Lemma median_sorted_number (l : list Q) :
  l <> [] -> exists q, median_sorted l = Num q.
Proof.
  destruct l as [| x l]; [congruence |]. intros _. unfold median_sorted.
  cbn [List.length]. destruct (Nat.even (S (List.length l))); eauto.
Qed.

Lemma nums_nil_no_number (l : list cell) :
  nums l = [] -> forall c, In c l -> is_num c = false.
Proof.
  induction l as [| x l IH]; simpl; [tauto |].
  destruct x as [| s | q]; simpl; try discriminate; intros H c [<- | Hc]; auto.
Qed.

(** After the median fill a column holds numbers only, or nothing. *)
Lemma fillna_median_homogeneous (s : Series) (m : cell) :
  median s = Ok m ->
  existsb is_str (values (fillna m s)) = false
  /\ (forallb is_num (values (fillna m s))
      || forallb isna (values (fillna m s))) = true.
Proof.
  unfold median. destruct (existsb is_str (values s)) eqn:Estr; [discriminate |].
  intros H; injection H as <-.
  rewrite existsb_false_forall in Estr.
  destruct (nums (values s)) as [| q qs] eqn:En.
  - change (median_sorted (sort Qle_bool [])) with NaN.
    rewrite fillna_NaN. split; [apply existsb_false_forall; assumption |].
    apply orb_true_iff; right. apply forallb_forall. intros c Hc.
    pose proof (nums_nil_no_number _ En c Hc) as Hnum. specialize (Estr c Hc).
    destruct c; simpl in *; congruence.
  - destruct (median_sorted_number (sort Qle_bool (q :: qs))) as [x Hx].
    { intros Hnil. apply (f_equal (@List.length Q)) in Hnil.
      rewrite length_sort in Hnil. discriminate. }
    rewrite Hx. unfold fillna; simpl. split.
    + apply existsb_false_forall. intros c Hc. apply in_map_iff in Hc.
      destruct Hc as (c0 & <- & Hc0). specialize (Estr c0 Hc0).
      destruct c0; simpl in *; congruence.
    + apply orb_true_iff; left. apply forallb_forall. intros c Hc.
      apply in_map_iff in Hc. destruct Hc as (c0 & <- & Hc0).
      specialize (Estr c0 Hc0). destruct c0; simpl in *; congruence.
Qed.

Lemma imputation_inv (df out : DataFrame) :
  imputation df = Ok out ->
  (forall col, In col ["age"; "attendance"; "assignment_score"; "exam_score"] ->
     exists s m, getitem df col = Ok s /\ median s = Ok m
                 /\ getitem out col = Ok (fillna m s))
  /\ (forall col, In col ["gender"; "department"] ->
        exists s m, getitem df col = Ok s /\ item0 (mode s) = Ok m
                    /\ getitem out col = Ok (fillna m s))
  /\ (forall n, same_length n df -> same_length n out).
Proof.
  unfold imputation. intros H.
  apply bind_Ok in H; destruct H as (d1 & H1 & H).
  apply bind_Ok in H; destruct H as (d2 & H2 & H).
  apply bind_Ok in H; destruct H as (d3 & H3 & H).
  apply bind_Ok in H; destruct H as (d4 & H4 & H).
  apply bind_Ok in H; destruct H as (d5 & H5 & H6).
  pose proof (fun c' => fill_median_other _ c' _ _ H1) as O1.
  pose proof (fun c' => fill_median_other _ c' _ _ H2) as O2.
  pose proof (fun c' => fill_median_other _ c' _ _ H3) as O3.
  pose proof (fun c' => fill_median_other _ c' _ _ H4) as O4.
  pose proof (fun c' => fill_mode_other _ c' _ _ H5) as O5.
  pose proof (fun c' => fill_mode_other _ c' _ _ H6) as O6.
  apply fill_median_inv in H1; destruct H1 as (s1 & m1 & G1 & M1 & E1).
  apply fill_median_inv in H2; destruct H2 as (s2 & m2 & G2 & M2 & E2).
  apply fill_median_inv in H3; destruct H3 as (s3 & m3 & G3 & M3 & E3).
  apply fill_median_inv in H4; destruct H4 as (s4 & m4 & G4 & M4 & E4).
  apply fill_mode_inv in H5; destruct H5 as (s5 & m5 & G5 & M5 & E5).
  apply fill_mode_inv in H6; destruct H6 as (s6 & m6 & G6 & M6 & E6).
  assert (S1 : getitem d1 "age" = Ok (fillna m1 s1))
    by (rewrite E1; apply getitem_setitem_same).
  assert (S2 : getitem d2 "attendance" = Ok (fillna m2 s2))
    by (rewrite E2; apply getitem_setitem_same).
  assert (S3 : getitem d3 "assignment_score" = Ok (fillna m3 s3))
    by (rewrite E3; apply getitem_setitem_same).
  assert (S4 : getitem d4 "exam_score" = Ok (fillna m4 s4))
    by (rewrite E4; apply getitem_setitem_same).
  assert (S5 : getitem d5 "gender" = Ok (fillna m5 s5))
    by (rewrite E5; apply getitem_setitem_same).
  assert (S6 : getitem out "department" = Ok (fillna m6 s6))
    by (rewrite E6; apply getitem_setitem_same).
  split; [| split].
  - intros col [<- | [<- | [<- | [<- | []]]]].
    + exists s1, m1. repeat split; try assumption.
      rewrite O6, O5, O4, O3, O2 by discriminate. assumption.
    + exists s2, m2. rewrite O1 in G2 by discriminate. repeat split; try assumption.
      rewrite O6, O5, O4, O3 by discriminate. assumption.
    + exists s3, m3. rewrite O2, O1 in G3 by discriminate.
      repeat split; try assumption.
      rewrite O6, O5, O4 by discriminate. assumption.
    + exists s4, m4. rewrite O3, O2, O1 in G4 by discriminate.
      repeat split; try assumption.
      rewrite O6, O5 by discriminate. assumption.
  - intros col [<- | [<- | []]].
    + exists s5, m5. rewrite O4, O3, O2, O1 in G5 by discriminate.
      repeat split; try assumption.
      rewrite O6 by discriminate. assumption.
    + exists s6, m6. rewrite O5, O4, O3, O2, O1 in G6 by discriminate.
      repeat split; assumption.
  - intros n Hn.
    assert (L : forall d col s m, same_length n d -> getitem d col = Ok s ->
                                  same_length n (setitem d col (fillna m s))).
    { intros d col s m Hd Hs. apply same_length_setitem; [assumption |].
      unfold fillna; simpl. rewrite length_map.
      eapply getitem_same_length; eassumption. }
    subst out d5 d4 d3 d2 d1. auto 10.
Qed.

(** ** Tables that a step leaves as they are *)

Lemma no_mark_map_negb (l : list bool) :
  existsb id l = false -> map negb l = repeat true (List.length l).
Proof.
  induction l as [| b l IH]; simpl; [reflexivity |].
  destruct b; simpl; [discriminate |]. intros H. rewrite IH by assumption.
  reflexivity.
Qed.

Lemma select_all {A : Type} (n : nat) (l : list A) :
  (List.length l <= n)%nat -> select (repeat true n) l = l.
Proof.
  revert l; induction n as [| n IH]; intros [| x l]; simpl; try reflexivity;
    try lia.
  intros H. rewrite IH by lia. reflexivity.
Qed.

Lemma loc_rows_all (n : nat) (df : DataFrame) :
  same_length n df -> loc_rows (repeat true n) df = df.
Proof.
  unfold loc_rows, same_length. induction df as [| [c [d vs]] df IH]; simpl;
    intros H; [reflexivity |].
  inversion H as [| p l Hp Hl]; subst. simpl in *.
  rewrite select_all by lia. rewrite IH by assumption. reflexivity.
Qed.

Lemma length_rows (n : nat) (df : DataFrame) :
  same_length n df -> df <> [] -> List.length (rows df) = n.
Proof.
  intros H Hne. unfold rows.
  assert (Hn : nrows df = n).
  { destruct df as [| [c s] df]; [congruence |]. inversion H; subst; reflexivity. }
  rewrite Hn. apply length_zip_rows.
  unfold same_length in H. rewrite Forall_forall in *.
  intros c Hc. apply in_map_iff in Hc. destruct Hc as (p & <- & Hp). auto.
Qed.

(** Step 1 removes nothing from a table without duplicate rows. *)
Lemma drop_duplicates_settled (n : nat) (df : DataFrame) :
  same_length n df -> no_duplicates df = true -> drop_duplicates df = df.
Proof.
  intros Hn Hnd. destruct df as [| p df]; [reflexivity |].
  rewrite drop_duplicates_loc_rows.
  unfold no_duplicates in Hnd. apply negb_true_iff in Hnd.
  rewrite (no_mark_map_negb _ Hnd).
  unfold duplicated. rewrite length_duplicated_from.
  rewrite (length_rows n) by (assumption || discriminate).
  apply loc_rows_all; assumption.
Qed.

Lemma map_fixed {A : Type} (f : A -> A) (l : list A) :
  (forall x, In x l -> f x = x) -> map f l = l.
Proof.
  induction l as [| x l IH]; simpl; intros H; [reflexivity |].
  rewrite H, IH by auto. reflexivity.
Qed.

Section Settled.

Variable to_float : string -> option Q.
Variable float_repr : Q -> string.

Lemma to_numeric_settled (s : Series) :
  dt s = float64 -> existsb is_str (values s) = false ->
  to_numeric to_float s = s.
Proof.
  destruct s as [d vs]. simpl. intros -> H. unfold to_numeric; simpl. f_equal.
  apply map_fixed. intros c Hc. rewrite existsb_false_forall in H.
  specialize (H c Hc). destruct c; simpl in *; congruence.
Qed.

Lemma standardize_categories_settled (df : DataFrame) (g d f : list cell) :
  getitem df "gender" = Ok (mkSeries object (map (gender_cell float_repr) g)) ->
  getitem df "department"
  = Ok (mkSeries object (map (standardize_cell float_repr) d)) ->
  getitem df "final_grade"
  = Ok (mkSeries object (map (standardize_cell float_repr) f)) ->
  standardize_categories float_repr df = Ok df.
Proof.
  intros Hg Hd Hf.
  assert (Sd : standardize float_repr
                 (mkSeries object (map (standardize_cell float_repr) d))
               = mkSeries object (map (standardize_cell float_repr) d)).
  { rewrite standardize_cells. cbn [values]. rewrite map_map. f_equal.
    apply map_ext. intros c. apply standardize_cell_twice. }
  assert (Sf : standardize float_repr
                 (mkSeries object (map (standardize_cell float_repr) f))
               = mkSeries object (map (standardize_cell float_repr) f)).
  { rewrite standardize_cells. cbn [values]. rewrite map_map. f_equal.
    apply map_ext. intros c. apply standardize_cell_twice. }
  assert (Sg : replace_dict gender_mapping
                 (standardize float_repr
                    (mkSeries object (map (gender_cell float_repr) g)))
               = mkSeries object (map (gender_cell float_repr) g)).
  { rewrite standardize_cells. unfold replace_dict. cbn [values dt].
    rewrite !map_map. f_equal. apply map_ext. intros c.
    apply (gender_cell_twice float_repr c). }
  unfold standardize_categories, standardize_loop.
  rewrite Hg. cbn [bind].
  rewrite getitem_setitem_other, Hd by discriminate. cbn [bind].
  rewrite Sd.
  rewrite (setitem_getitem_id (setitem df "gender" _) "department")
    by (rewrite getitem_setitem_other by discriminate; assumption).
  rewrite getitem_setitem_other, Hf by discriminate. cbn [bind].
  rewrite Sf.
  rewrite (setitem_getitem_id (setitem df "gender" _) "final_grade")
    by (rewrite getitem_setitem_other by discriminate; assumption).
  cbn [bind]. rewrite getitem_setitem_same. cbn [bind].
  rewrite Sg, setitem_setitem, setitem_getitem_id by assumption. reflexivity.
Qed.

End Settled.

(** ** Running the cleaning twice *)

(** With [np] bound, which the script never does, a second pass changes
    four cleaned tables.  Standardizing makes two records equal, and the
    second pass drops one.  Standardizing turns " none " into the marker
    "None", which the second pass reads as absent and prints back as
    "Nan".  The median 20.5 written over the ages 10 and 45 is rounded
    to 20 by the second pass.  The median 15 written over two ages of 10
    is itself below 16, and the second pass writes the new median 17.5
    over it. *)
Lemma second_pass_changes_output :
  (exists out out',
      clean decimal_to_float decimal_repr with_numpy nearly_twins = Saved out
      /\ clean decimal_to_float decimal_repr with_numpy out = Saved out'
      /\ getitem out "department" = Ok (text ["It"; "It"])
      /\ getitem out' "department" = Ok (text ["It"]))
  /\ (exists out out',
        clean decimal_to_float decimal_repr with_numpy padded_none = Saved out
        /\ clean decimal_to_float decimal_repr with_numpy out = Saved out'
        /\ getitem out "final_grade" = Ok (text ["B"; "None"])
        /\ getitem out' "final_grade" = Ok (text ["B"; "Nan"]))
  /\ (exists out out',
        clean decimal_to_float decimal_repr with_numpy half_median = Saved out
        /\ clean decimal_to_float decimal_repr with_numpy out = Saved out'
        /\ getitem out "age" = Ok (floats [41 # 2; 41 # 2; 20 # 1; 21 # 1])
        /\ getitem out' "age" = Ok (floats [20 # 1; 20 # 1; 20 # 1; 21 # 1]))
  /\ (exists out out',
        clean decimal_to_float decimal_repr with_numpy low_median = Saved out
        /\ clean decimal_to_float decimal_repr with_numpy out = Saved out'
        /\ getitem out "age" = Ok (floats [15 # 1; 15 # 1; 20 # 1; 20 # 1])
        /\ getitem out' "age" = Ok (floats [35 # 2; 35 # 2; 20 # 1; 20 # 1])).
Proof.
  split; [| split; [| split]]; do 2 eexists;
    (split; [vm_compute; reflexivity |]);
    (split; [vm_compute; reflexivity |]);
    split; vm_compute; reflexivity.
Qed.


(** * Further properties of the script *)

(** ** How a run of the script as written ends *)

Lemma replace_markers_no_text_column (ns : namespace) (df : DataFrame) :
  has_text_column df = false -> replace_markers ns df = Ok df.
Proof.
  intros H. unfold replace_markers.
  assert (Hnil : select_dtypes object df = []).
  { unfold has_text_column in H. rewrite existsb_false_forall in H.
    unfold select_dtypes. induction df as [| p df IH]; simpl; [reflexivity |].
    rewrite (H p) by (left; reflexivity). apply IH.
    intros x Hx. apply H. right; assumption. }
  rewrite Hnil. reflexivity.
Qed.

Section AsWritten.

Variable to_float : string -> option Q.
Variable float_repr : Q -> string.

Lemma clean_as_written_stops_early (df : DataFrame) :
  exists st e,
    clean to_float float_repr script_globals df = Raised st e
    /\ st <> Clamping.
Proof.
  unfold clean, during.
  destruct (replace_markers _ _); [| do 2 eexists; split; [reflexivity | discriminate]].
  destruct (convert_scores _ _ _); [| do 2 eexists; split; [reflexivity | discriminate]].
  destruct (imputation _); [| do 2 eexists; split; [reflexivity | discriminate]].
  destruct (standardize_categories _ _); [| do 2 eexists; split; [reflexivity | discriminate]].
  destruct (age_integer_bound _ _) eqn:E; [| do 2 eexists; split; [reflexivity | discriminate]].
  exfalso. eapply age_integer_bound_without_np; eauto.
Qed.

(** X1.  Whatever the input file holds, the script ends with an
    exception that nothing catches: while loading, while exploring, or in
    one of the steps 2 to 6.  It never gets as far as the clipping of
    step 7, and so never to [to_csv]. *)
Theorem script_always_raises (file : csv) :
  exists st e,
    script to_float float_repr file = Raised st e /\ st <> Clamping.
Proof.
  unfold script, during.
  destruct (lookup_name _ _ ;;; read_csv _ _) as [df |];
    [| do 2 eexists; split; [reflexivity | discriminate]].
  destruct (explore _ _); [| do 2 eexists; split; [reflexivity | discriminate]].
  apply clean_as_written_stops_early.
Qed.

(** X2.  A table without any text column passes steps 1 and 2 untouched
    by step 2 (the loop body, and with it the unbound [np], is never
    evaluated); the run then ends in one of the steps 3 to 6, at the
    latest at line 161. *)
Theorem numeric_table_passes_marker_step (df : DataFrame) :
  has_text_column df = false ->
  replace_markers script_globals (drop_duplicates df) = Ok (drop_duplicates df)
  /\ exists st e,
       clean to_float float_repr script_globals df = Raised st e
       /\ st <> Markers /\ st <> Clamping.
Proof.
  intros H.
  assert (Hrep : replace_markers script_globals (drop_duplicates df)
                 = Ok (drop_duplicates df)).
  { apply replace_markers_no_text_column.
    rewrite drop_duplicates_text_column. assumption. }
  split; [assumption |].
  destruct (clean_as_written_stops_early df) as (st & e & Hrun & Hst).
  exists st, e. split; [assumption |]. split; [| assumption].
  intros ->. unfold clean, during in Hrun. rewrite Hrep in Hrun.
  destruct (convert_scores _ _ _); [| discriminate].
  destruct (imputation _); [| discriminate].
  destruct (standardize_categories _ _); [| discriminate].
  destruct (age_integer_bound _ _); [| discriminate].
  destruct (bound_numeric_columns _ _); discriminate.
Qed.

End AsWritten.

Lemma numeric_table_passes_marker_step_witness :
  exists st e,
    clean decimal_to_float decimal_repr script_globals coded_students
    = Raised st e
    /\ st <> Markers /\ st <> Clamping.
Proof.
  apply (numeric_table_passes_marker_step decimal_to_float decimal_repr
           coded_students eq_refl).
Defined.

(** ** The exploration *)

Lemma lt_scalar_Ok (s : Series) (bound : Q) :
  (exists bs, lt_scalar s bound = Ok bs) <-> existsb is_str (values s) = false.
Proof.
  unfold lt_scalar. induction (values s) as [| c l IH]; simpl.
  - split; eauto.
  - split.
    + intros [bs H]. apply bind_Ok in H; destruct H as (b & Hb & H).
      apply bind_Ok in H; destruct H as (bs' & Hbs & _).
      destruct c; simpl in *; try discriminate; apply IH; eauto.
    + intros H. destruct c; simpl in *; try discriminate;
        destruct (proj2 IH H) as [bs ->]; simpl; eauto.
Qed.

Lemma gt_scalar_Ok (s : Series) (bound : Q) :
  (exists bs, gt_scalar s bound = Ok bs) <-> existsb is_str (values s) = false.
Proof.
  unfold gt_scalar. induction (values s) as [| c l IH]; simpl.
  - split; eauto.
  - split.
    + intros [bs H]. apply bind_Ok in H; destruct H as (b & Hb & H).
      apply bind_Ok in H; destruct H as (bs' & Hbs & _).
      destruct c; simpl in *; try discriminate; apply IH; eauto.
    + intros H. destruct c; simpl in *; try discriminate;
        destruct (proj2 IH H) as [bs ->]; simpl; eauto.
Qed.

Lemma lt_scalar_text (s : Series) (bound : Q) :
  existsb is_str (values s) = true -> lt_scalar s bound = Raise TypeError.
Proof.
  unfold lt_scalar. induction (values s) as [| c l IH]; simpl; [discriminate |].
  destruct c as [| x | q]; simpl; intros H; try reflexivity;
    rewrite IH by assumption; reflexivity.
Qed.

(** What a completed exploration tells about the table. *)
Lemma explore_Ok_inv (ns : namespace) (df : DataFrame) :
  explore ns df = Ok tt ->
  lookup_name ns "pd" = Ok tt
  /\ (forall col, In col (map fst expected_types) ->
                  exists s, getitem df col = Ok s)
  /\ (forall a, getitem df "age" = Ok a -> existsb is_str (values a) = false)
  /\ ((0 < List.length (filter id (duplicated df)))%nat ->
      forall s, getitem df "student_id" = Ok s ->
                mixed (select (duplicated_all (rows df)) (values s)) = false).
Proof.
  intros H. pose proof (explore_reads_expected_columns ns df H) as Hcols.
  unfold explore in H.
  apply bind_Ok in H; destruct H as (u0 & Hdup & H).
  apply bind_Ok in H; destruct H as ([] & _ & H).
  apply bind_Ok in H; destruct H as ([] & Hscore & H).
  apply bind_Ok in H; destruct H as (a0 & _ & H).
  apply bind_Ok in H; destruct H as (a & Ha & H).
  apply bind_Ok in H; destruct H as (b1 & Hlt & _).
  split.
  { pose proof (for_each_Ok _ _ Hscore "exam_score") as Hex.
    simpl in Hex. specialize (Hex ltac:(tauto)).
    apply bind_Ok in Hex; destruct Hex as (u & Hpd & _).
    apply lookup_name_unit in Hpd. assumption. }
  split; [assumption |]. split.
  { intros a' Ha'. rewrite Ha in Ha'; injection Ha' as <-.
    apply (lt_scalar_Ok a (16 # 1)). eauto. }
  intros Hpos s Hs. apply Nat.ltb_lt in Hpos. rewrite Hpos in Hdup.
  apply bind_Ok in Hdup; destruct Hdup as (d & Hsort & _).
  unfold sort_values in Hsort. rewrite getitem_loc_rows, Hs in Hsort.
  cbn [bind values] in Hsort. unfold mixed.
  destruct (existsb is_str _ && existsb is_num _); [discriminate | reflexivity].
Qed.

(** X3.  The exploration of Task 3 completes exactly when [pd] is bound,
    each of the eight expected columns is present, no age is text, and,
    if some row repeats an earlier one, the student ids of the repeated
    rows are not a mix of text and numbers.  Columns beyond the eight
    and the contents of the other seven play no part. *)
Theorem explore_completes_iff (ns : namespace) (df : DataFrame) :
  explore ns df = Ok tt <->
  lookup_name ns "pd" = Ok tt
  /\ (forall col, In col (map fst expected_types) ->
                  exists s, getitem df col = Ok s)
  /\ (forall a, getitem df "age" = Ok a -> existsb is_str (values a) = false)
  /\ ((0 < List.length (filter id (duplicated df)))%nat ->
      forall s, getitem df "student_id" = Ok s ->
                mixed (select (duplicated_all (rows df)) (values s)) = false).
Proof.
  split; [apply explore_Ok_inv |].
  intros (Hpd & Hcols & Hage & Hdup).
  assert (Hcol : forall col, In col (map fst expected_types) ->
                             (getitem df col ;;; Ok tt) = Ok tt).
  { intros col Hc. destruct (Hcols col Hc) as [s ->]. reflexivity. }
  destruct (Hcols "age") as [a Ha]; [simpl; tauto |].
  destruct (Hcols "student_id") as [sid Hsid]; [simpl; tauto |].
  destruct (Hcols "attendance") as [att Hatt]; [simpl; tauto |].
  destruct (Hcols "gender") as [g Hg]; [simpl; tauto |].
  destruct (Hcols "final_grade") as [fg Hfg]; [simpl; tauto |].
  destruct (Hcols "department") as [d Hd]; [simpl; tauto |].
  destruct (Hcols "assignment_score") as [asg Hasg]; [simpl; tauto |].
  destruct (Hcols "exam_score") as [ex Hex]; [simpl; tauto |].
  specialize (Hage a Ha).
  destruct (proj2 (lt_scalar_Ok a (16 # 1)) Hage) as [b1 Hb1].
  destruct (proj2 (gt_scalar_Ok a (35 # 1)) Hage) as [b2 Hb2].
  unfold explore.
  assert (Hfirst : (if Nat.ltb 0 (List.length (filter id (duplicated df)))
                    then sort_values "student_id"
                           (loc_rows (duplicated_all (rows df)) df) ;;; Ok tt
                    else Ok tt) = Ok tt).
  { destruct (Nat.ltb 0 (List.length (filter id (duplicated df)))) eqn:E;
      [| reflexivity].
    apply Nat.ltb_lt in E. specialize (Hdup E sid Hsid). unfold mixed in Hdup.
    unfold sort_values. rewrite getitem_loc_rows, Hsid. cbn [bind values].
    rewrite Hdup. reflexivity. }
  rewrite Hfirst. cbn [bind for_each].
  rewrite Hg, Hfg, Hd, Hpd, Hasg, Hex, Ha. cbn [bind].
  rewrite Hb1. cbn [bind]. rewrite Hb2. cbn [bind].
  rewrite Hsid, Hatt. reflexivity.
Qed.

Lemma explore_text_age (ns : namespace) (df : DataFrame) (a : Series) :
  lookup_name ns "pd" = Ok tt ->
  (forall col, In col (map fst expected_types) -> exists s, getitem df col = Ok s) ->
  getitem df "age" = Ok a ->
  existsb is_str (values a) = true ->
  explore ns df = Raise TypeError.
Proof.
  intros Hpd Hcols Ha Htext.
  destruct (Hcols "student_id") as [sid Hsid]; [simpl; tauto |].
  destruct (Hcols "gender") as [g Hg]; [simpl; tauto |].
  destruct (Hcols "final_grade") as [fg Hfg]; [simpl; tauto |].
  destruct (Hcols "department") as [d Hd]; [simpl; tauto |].
  destruct (Hcols "assignment_score") as [asg Hasg]; [simpl; tauto |].
  destruct (Hcols "exam_score") as [ex Hex]; [simpl; tauto |].
  unfold explore.
  destruct (Nat.ltb 0 (List.length (filter id (duplicated df)))).
  - unfold sort_values. rewrite getitem_loc_rows, Hsid. cbn [bind values].
    destruct (existsb is_str _ && existsb is_num _); [reflexivity |].
    cbn [bind for_each].
    rewrite Hg, Hfg, Hd, Hpd, Hasg, Hex, Ha. cbn [bind].
    rewrite (lt_scalar_text a _ Htext). reflexivity.
  - cbn [bind for_each].
    rewrite Hg, Hfg, Hd, Hpd, Hasg, Hex, Ha. cbn [bind].
    rewrite (lt_scalar_text a _ Htext). reflexivity.
Qed.

Section TextAge.

Variable to_float : string -> option Q.
Variable float_repr : Q -> string.

(** X4.  If a file has all eight columns but its [age] column is loaded
    with a text cell (a dash or a word in one record is enough, since
    [read_csv] does not read those as absent), the comparison of line
    110 raises [TypeError] in the exploration: the script stops before
    the cleaning that was meant to deal with such entries. *)
Theorem text_age_stops_script (file : csv) (df : DataFrame) (a : Series) :
  read_csv to_float file = Ok df ->
  (forall col, In col (map fst expected_types) -> exists s, getitem df col = Ok s) ->
  getitem df "age" = Ok a ->
  existsb is_str (values a) = true ->
  script to_float float_repr file = Raised Exploring TypeError.
Proof.
  intros Hload Hcols Ha Htext. unfold script, during.
  rewrite lookup_pd_script. cbn [bind]. rewrite Hload.
  rewrite (explore_text_age script_globals df a lookup_pd_script Hcols Ha Htext).
  reflexivity.
Qed.

End TextAge.

Lemma text_age_stops_script_witness :
  script decimal_to_float decimal_repr dash_age = Raised Exploring TypeError.
Proof.
  apply (text_age_stops_script decimal_to_float decimal_repr dash_age
           [("student_id", text ["S1"; "S2"]);
            ("age", text ["20"; "-"]);
            ("gender", text ["M"; "F"]);
            ("attendance", floats [90 # 1; 95 # 1]);
            ("assignment_score", floats [70 # 1; 71 # 1]);
            ("exam_score", floats [80 # 1; 81 # 1]);
            ("final_grade", text ["A"; "B"]);
            ("department", text ["cs"; "it"])]
           (text ["20"; "-"])); try reflexivity.
  intros col Hcol. simpl in Hcol.
  destruct Hcol as [<- | [<- | [<- | [<- | [<- | [<- | [<- | [<- | []]]]]]]]];
    eexists; reflexivity.
Defined.

(** ** Duplicates: counted, selected, removed *)

Lemma length_select_negb {A : Type} (m : list bool) (l : list A) :
  List.length m = List.length l ->
  (List.length (select (map negb m) l) + List.length (filter id m)
   = List.length l)%nat.
Proof.
  revert l; induction m as [| b m IH]; intros [| x l]; simpl; try reflexivity;
    try discriminate.
  intros H; injection H as H. specialize (IH l H).
  destruct b; simpl; lia.
Qed.

(** X5.  The number of duplicate rows that Task 3 reports at line 87 is
    exactly the number of rows that step 1 removes at line 124. *)
Theorem reported_duplicates_are_removed (df : DataFrame) :
  (List.length (rows (drop_duplicates df))
   + List.length (filter id (duplicated df))
   = List.length (rows df))%nat.
Proof.
  rewrite drop_duplicates_loc_rows, rows_loc_rows.
  apply length_select_negb. apply length_duplicated_from.
Qed.

Lemma filter_two_occurrences (l : list row) (i j : nat) :
  (j < i)%nat -> (i < List.length l)%nat ->
  nth j l [] = nth i l [] ->
  (2 <= List.length (filter (row_eqb (nth i l [])) l))%nat.
Proof.
  intros Hji Hi Heq.
  rewrite <- (firstn_skipn i l) at 2.
  rewrite filter_app, length_app.
  assert (Hfirst : (1 <= List.length (filter (row_eqb (nth i l [])) (firstn i l)))%nat).
  { assert (Hin : In (nth i l []) (firstn i l)).
    { rewrite <- Heq. rewrite <- (firstn_skipn i l) at 1.
      rewrite app_nth1 by (rewrite length_firstn; lia).
      apply nth_In. rewrite length_firstn. lia. }
    assert (Hf : In (nth i l []) (filter (row_eqb (nth i l [])) (firstn i l))).
    { apply filter_In. split; [assumption | apply row_eqb_eq; reflexivity]. }
    destruct (filter _ (firstn i l)); [contradiction | simpl; lia]. }
  assert (Hskip : (1 <= List.length (filter (row_eqb (nth i l [])) (skipn i l)))%nat).
  { assert (Hin : In (nth i l []) (skipn i l)).
    { rewrite <- (firstn_skipn i l) at 1.
      rewrite app_nth2 by (rewrite length_firstn; lia).
      apply nth_In. rewrite length_firstn, length_skipn. lia. }
    assert (Hf : In (nth i l []) (filter (row_eqb (nth i l [])) (skipn i l))).
    { apply filter_In. split; [assumption | apply row_eqb_eq; reflexivity]. }
    destruct (filter _ (skipn i l)); [contradiction | simpl; lia]. }
  lia.
Qed.

Lemma duplicated_all_nth (l : list row) (i : nat) :
  (i < List.length l)%nat ->
  nth i (duplicated_all l) false
  = Nat.ltb 1 (List.length (filter (row_eqb (nth i l [])) l)).
Proof.
  intros Hi. unfold duplicated_all.
  rewrite (nth_indep _ false
             (Nat.ltb 1 (List.length (filter (row_eqb []) l))))
    by (rewrite length_map; assumption).
  apply (map_nth (fun r => Nat.ltb 1 (List.length (filter (row_eqb r) l)))).
Qed.

(** X6.  Every row counted as a duplicate at line 87 is among the rows
    that line 90 selects with [keep=False], and so is an earlier row
    equal to it.  (Line 90 then sorts the selected rows and prints the
    first eight; which of them are printed is not part of this.) *)
Theorem counted_duplicates_are_selected (df : DataFrame) (i : nat) :
  (i < List.length (rows df))%nat ->
  nth i (duplicated df) false = true ->
  nth i (duplicated_all (rows df)) false = true
  /\ exists j,
       (j < i)%nat
       /\ nth j (rows df) [] = nth i (rows df) []
       /\ nth j (duplicated_all (rows df)) false = true.
Proof.
  intros Hi Hdup. unfold duplicated in Hdup.
  apply (duplicated_from_nth (rows df) [] i Hi) in Hdup.
  destruct Hdup as [[] | (j & Hj & Heq)].
  pose proof (filter_two_occurrences (rows df) i j Hj Hi Heq) as Htwo.
  split.
  - rewrite duplicated_all_nth by assumption. apply Nat.ltb_lt. lia.
  - exists j. split; [assumption |]. split; [assumption |].
    rewrite duplicated_all_nth by lia. rewrite Heq. apply Nat.ltb_lt. lia.
Qed.

Lemma counted_duplicates_are_selected_witness :
  nth 2 (duplicated_all (rows twins)) false = true
  /\ exists j,
       (j < 2)%nat
       /\ nth j (rows twins) [] = nth 2 (rows twins) []
       /\ nth j (duplicated_all (rows twins)) false = true.
Proof.
  apply (counted_duplicates_are_selected twins 2); [simpl; lia | reflexivity].
Defined.

Lemma no_mark_of_NoDup (rs : list row) :
  forall seen,
    NoDup rs -> (forall r, In r rs -> ~ In r seen) ->
    existsb id (duplicated_from seen rs) = false.
Proof.
  induction rs as [| r rs IH]; intros seen Hnd Hseen; simpl; [reflexivity |].
  inversion Hnd as [| x l Hnotin Hnd']; subst.
  assert (Hr : existsb (row_eqb r) seen = false).
  { destruct (existsb (row_eqb r) seen) eqn:E; [| reflexivity].
    apply existsb_row_eqb in E. exfalso. apply (Hseen r); simpl; auto. }
  rewrite Hr. simpl. apply IH; [assumption |].
  intros x Hx [<- | Hin]; [contradiction |].
  apply (Hseen x); simpl; auto.
Qed.

Lemma columns_loc_rows (mask : list bool) (df : DataFrame) :
  map (fun p => (fst p, dt (snd p))) (loc_rows mask df)
  = map (fun p => (fst p, dt (snd p))) df.
Proof.
  unfold loc_rows. rewrite map_map. reflexivity.
Qed.

(** X7.  Removing duplicates a second time removes nothing; the step
    keeps every column with its name and dtype, leaves all columns with
    the same number of cells, and never adds a row. *)
Theorem drop_duplicates_once_is_enough (df : DataFrame) :
  drop_duplicates (drop_duplicates df) = drop_duplicates df
  /\ map (fun p => (fst p, dt (snd p))) (drop_duplicates df)
     = map (fun p => (fst p, dt (snd p))) df
  /\ (exists n, same_length n (drop_duplicates df))
  /\ (List.length (rows (drop_duplicates df)) <= List.length (rows df))%nat.
Proof.
  split; [| split; [| split]].
  - destruct (drop_duplicates_same_length df) as [n Hn].
    apply (drop_duplicates_settled n); [assumption |].
    unfold no_duplicates, duplicated. apply negb_true_iff.
    apply no_mark_of_NoDup; [| intros r _ []].
    rewrite drop_duplicates_loc_rows, rows_loc_rows.
    apply NoDup_first_occurrences.
  - rewrite drop_duplicates_loc_rows. apply columns_loc_rows.
  - apply drop_duplicates_same_length.
  - rewrite drop_duplicates_loc_rows, rows_loc_rows.
    pose proof (length_select_negb (duplicated df) (rows df)
                  (length_duplicated_from [] (rows df))). lia.
Qed.

(** ** Imputation: when it succeeds and what it leaves *)

Lemma item0_mode_exists (s : Series) :
  dropna (values s) <> [] -> exists m, item0 (mode s) = Ok m.
Proof.
  intros Hne. unfold item0, mode. cbn [values].
  pose proof (most_frequent_nonempty (values s) Hne) as Hms.
  destruct (forallb is_str (most_frequent (values s))
            || forallb is_num (most_frequent (values s))).
  - destruct (sort cell_leb (most_frequent (values s))) as [| m rest] eqn:E; [| eauto].
    exfalso. apply Hms. apply (f_equal (@List.length cell)) in E.
    rewrite length_sort in E.
    destruct (most_frequent (values s)); [reflexivity | discriminate].
  - destruct (most_frequent (values s)) as [| m rest]; [congruence | eauto].
Qed.

Lemma item0_mode_present (s : Series) (m : cell) :
  item0 (mode s) = Ok m -> In m (dropna (values s)).
Proof.
  unfold item0, mode. cbn [values]. intros H.
  assert (Hin : In m (most_frequent (values s))).
  { destruct (forallb is_str (most_frequent (values s))
              || forallb is_num (most_frequent (values s))).
    - destruct (sort cell_leb (most_frequent (values s))) as [| x rest] eqn:E;
        [discriminate |].
      injection H as ->. apply (In_sort cell_leb). rewrite E. left; reflexivity.
    - destruct (most_frequent (values s)) as [| x rest]; [discriminate |].
      injection H as ->. left; reflexivity. }
  apply In_most_frequent in Hin. tauto.
Qed.

Lemma median_Ok_iff (s : Series) :
  (exists m, median s = Ok m) <-> existsb is_str (values s) = false.
Proof.
  unfold median. destruct (existsb is_str (values s)); split; eauto;
    try discriminate. intros [m H]. discriminate.
Qed.

Lemma fill_median_Ok (col : string) (df : DataFrame) (s : Series) :
  getitem df col = Ok s -> existsb is_str (values s) = false ->
  exists m, median s = Ok m
            /\ fill_median col df = Ok (setitem df col (fillna m s)).
Proof.
  intros Hs Hstr. destruct (proj2 (median_Ok_iff s) Hstr) as [m Hm].
  exists m. split; [assumption |].
  unfold fill_median. rewrite Hs. cbn [bind]. rewrite Hm. reflexivity.
Qed.

(** X8.  Step 4 completes exactly when the four numeric columns it fills
    are present and hold no text cell, and [gender] and [department]
    are present with at least one present value each.  Otherwise one of
    lines 140-146 raises. *)
Theorem imputation_completes_iff (df : DataFrame) :
  (exists out, imputation df = Ok out) <->
  (forall col, In col ["age"; "attendance"; "assignment_score"; "exam_score"] ->
     exists s, getitem df col = Ok s /\ existsb is_str (values s) = false)
  /\ (forall col, In col ["gender"; "department"] ->
        exists s, getitem df col = Ok s /\ dropna (values s) <> []).
Proof.
  split.
  - intros [out H]. destruct (imputation_inv df out H) as (Hnum & Hcat & _).
    split.
    + intros col Hcol. destruct (Hnum col Hcol) as (s & m & Hs & Hm & _).
      exists s. split; [assumption |]. apply median_Ok_iff. eauto.
    + intros col Hcol. destruct (Hcat col Hcol) as (s & m & Hs & Hm & _).
      exists s. split; [assumption |]. intros Hnil.
      pose proof (item0_mode_present s m Hm) as Hin. rewrite Hnil in Hin.
      contradiction.
  - intros [Hnum Hcat].
    destruct (Hnum "age") as (s1 & G1 & T1); [simpl; tauto |].
    destruct (Hnum "attendance") as (s2 & G2 & T2); [simpl; tauto |].
    destruct (Hnum "assignment_score") as (s3 & G3 & T3); [simpl; tauto |].
    destruct (Hnum "exam_score") as (s4 & G4 & T4); [simpl; tauto |].
    destruct (Hcat "gender") as (s5 & G5 & T5); [simpl; tauto |].
    destruct (Hcat "department") as (s6 & G6 & T6); [simpl; tauto |].
    unfold imputation.
    destruct (fill_median_Ok "age" df s1 G1 T1) as (m1 & _ & ->). cbn [bind].
    destruct (fill_median_Ok "attendance" (setitem df "age" (fillna m1 s1)) s2)
      as (m2 & _ & ->);
      [rewrite getitem_setitem_other by discriminate; assumption | assumption |].
    cbn [bind].
    match goal with |- context [fill_median "assignment_score" ?d] =>
      destruct (fill_median_Ok "assignment_score" d s3) as (m3 & _ & ->);
        [rewrite !getitem_setitem_other by discriminate; assumption | assumption |]
    end.
    cbn [bind].
    match goal with |- context [fill_median "exam_score" ?d] =>
      destruct (fill_median_Ok "exam_score" d s4) as (m4 & _ & ->);
        [rewrite !getitem_setitem_other by discriminate; assumption | assumption |]
    end.
    cbn [bind].
    destruct (item0_mode_exists s5 T5) as [m5 M5].
    match goal with |- context [fill_mode "gender" ?d] =>
      rewrite (fill_mode_of_item0 "gender" d s5 m5)
        by (rewrite ?getitem_setitem_other by discriminate; assumption)
    end.
    cbn [bind].
    destruct (item0_mode_exists s6 T6) as [m6 M6].
    match goal with |- context [fill_mode "department" ?d] =>
      rewrite (fill_mode_of_item0 "department" d s6 m6)
        by (rewrite ?getitem_setitem_other by discriminate; assumption)
    end.
    eauto.
Qed.

Lemma In_nums (q : Q) (l : list cell) : In q (nums l) <-> In (Num q) l.
Proof.
  unfold nums. rewrite in_flat_map. split.
  - intros (c & Hc & Hq). destruct c as [| x | r]; simpl in Hq; try contradiction.
    destruct Hq as [-> | []]. assumption.
  - intros H. exists (Num q). split; [assumption | left; reflexivity].
Qed.

Lemma mean_between (a b : Q) :
  (a <= b -> a <= Qred ((a + b) / (2 # 1)) <= b)%Q.
Proof.
  intros H. rewrite Qred_correct. split.
  - apply Qle_shift_div_l; [reflexivity |]. lra.
  - apply Qle_shift_div_r; [reflexivity |]. lra.
Qed.

Lemma median_sorted_between (l : list Q) :
  l <> [] ->
  exists q lo hi,
    median_sorted l = Num q /\ In lo l /\ In hi l /\ (lo <= q <= hi)%Q.
Proof.
  intros Hne. unfold median_sorted.
  assert (Hn : (0 < List.length l)%nat).
  { destruct l; [congruence | simpl; lia]. }
  destruct (List.length l) as [| n] eqn:En; [lia |].
  assert (H2 : (S n / 2 < S n)%nat) by (apply Nat.div_lt; lia).
  assert (H1 : (S n / 2 - 1 < S n)%nat) by lia.
  rewrite <- En in H1, H2.
  pose proof (nth_In l 0%Q H1) as I1. pose proof (nth_In l 0%Q H2) as I2.
  rewrite En in I1, I2.
  destruct (Nat.even (S n)).
  - set (a := nth (S n / 2 - 1) l 0%Q) in *. set (b := nth (S n / 2) l 0%Q) in *.
    destruct (Qlt_le_dec b a) as [Hba | Hab].
    + exists (Qred ((a + b) / (2 # 1))), b, a. repeat split; try assumption.
      * rewrite Qred_correct.
        pose proof (mean_between b a (Qlt_le_weak _ _ Hba)) as [M _].
        rewrite Qred_correct in M.
        setoid_replace ((a + b) / (2 # 1))%Q with ((b + a) / (2 # 1))%Q;
          [assumption | unfold Qdiv; rewrite (Qplus_comm a b); reflexivity].
      * rewrite Qred_correct.
        pose proof (mean_between b a (Qlt_le_weak _ _ Hba)) as [_ M].
        rewrite Qred_correct in M.
        setoid_replace ((a + b) / (2 # 1))%Q with ((b + a) / (2 # 1))%Q;
          [assumption | unfold Qdiv; rewrite (Qplus_comm a b); reflexivity].
    + exists (Qred ((a + b) / (2 # 1))), a, b. repeat split; try assumption;
        apply (mean_between a b Hab).
  - exists (nth (S n / 2) l 0%Q), (nth (S n / 2) l 0%Q), (nth (S n / 2) l 0%Q).
    repeat split; try assumption; apply Qle_refl.
Qed.

(** X9.  On a column without text that holds at least one number, the
    median fill of lines 140-143 succeeds: every absent cell receives
    one and the same number, which lies between two values of the
    column; the present cells are kept, and afterwards the column holds
    numbers only. *)
Theorem median_fill_leaves_no_gap (col : string) (df : DataFrame) (s : Series) :
  getitem df col = Ok s ->
  existsb is_str (values s) = false ->
  nums (values s) <> [] ->
  exists q lo hi,
    fill_median col df
    = Ok (setitem df col
            (mkSeries (dt s) (map (fillna_cell (Num q)) (values s))))
    /\ In (Num lo) (values s) /\ In (Num hi) (values s)
    /\ (lo <= q <= hi)%Q
    /\ forallb is_num (map (fillna_cell (Num q)) (values s)) = true.
Proof.
  intros Hs Hstr Hne.
  assert (Hne' : sort Qle_bool (nums (values s)) <> []).
  { intros E. apply Hne. apply (f_equal (@List.length Q)) in E.
    rewrite length_sort in E. destruct (nums (values s)); [reflexivity | discriminate]. }
  destruct (median_sorted_between _ Hne') as (q & lo & hi & Hq & Hlo & Hhi & Hb).
  exists q, lo, hi. repeat split; try apply Hb.
  - unfold fill_median. rewrite Hs. cbn [bind]. unfold median.
    rewrite Hstr, Hq. reflexivity.
  - apply In_nums, (In_sort Qle_bool). assumption.
  - apply In_nums, (In_sort Qle_bool). assumption.
  - rewrite forallb_forall. intros c Hc. apply in_map_iff in Hc.
    destruct Hc as (c0 & <- & Hc0). rewrite existsb_false_forall in Hstr.
    specialize (Hstr c0 Hc0). destruct c0; simpl in *; congruence.
Qed.

Lemma median_fill_leaves_no_gap_witness :
  exists q lo hi,
    fill_median "age" [("age", mkSeries float64 [Num (19 # 1); NaN; Num (23 # 1)])]
    = Ok (setitem [("age", mkSeries float64 [Num (19 # 1); NaN; Num (23 # 1)])] "age"
            (mkSeries float64
               (map (fillna_cell (Num q)) [Num (19 # 1); NaN; Num (23 # 1)])))
    /\ In (Num lo) [Num (19 # 1); NaN; Num (23 # 1)]
    /\ In (Num hi) [Num (19 # 1); NaN; Num (23 # 1)]
    /\ (lo <= q <= hi)%Q
    /\ forallb is_num (map (fillna_cell (Num q)) [Num (19 # 1); NaN; Num (23 # 1)])
       = true.
Proof.
  apply (median_fill_leaves_no_gap "age"
           [("age", mkSeries float64 [Num (19 # 1); NaN; Num (23 # 1)])]
           (mkSeries float64 [Num (19 # 1); NaN; Num (23 # 1)])).
  - reflexivity.
  - reflexivity.
  - simpl. discriminate.
Defined.

Lemma numbers_hold_no_absent (l : list cell) :
  forallb is_num l = true -> existsb isna l = false.
Proof.
  intros H. apply existsb_false_forall. intros c Hc.
  rewrite forallb_forall in H. specialize (H c Hc). destruct c; simpl in *; congruence.
Qed.

(** X10.  What the count of remaining missing values after step 4
    (line 148) can show: [gender] and [department] have no absent cell
    left; each of the four numeric columns holds no text and is either
    free of absent cells or absent throughout. *)
Theorem imputation_remaining_missing (df out : DataFrame) :
  imputation df = Ok out ->
  (forall col, In col ["gender"; "department"] ->
     exists s, getitem out col = Ok s /\ existsb isna (values s) = false)
  /\ (forall col, In col ["age"; "attendance"; "assignment_score"; "exam_score"] ->
        exists s, getitem out col = Ok s
                  /\ existsb is_str (values s) = false
                  /\ (existsb isna (values s) = false
                      \/ forallb isna (values s) = true)).
Proof.
  intros H. destruct (imputation_inv df out H) as (Hnum & Hcat & _). split.
  - intros col Hcol. destruct (Hcat col Hcol) as (s & m & Hs & Hm & Hout).
    exists (fillna m s). split; [assumption |].
    apply item0_mode_present in Hm. unfold dropna in Hm.
    apply filter_In in Hm. destruct Hm as [_ Hm].
    apply existsb_false_forall. intros c Hc. cbn [fillna values] in Hc.
    apply in_map_iff in Hc. destruct Hc as (c0 & <- & _).
    destruct c0; simpl; [| reflexivity | reflexivity].
    destruct m; simpl in *; congruence.
  - intros col Hcol. destruct (Hnum col Hcol) as (s & m & Hs & Hm & Hout).
    exists (fillna m s). split; [assumption |].
    destruct (fillna_median_homogeneous s m Hm) as [Hstr Hhom].
    split; [assumption |].
    apply orb_true_iff in Hhom. destruct Hhom as [Hn | Ha]; [left | right; assumption].
    apply numbers_hold_no_absent; assumption.
Qed.

Lemma imputation_remaining_missing_witness :
  exists out,
    imputation tied_genders = Ok out
    /\ (forall col, In col ["gender"; "department"] ->
          exists s, getitem out col = Ok s /\ existsb isna (values s) = false).
Proof.
  destruct (imputation tied_genders) as [out |] eqn:E; [| vm_compute in E; discriminate].
  exists out. split; [reflexivity |].
  exact (proj1 (imputation_remaining_missing tied_genders out E)).
Defined.

(** ** Standardizing the categories *)

Lemma standardized_text_is_stripped (x : string) :
  strip (title (lower (strip x))) = title (lower (strip x)).
Proof.
  apply strip_clean.
  - unfold title. rewrite starts_clean_title_from, starts_clean_lower.
    unfold strip. apply starts_clean_rstrip, starts_clean_lstrip.
  - unfold title. rewrite ends_clean_title_from, ends_clean_lower.
    unfold strip. apply ends_clean_rstrip.
Qed.

Section Standardized.

Variable float_repr : Q -> string.

Lemma standardize_categories_result (df out : DataFrame) :
  standardize_categories float_repr df = Ok out ->
  exists g d f,
    getitem df "gender" = Ok g
    /\ getitem df "department" = Ok d
    /\ getitem df "final_grade" = Ok f
    /\ getitem out "gender"
       = Ok (mkSeries object (map (gender_cell float_repr) (values g)))
    /\ getitem out "department"
       = Ok (mkSeries object (map (standardize_cell float_repr) (values d)))
    /\ getitem out "final_grade"
       = Ok (mkSeries object (map (standardize_cell float_repr) (values f))).
Proof.
  intros H. destruct (standardize_categories_inv _ _ _ H)
    as (g & d & f & Hg & Hd & Hf & ->).
  exists g, d, f. repeat split; try assumption.
  - rewrite getitem_setitem_same. rewrite standardize_cells.
    unfold replace_dict. cbn [dt values]. rewrite map_map. reflexivity.
  - rewrite !getitem_setitem_other by discriminate.
    rewrite getitem_setitem_same, standardize_cells. reflexivity.
  - rewrite !getitem_setitem_other by discriminate.
    rewrite getitem_setitem_same, standardize_cells. reflexivity.
Qed.

(** X11.  On ASCII text step 5 is idempotent: when every cell of
    [gender], [department] and [final_grade] is ASCII text or absent,
    the step run on its own result succeeds and changes nothing.  (For
    text beyond ASCII Python's [title] need not be stable.) *)
Theorem standardize_categories_once_is_enough_for_ascii (df out : DataFrame) :
  (forall col s,
      In col ["gender"; "department"; "final_grade"] ->
      getitem df col = Ok s -> forallb ascii_cell (values s) = true) ->
  standardize_categories float_repr df = Ok out ->
  standardize_categories float_repr out = Ok out.
Proof.
  intros _ H.
  destruct (standardize_categories_result df out H)
    as (g & d & f & _ & _ & _ & Hg & Hd & Hf).
  exact (standardize_categories_settled float_repr out _ _ _ Hg Hd Hf).
Qed.

Lemma gender_cell_is_stripped_text (c : cell) :
  exists x, gender_cell float_repr c = Str x /\ strip x = x.
Proof.
  unfold gender_cell. destruct (standardize_cell_is_text float_repr c) as [y ->].
  cbn [replace_dict_cell].
  destruct (lookup gender_mapping (title (lower (strip y)))) as [v |] eqn:E.
  - exists v. split; [reflexivity |].
    destruct (lookup_gender_mapping _ _ E) as [-> | ->]; reflexivity.
  - eexists. split; [reflexivity |]. apply standardized_text_is_stripped.
Qed.

(** X12.  After step 5 the columns [gender], [department] and
    [final_grade] are text columns: every cell is a string without
    leading or trailing whitespace, none is absent.  A cell that was
    absent before the step, as a missing [final_grade] still is, has
    become the text "Nan". *)
Theorem standardize_categories_leaves_text (df out : DataFrame) :
  standardize_categories float_repr df = Ok out ->
  forall col, In col ["gender"; "department"; "final_grade"] ->
  exists s s',
    getitem df col = Ok s /\ getitem out col = Ok s'
    /\ dt s' = object
    /\ List.length (values s') = List.length (values s)
    /\ (forall c, In c (values s') -> exists x, c = Str x /\ strip x = x)
    /\ (forall i, nth_error (values s) i = Some NaN ->
                  nth_error (values s') i = Some (Str "Nan")).
Proof.
  intros H col Hcol.
  destruct (standardize_categories_result df out H)
    as (g & d & f & Hg & Hd & Hf & Hg' & Hd' & Hf').
  assert (Hstd : forall l c,
             In c (map (standardize_cell float_repr) l) ->
             exists x, c = Str x /\ strip x = x).
  { intros l c Hc. apply in_map_iff in Hc. destruct Hc as (c0 & <- & _).
    destruct (standardize_cell_is_text float_repr c0) as [y ->].
    eexists. split; [reflexivity |]. apply standardized_text_is_stripped. }
  simpl in Hcol. destruct Hcol as [<- | [<- | [<- | []]]].
  - exists g, (mkSeries object (map (gender_cell float_repr) (values g))).
    repeat split; try assumption.
    + cbn [values]. apply length_map.
    + cbn [values]. intros c Hc. apply in_map_iff in Hc.
      destruct Hc as (c0 & <- & _). apply gender_cell_is_stripped_text.
    + cbn [values]. intros i Hi. rewrite nth_error_map, Hi. reflexivity.
  - exists d, (mkSeries object (map (standardize_cell float_repr) (values d))).
    repeat split; try assumption.
    + cbn [values]. apply length_map.
    + cbn [values]. apply Hstd.
    + cbn [values]. intros i Hi. rewrite nth_error_map, Hi. reflexivity.
  - exists f, (mkSeries object (map (standardize_cell float_repr) (values f))).
    repeat split; try assumption.
    + cbn [values]. apply length_map.
    + cbn [values]. apply Hstd.
    + cbn [values]. intros i Hi. rewrite nth_error_map, Hi. reflexivity.
Qed.

End Standardized.

Lemma standardize_categories_once_is_enough_for_ascii_witness :
  (forall col s,
      In col ["gender"; "department"; "final_grade"] ->
      getitem tied_genders col = Ok s -> forallb ascii_cell (values s) = true)
  /\ exists out,
       standardize_categories decimal_repr tied_genders = Ok out
       /\ standardize_categories decimal_repr out = Ok out.
Proof.
  assert (Hascii : forall col s,
             In col ["gender"; "department"; "final_grade"] ->
             getitem tied_genders col = Ok s ->
             forallb ascii_cell (values s) = true).
  { intros col s [<- | [<- | [<- | []]]] Hs; vm_compute in Hs;
      injection Hs as <-; reflexivity. }
  split; [exact Hascii |].
  destruct (standardize_categories decimal_repr tied_genders) as [out |] eqn:E;
    [| vm_compute in E; discriminate].
  exists out. split; [reflexivity |].
  exact (standardize_categories_once_is_enough_for_ascii decimal_repr
           tied_genders out Hascii E).
Defined.

Lemma standardize_categories_leaves_text_witness :
  exists out,
    standardize_categories decimal_repr tied_genders = Ok out
    /\ exists s s',
         getitem tied_genders "gender" = Ok s /\ getitem out "gender" = Ok s'
         /\ dt s' = object
         /\ List.length (values s') = List.length (values s)
         /\ (forall c, In c (values s') -> exists x, c = Str x /\ strip x = x)
         /\ (forall i, nth_error (values s) i = Some NaN ->
                       nth_error (values s') i = Some (Str "Nan")).
Proof.
  destruct (standardize_categories decimal_repr tied_genders) as [out |] eqn:E;
    [| vm_compute in E; discriminate].
  exists out. split; [reflexivity |].
  apply (standardize_categories_leaves_text decimal_repr tied_genders out E).
  simpl. tauto.
Defined.

(** ** What loading hands to the cleaning *)

Lemma parse_field_marker (x : string) :
  is_marker (parse_field x) = true -> x = "-" \/ x = "missing".
Proof.
  unfold parse_field.
  destruct (existsb (String.eqb x) na_values) eqn:Ena; [discriminate |].
  cbn [is_marker]. intros H. apply existsb_exists in H.
  destruct H as (y & Hy & Hxy). apply String.eqb_eq in Hxy. subst y.
  unfold missing_markers in Hy. simpl in Hy.
  destruct Hy as [<- | [<- | [<- | [<- | [<- | [<- | [<- | []]]]]]]];
    solve [auto | vm_compute in Ena; discriminate].
Qed.

Section Loaded.

Variable to_float : string -> option Q.

Lemma coerce_parsed_no_text (c : cell) :
  parses to_float c = true -> is_str (coerce to_float c) = false.
Proof.
  destruct c as [| x | q]; simpl; try reflexivity.
  destruct (to_float x); [reflexivity | discriminate].
Qed.

Lemma infer_column_spec (fields : list string) :
  List.length (values (infer_column to_float fields)) = List.length fields
  /\ (dt (infer_column to_float fields) = float64 ->
      existsb is_str (values (infer_column to_float fields)) = false)
  /\ (forall c, In c (values (infer_column to_float fields)) ->
                is_marker c = true -> c = Str "-" \/ c = Str "missing").
Proof.
  unfold infer_column.
  destruct (map parse_field fields) as [| c0 cells] eqn:E.
  - destruct fields; [| discriminate]. simpl. repeat split; try tauto; discriminate.
  - rewrite <- E.
    destruct (forallb (parses to_float) (map parse_field fields)) eqn:P;
      cbn [values dt].
    + rewrite !length_map. split; [reflexivity |]. split.
      * intros _. apply existsb_false_forall. intros c Hc.
        apply in_map_iff in Hc. destruct Hc as (c1 & <- & Hc1).
        rewrite forallb_forall in P. apply coerce_parsed_no_text. auto.
      * intros c Hc Hm. apply in_map_iff in Hc. destruct Hc as (c1 & <- & Hc1).
        rewrite forallb_forall in P.
        pose proof (coerce_parsed_no_text c1 (P c1 Hc1)) as Hn.
        destruct (coerce to_float c1); simpl in *; discriminate.
    + rewrite length_map. split; [reflexivity |]. split; [discriminate |].
      intros c Hc Hm. apply in_map_iff in Hc. destruct Hc as (x & <- & _).
      pose proof (parse_field_marker x Hm) as Hx. unfold parse_field in *.
      destruct (existsb (String.eqb x) na_values); [discriminate |].
      destruct Hx as [-> | ->]; auto.
Qed.

Lemma read_csv_columns (file : csv) (df : DataFrame) :
  read_csv to_float file = Ok df ->
  exists header records,
    file = header :: records
    /\ columns df = get_header header
    /\ forall col s, In (col, s) df ->
         exists fields,
           s = infer_column to_float fields
           /\ List.length fields = List.length records.
Proof.
  unfold read_csv. destruct file as [| header records]; [discriminate |].
  match goal with |- context [existsb ?f records] => destruct (existsb f records) end;
    [discriminate |].
  intros H. injection H as <-. exists header, records.
  split; [reflexivity |]. split; [apply columns_of_header |].
  intros col s Hin. apply in_map_iff in Hin. destruct Hin as (p & Hp & _).
  injection Hp as _ <-. eexists. split; [reflexivity |]. apply length_map.
Qed.

(** X13.  Of the seven missing markers that step 2 looks for, only "-"
    and "missing" can occur in a table that [read_csv] has loaded: the
    other five are among the texts that loading already reads as
    absent. *)
Theorem loaded_table_markers (file : csv) (df : DataFrame) :
  read_csv to_float file = Ok df ->
  forall col s c,
    In (col, s) df -> In c (values s) -> is_marker c = true ->
    c = Str "-" \/ c = Str "missing".
Proof.
  intros H col s c Hin Hc Hm.
  destruct (read_csv_columns file df H) as (header & records & _ & _ & Hcols).
  destruct (Hcols col s Hin) as (fields & -> & _).
  exact (proj2 (proj2 (infer_column_spec fields)) c Hc Hm).
Qed.

End Loaded.

Lemma loaded_table_markers_witness :
  exists df,
    read_csv decimal_to_float dash_age = Ok df
    /\ forall col s c,
         In (col, s) df -> In c (values s) -> is_marker c = true ->
         c = Str "-" \/ c = Str "missing".
Proof.
  destruct (read_csv decimal_to_float dash_age) as [df |] eqn:E;
    [| vm_compute in E; discriminate].
  exists df. split; [reflexivity |].
  exact (loaded_table_markers decimal_to_float dash_age df E).
Defined.

(** ** The score columns: what is reported and what is converted *)

Section Reported.

Variable to_float : string -> option Q.

Lemma to_numeric_no_text (s : Series) :
  existsb is_str (values (to_numeric to_float s)) = false.
Proof.
  apply existsb_false_forall. intros c Hc. cbn [to_numeric values] in Hc.
  apply in_map_iff in Hc. destruct Hc as (c0 & <- & _).
  destruct c0 as [| x | q]; simpl; try reflexivity.
  destruct (to_float x); reflexivity.
Qed.

(** X15.  The count of non-numeric values that Task 3 reports for a
    score column is the number of cells the conversion of step 3 newly
    turns absent: after [to_numeric] the column has as many absent
    cells as before plus that count.  The cells reported are the text
    cells that do not parse as a number; a converted column holds no
    text, and converting it again changes nothing. *)
Theorem reported_non_numeric_become_absent (s : Series) :
  isna_sum (to_numeric to_float s) = (isna_sum s + mask_sum (invalid to_float s))%nat
  /\ (forall i, nth i (invalid to_float s) false = true <->
                exists x, nth_error (values s) i = Some (Str x)
                          /\ to_float x = None)
  /\ existsb is_str (values (to_numeric to_float s)) = false
  /\ to_numeric to_float (to_numeric to_float s) = to_numeric to_float s.
Proof.
  split; [| split; [| split]].
  - unfold isna_sum, invalid, mask_sum, to_numeric. cbn [values].
    induction (values s) as [| c l IH]; [reflexivity |].
    cbn [map combine filter fst snd].
    destruct c as [| x | q]; cbn [coerce isna notna negb andb id].
    + cbn [List.length]. rewrite IH. reflexivity.
    + destruct (to_float x); cbn [isna andb negb id List.length]; rewrite IH; lia.
    + exact IH.
  - unfold invalid, to_numeric. cbn [values].
    induction (values s) as [| c l IH]; intros i.
    + destruct i; simpl; split; try discriminate; intros (x & H & _); discriminate.
    + destruct i as [| i]; cbn [map combine nth nth_error fst snd].
      * destruct c as [| x | q]; cbn [coerce isna notna negb andb].
        -- split; [discriminate | intros (y & H & _); discriminate].
        -- destruct (to_float x) eqn:E; cbn [isna andb negb].
           ++ split; [discriminate |]. intros (y & H & Hy). congruence.
           ++ split; [eauto | reflexivity].
        -- split; [discriminate | intros (y & H & _); discriminate].
      * apply IH.
  - apply to_numeric_no_text.
  - apply to_numeric_settled; [reflexivity | apply to_numeric_no_text].
Qed.

End Reported.
